(** * Samsung S5P HDMI transmitter driver (drivers/media/platform/s5p-tv/hdmi_drv.c)

    A shallow embedding of the driver's control plane: the timing catalogue,
    the register programmer, the mode-apply protocol, the stream start/stop
    sequences, the power/clock sequencer, the runtime-PM handlers and the
    hot-plug interrupt handler; and, in a part of its own, of attach and
    detach (hdmi_probe, hdmi_remove) with the resource bookkeeping below
    them.

    The driver talks to three kinds of collaborators: the memory-mapped
    register window (readl / writel / writeb), the clock and regulator
    framework, and the two I2C sub-devices (HDMIPHY and the optional MHL
    repeater).  Every such interaction is recorded, in program order, in a
    trace of events; values that come back from a collaborator (register
    reads, return codes) are supplied by an environment that may look at the
    whole history.  Kernel log output (dev_dbg, dev_err, dev_info, pr_info)
    is not modelled; a call of hdmi_dumpregs is one event. *)

From Stdlib Require Import ZArith List String Bool Lia.
Import ListNotations.
Local Open Scope Z_scope.

(** ** Machine integers

    u32 and u8 values are integers with the wrap-around written out. *)

Definition u32 (x : Z) : Z := x mod 2 ^ 32.
Definition u8 (x : Z) : Z := x mod 2 ^ 8.

Definition shl32 (x n : Z) : Z := u32 (Z.shiftl x n).
Definition shr32 (x n : Z) : Z := Z.shiftr x n.
Definition not32 (x : Z) : Z := u32 (Z.lnot x).
Definition add32 (x y : Z) : Z := u32 (x + y).
Definition sub32 (x y : Z) : Z := u32 (x - y).

Declare Scope c_scope.
Delimit Scope c_scope with c.
Infix ".<<" := shl32 (at level 36, left associativity) : c_scope.
Infix ".>>" := shr32 (at level 36, left associativity) : c_scope.
Infix ".&" := Z.land (at level 41, left associativity) : c_scope.
Infix ".|" := Z.lor (at level 46, left associativity) : c_scope.
Notation ".~ x" := (not32 x) (at level 30, right associativity) : c_scope.
Local Open Scope c_scope.

(** [~0] passed for a u32 parameter. *)
Definition all_ones : Z := .~ 0.

(** ** errno values

    Modelled from the spec: the errno constants come from kernel headers
    that are not among the sources at hand; the spec names the EIO class
    for a PHY lock timeout, the values are the usual Linux ones. *)

Definition EIO : Z := 5.
Definition ENODEV : Z := 19.
Definition EINVAL : Z := 22.
Definition MAX_ERRNO : Z := 4095.

(** ** Register window

    regs-hdmi.h is not among the sources at hand.  Register identifiers are
    kept symbolic; an address is an identifier plus the byte offset that
    the driver adds to it ([hdev->regs + reg_id + 4]).  Only the registers
    that the driver names outside hdmi_dumpregs are listed. *)

Inductive reg_id : Set :=
  | HDMI_INTC_CON | HDMI_INTC_FLAG | HDMI_PHY_RSTOUT | HDMI_CORE_RSTOUT
  | HDMI_CON_0 | HDMI_CON_2 | HDMI_PHY_STATUS | HDMI_MODE_SEL
  | HDMI_BLUE_SCREEN_0 | HDMI_BLUE_SCREEN_1 | HDMI_BLUE_SCREEN_2
  | HDMI_H_BLANK_0 | HDMI_H_SYNC_GEN_0 | HDMI_VSYNC_POL | HDMI_V_BLANK_0
  | HDMI_V_SYNC_GEN_1_0 | HDMI_INT_PRO_MODE | HDMI_H_V_LINE_0
  | HDMI_V_BLANK_F_0 | HDMI_V_SYNC_GEN_2_0 | HDMI_V_SYNC_GEN_3_0
  | HDMI_TG_CMD | HDMI_TG_H_FSZ_L | HDMI_TG_HACT_ST_L | HDMI_TG_HACT_SZ_L
  | HDMI_TG_V_FSZ_L | HDMI_TG_VSYNC_L | HDMI_TG_VSYNC2_L | HDMI_TG_VACT_ST_L
  | HDMI_TG_VACT_SZ_L | HDMI_TG_FIELD_CHG_L | HDMI_TG_VACT_ST2_L
  | HDMI_TG_VSYNC_TOP_HDMI_L | HDMI_TG_VSYNC_BOT_HDMI_L
  | HDMI_TG_FIELD_TOP_HDMI_L | HDMI_TG_FIELD_BOT_HDMI_L.

Scheme Equality for reg_id.

Definition addr : Set := (reg_id * Z)%type.

Definition addr_eqb (a b : addr) : bool :=
  reg_id_beq (fst a) (fst b) && (snd a =? snd b).

(** Bit masks of regs-hdmi.h, taken as parameters. *)
Class RegsHdmi : Set := {
  HDMI_INTC_EN_GLOBAL : Z;
  HDMI_INTC_EN_HPD_PLUG : Z;
  HDMI_INTC_EN_HPD_UNPLUG : Z;
  HDMI_INTC_FLAG_HPD_PLUG : Z;
  HDMI_INTC_FLAG_HPD_UNPLUG : Z;
  HDMI_PHY_SW_RSTOUT : Z;
  HDMI_CORE_SW_RSTOUT : Z;
  HDMI_BLUE_SCR_EN : Z;
  HDMI_EN : Z;
  HDMI_DVI_PERAMBLE_EN : Z;
  HDMI_DVI_BAND_EN : Z;
  HDMI_PHY_STATUS_READY : Z;
  HDMI_MODE_DVI_EN : Z;
  HDMI_MODE_MASK : Z;
  HDMI_TG_FIELD_EN : Z;
  HDMI_TG_EN : Z
}.

(** ** V4L2 digital-video timings

    The uapi headers are not among the sources at hand.  The driver reads
    or writes one member of struct v4l2_bt_timings only, [flags]; the other
    members travel as an opaque payload. *)

Class V4l2Hdr : Type := {
  bt_other : Type;
  V4L2_DV_FL_CAN_REDUCE_FPS : Z;
  V4L2_DV_BT_656_1120 : Z;
  V4L2_DV_BT_STD_CEA861 : Z;
  V4L2_DV_BT_CAP_INTERLACED : Z;
  V4L2_DV_BT_CAP_PROGRESSIVE : Z;
  V4L2_MBUS_FMT_FIXED : Z;
  V4L2_COLORSPACE_SRGB : Z;
  V4L2_FIELD_NONE : Z;
  V4L2_FIELD_INTERLACED : Z
}.

Section Types.

Context {V : V4l2Hdr}.

Record v4l2_bt_timings : Type := {
  bt_members : bt_other;
  flags : Z
}.

Record v4l2_dv_timings : Type := {
  type : Z;
  bt : v4l2_bt_timings
}.

(** ** Driver data *)

Record hdmi_pulse : Set := {
  beg : Z;
  end_ : Z
}.

Record hdmi_timings : Set := {
  hact : hdmi_pulse;
  hsyn_pol : Z; (* 0 - high, 1 - low *)
  hsyn : hdmi_pulse;
  interlaced : Z;
  vact : hdmi_pulse * hdmi_pulse;
  vsyn_pol : Z; (* 0 - high, 1 - low *)
  vsyn_off : Z;
  vsyn : hdmi_pulse * hdmi_pulse
}.

(** Clock handles of struct hdmi_resources. *)
Inductive clk : Set :=
  | hdmi | sclk_hdmi | sclk_pixel | sclk_hdmiphy | hdmiphy.

(** A sub-device pointer is NULL ([None]) or a handle. *)
Inductive v4l2_subdev : Set := Subdev (id : Z).

Record hdmi_device : Type := {
  (** subdev of HDMIPHY interface *)
  phy_sd : option v4l2_subdev;
  (** subdev of MHL interface *)
  mhl_sd : option v4l2_subdev;
  (** configuration of current graphic mode *)
  cur_conf : option hdmi_timings;
  (** flag indicating that timings are dirty *)
  cur_conf_dirty : Z;
  (** current timings *)
  cur_timings : v4l2_dv_timings
}.

(** ** Events and environment *)

Inductive sd_op : Type :=
  | video_s_stream (enable : Z)
  | video_s_dv_timings (timings : v4l2_dv_timings)
  | core_s_power (on : Z)
  | pad_dv_timings_cap.

Inductive event : Type :=
  | EvReadl (a : addr) (v : Z)
  | EvWritel (a : addr) (v : Z)
  | EvWriteb (a : addr) (v : Z)
  | EvMdelay (ms : Z)
  | EvSubdevCall (sd : v4l2_subdev) (op : sd_op) (r : Z)
  | EvClkEnable (c : clk)
  | EvClkDisable (c : clk)
  | EvClkSetParent (c parent : clk)
  | EvRegulatorBulkEnable (r : Z)
  | EvRegulatorBulkDisable
  | EvPmRuntime (get : bool) (r : Z)
  | EvDumpregs (prefix : string).

Inductive query : Type :=
  | QReadl (a : addr)
  | QSubdevCall (sd : v4l2_subdev) (op : sd_op)
  | QRegulatorBulkEnable
  | QPmRuntime (get : bool).

(** Structures that cross the sub-device interface. *)

Record v4l2_mbus_framefmt : Set := {
  width : Z;
  height : Z;
  code : Z;
  field : Z;
  colorspace : Z
}.

Record v4l2_enum_dv_timings : Type := {
  index : Z;
  pad : Z;
  timings : v4l2_dv_timings
}.

Record v4l2_bt_timings_cap : Set := {
  min_width : Z;
  max_width : Z;
  min_height : Z;
  max_height : Z;
  min_pixelclock : Z;
  max_pixelclock : Z;
  standards : Z;
  capabilities : Z
}.

Record v4l2_dv_timings_cap : Set := {
  cap_type : Z;
  cap_pad : Z;
  cap_bt : v4l2_bt_timings_cap
}.

Record state : Type := {
  device : hdmi_device;
  trace : list event
}.

End Types.

(** The environment answers a query from the history so far.  A call of
    the PHY's dv_timings_cap also fills in the caller's structure. *)
Class Environment {V : V4l2Hdr} : Type := {
  env : list event -> query -> Z;
  env_dv_timings_cap : list event -> v4l2_dv_timings_cap -> v4l2_dv_timings_cap
}.

(** What the driver takes from v4l2-dv-timings: the CEA-861 descriptors of
    the catalogue and the comparison of two descriptors. *)
Class V4l2DvTimings {V : V4l2Hdr} : Type := {
  V4L2_DV_BT_CEA_720X480P59_94 : v4l2_dv_timings;
  V4L2_DV_BT_CEA_720X576P50 : v4l2_dv_timings;
  V4L2_DV_BT_CEA_1280X720P50 : v4l2_dv_timings;
  V4L2_DV_BT_CEA_1280X720P60 : v4l2_dv_timings;
  V4L2_DV_BT_CEA_1920X1080P24 : v4l2_dv_timings;
  V4L2_DV_BT_CEA_1920X1080P30 : v4l2_dv_timings;
  V4L2_DV_BT_CEA_1920X1080P50 : v4l2_dv_timings;
  V4L2_DV_BT_CEA_1920X1080I50 : v4l2_dv_timings;
  V4L2_DV_BT_CEA_1920X1080I60 : v4l2_dv_timings;
  V4L2_DV_BT_CEA_1920X1080P60 : v4l2_dv_timings;
  v4l2_match_dv_timings :
    v4l2_dv_timings -> v4l2_dv_timings -> Z -> bool
}.

Section Driver.

Context {R : RegsHdmi} {V : V4l2Hdr} {L : V4l2DvTimings} {E : Environment}.

(** ** The driver monad: state passing, with [None] for a NULL dereference *)

Definition M (A : Type) : Type := state -> option (A * state).

Definition ret {A} (a : A) : M A := fun s => Some (a, s).

Definition bind {A B} (m : M A) (k : A -> M B) : M B :=
  fun s => match m s with
           | Some (a, s') => k a s'
           | None => None
           end.

Definition fault {A} : M A := fun _ => None.

Notation "x <- m ;; k" := (bind m (fun x => k))
  (at level 61, m at next level, right associativity).
Notation "m ;; k" := (bind m (fun _ => k))
  (at level 61, right associativity).

Definition get_hdev : M hdmi_device := fun s => Some (device s, s).

Definition put_hdev (d : hdmi_device) : M unit :=
  fun s => Some (tt, {| device := d; trace := trace s |}).

Definition emit (e : event) : M unit :=
  fun s => Some (tt, {| device := device s; trace := trace s ++ [e] |}).

Definition ask (q : query) : M Z := fun s => Some (env (trace s) q, s).

Definition ask_dv_timings_cap (cap : v4l2_dv_timings_cap)
    : M v4l2_dv_timings_cap :=
  fun s => Some (env_dv_timings_cap (trace s) cap, s).

(** *** Bus accessors *)

Definition readl (a : addr) : M Z :=
  v <- ask (QReadl a);;
  emit (EvReadl a (u32 v));;
  ret (u32 v).

Definition writel (value : Z) (a : addr) : M unit :=
  emit (EvWritel a (u32 value)).

Definition writeb (value : Z) (a : addr) : M unit :=
  emit (EvWriteb a (u8 value)).

Definition mdelay (ms : Z) : M unit := emit (EvMdelay ms).

(** *** Register helpers of the driver *)

Definition hdmi_write (reg : reg_id) (value : Z) : M unit :=
  writel value (reg, 0).

Definition hdmi_write_mask (reg : reg_id) (value mask : Z) : M unit :=
  old <- readl (reg, 0);;
  let value := (value .& mask) .| (old .& .~ mask) in
  writel value (reg, 0).

Definition hdmi_writeb (reg : reg_id) (value : Z) : M unit :=
  writeb value (reg, 0).

(** The switch falls through: entering at [default] writes four bytes,
    at [case 3] three, at [case 2] two, at [case 1] one. *)
Definition hdmi_writebn (reg : reg_id) (n : Z) (value : Z) : M unit :=
  let entry := if n =? 1 then 1 else if n =? 2 then 2
               else if n =? 3 then 3 else 4 in
  (if 4 <=? entry then writeb (value .>> 24) (reg, 12) else ret tt);;
  (if 3 <=? entry then writeb (value .>> 16) (reg, 8) else ret tt);;
  (if 2 <=? entry then writeb (value .>> 8) (reg, 4) else ret tt);;
  writeb (value .>> 0) (reg, 0).

Definition hdmi_read (reg : reg_id) : M Z := readl (reg, 0).

(** ** Register programmer *)

Definition hdmi_timing_apply (t : hdmi_timings) : M unit :=
  (* setting core registers *)
  hdmi_writebn HDMI_H_BLANK_0 2 (beg (hact t));;
  hdmi_writebn HDMI_H_SYNC_GEN_0 3
    ((hsyn_pol t .<< 20) .| (end_ (hsyn t) .<< 10) .| beg (hsyn t));;
  hdmi_writeb HDMI_VSYNC_POL (vsyn_pol t);;
  hdmi_writebn HDMI_V_BLANK_0 3
    ((beg (fst (vact t)) .<< 11) .| end_ (fst (vact t)));;
  hdmi_writebn HDMI_V_SYNC_GEN_1_0 3
    ((beg (fst (vsyn t)) .<< 12) .| end_ (fst (vsyn t)));;
  (if negb (interlaced t =? 0) then
     let vsyn_trans := add32 (beg (hsyn t)) (vsyn_off t) in
     hdmi_writeb HDMI_INT_PRO_MODE 1;;
     hdmi_writebn HDMI_H_V_LINE_0 3
       ((end_ (hact t) .<< 12) .| end_ (snd (vact t)));;
     hdmi_writebn HDMI_V_BLANK_F_0 3
       ((end_ (snd (vact t)) .<< 11) .| beg (snd (vact t)));;
     hdmi_writebn HDMI_V_SYNC_GEN_2_0 3
       ((beg (snd (vsyn t)) .<< 12) .| end_ (snd (vsyn t)));;
     hdmi_writebn HDMI_V_SYNC_GEN_3_0 3
       ((vsyn_trans .<< 12) .| vsyn_trans)
   else
     hdmi_writeb HDMI_INT_PRO_MODE 0;;
     hdmi_writebn HDMI_H_V_LINE_0 3
       ((end_ (hact t) .<< 12) .| end_ (fst (vact t))));;
  (* Timing generator registers *)
  hdmi_writebn HDMI_TG_H_FSZ_L 2 (end_ (hact t));;
  hdmi_writebn HDMI_TG_HACT_ST_L 2 (beg (hact t));;
  hdmi_writebn HDMI_TG_HACT_SZ_L 2 (sub32 (end_ (hact t)) (beg (hact t)));;
  hdmi_writebn HDMI_TG_VSYNC_L 2 (beg (fst (vsyn t)));;
  hdmi_writebn HDMI_TG_VACT_ST_L 2 (beg (fst (vact t)));;
  hdmi_writebn HDMI_TG_VACT_SZ_L 2
    (sub32 (end_ (fst (vact t))) (beg (fst (vact t))));;
  hdmi_writebn HDMI_TG_VSYNC_TOP_HDMI_L 2 (beg (fst (vsyn t)));;
  hdmi_writebn HDMI_TG_FIELD_TOP_HDMI_L 2 (beg (fst (vsyn t)));;
  (if negb (interlaced t =? 0) then
     hdmi_write_mask HDMI_TG_CMD all_ones HDMI_TG_FIELD_EN;;
     hdmi_writebn HDMI_TG_V_FSZ_L 2 (end_ (snd (vact t)));;
     hdmi_writebn HDMI_TG_VSYNC2_L 2 (beg (snd (vsyn t)));;
     hdmi_writebn HDMI_TG_FIELD_CHG_L 2 (end_ (fst (vact t)));;
     hdmi_writebn HDMI_TG_VACT_ST2_L 2 (beg (snd (vact t)));;
     hdmi_writebn HDMI_TG_VSYNC_BOT_HDMI_L 2 (beg (snd (vsyn t)));;
     hdmi_writebn HDMI_TG_FIELD_BOT_HDMI_L 2 (beg (snd (vsyn t)))
   else
     hdmi_write_mask HDMI_TG_CMD 0 HDMI_TG_FIELD_EN;;
     hdmi_writebn HDMI_TG_V_FSZ_L 2 (end_ (fst (vact t)))).

(** ** Collaborators *)

(** Modelled from the spec: the sub-device dispatch macro of
    media/v4l2-subdev.h is not among the sources at hand.  An absent
    capability (NULL pointer) is checked at the call site and yields
    -ENODEV without any call; otherwise the sub-device answers. *)
Definition v4l2_subdev_call (sd : option v4l2_subdev) (op : sd_op) : M Z :=
  match sd with
  | None => ret (- ENODEV)
  | Some d =>
      r <- ask (QSubdevCall d op);;
      emit (EvSubdevCall d op r);;
      ret r
  end.

Definition clk_enable (c : clk) : M unit := emit (EvClkEnable c).
Definition clk_disable (c : clk) : M unit := emit (EvClkDisable c).
Definition clk_set_parent (c parent : clk) : M unit :=
  emit (EvClkSetParent c parent).

Definition regulator_bulk_enable : M Z :=
  r <- ask QRegulatorBulkEnable;;
  emit (EvRegulatorBulkEnable r);;
  ret r.

Definition regulator_bulk_disable : M unit := emit EvRegulatorBulkDisable.

Definition pm_runtime_get_sync : M Z :=
  r <- ask (QPmRuntime true);;
  emit (EvPmRuntime true r);;
  ret r.

Definition pm_runtime_put_sync : M Z :=
  r <- ask (QPmRuntime false);;
  emit (EvPmRuntime false r);;
  ret r.

Definition IS_ERR_VALUE (x : Z) : bool := (- MAX_ERRNO <=? x) && (x <? 0).

Definition IRQ_HANDLED : Z := 1.

(** The register dump is a diagnostic snapshot: one event. *)
Definition hdmi_dumpregs (prefix : string) : M unit :=
  emit (EvDumpregs prefix).

(** ** Hot-plug interrupt handler *)

Definition hdmi_irq_handler : M Z :=
  intc_flag <- hdmi_read HDMI_INTC_FLAG;;
  (* clearing flags for HPD plug/unplug *)
  (if negb (intc_flag .& HDMI_INTC_FLAG_HPD_UNPLUG =? 0) then
     hdmi_write_mask HDMI_INTC_FLAG all_ones HDMI_INTC_FLAG_HPD_UNPLUG
   else ret tt);;
  (if negb (intc_flag .& HDMI_INTC_FLAG_HPD_PLUG =? 0) then
     hdmi_write_mask HDMI_INTC_FLAG all_ones HDMI_INTC_FLAG_HPD_PLUG
   else ret tt);;
  ret IRQ_HANDLED.

(** ** Mode apply *)

Definition hdmi_reg_init : M unit :=
  (* enable HPD interrupts *)
  hdmi_write_mask HDMI_INTC_CON all_ones
    (HDMI_INTC_EN_GLOBAL .| HDMI_INTC_EN_HPD_PLUG .| HDMI_INTC_EN_HPD_UNPLUG);;
  (* choose DVI mode *)
  hdmi_write_mask HDMI_MODE_SEL HDMI_MODE_DVI_EN HDMI_MODE_MASK;;
  hdmi_write_mask HDMI_CON_2 all_ones
    (HDMI_DVI_PERAMBLE_EN .| HDMI_DVI_BAND_EN);;
  (* disable bluescreen *)
  hdmi_write_mask HDMI_CON_0 0 HDMI_BLUE_SCR_EN;;
  (* choose bluescreen color *)
  hdmi_writeb HDMI_BLUE_SCREEN_0 0x12;;
  hdmi_writeb HDMI_BLUE_SCREEN_1 0x34;;
  hdmi_writeb HDMI_BLUE_SCREEN_2 0x56.

(** [hdmi_dev->cur_conf_dirty = v] *)
Definition with_dirty (d : hdmi_device) (v : Z) : hdmi_device :=
  {| phy_sd := phy_sd d; mhl_sd := mhl_sd d;
     cur_conf := cur_conf d; cur_conf_dirty := v;
     cur_timings := cur_timings d |}.

Definition set_cur_conf_dirty (v : Z) : M unit :=
  d <- get_hdev;;
  put_hdev (with_dirty d v).

(** [conf] is dereferenced by hdmi_timing_apply: a NULL [cur_conf] faults
    there, before any register of the timing block is written. *)
Definition hdmi_conf_apply : M Z :=
  hdmi_dev <- get_hdev;;
  let conf := cur_conf hdmi_dev in
  (* skip if conf is already synchronized with HW *)
  if cur_conf_dirty hdmi_dev =? 0 then ret 0 else
  (* reset hdmiphy *)
  hdmi_write_mask HDMI_PHY_RSTOUT all_ones HDMI_PHY_SW_RSTOUT;;
  mdelay 10;;
  hdmi_write_mask HDMI_PHY_RSTOUT 0 HDMI_PHY_SW_RSTOUT;;
  mdelay 10;;
  (* configure timings *)
  r <- v4l2_subdev_call (phy_sd hdmi_dev)
         (video_s_dv_timings (cur_timings hdmi_dev));;
  if negb (r =? 0) then ret r else
  (* resetting HDMI core *)
  hdmi_write_mask HDMI_CORE_RSTOUT 0 HDMI_CORE_SW_RSTOUT;;
  mdelay 10;;
  hdmi_write_mask HDMI_CORE_RSTOUT all_ones HDMI_CORE_SW_RSTOUT;;
  mdelay 10;;
  hdmi_reg_init;;
  (* setting core registers *)
  match conf with
  | None => fault
  | Some t => hdmi_timing_apply t
  end;;
  set_cur_conf_dirty 0;;
  ret 0.

(** ** Timing catalogue *)

Definition hdmi_timings_480p : hdmi_timings := {|
  hact := {| beg := 138; end_ := 858 |};
  hsyn_pol := 1;
  hsyn := {| beg := 16; end_ := 16 + 62 |};
  interlaced := 0;
  vact := ({| beg := 42 + 3; end_ := 522 + 3 |}, {| beg := 0; end_ := 0 |});
  vsyn_pol := 1;
  vsyn_off := 0;
  vsyn := ({| beg := 6 + 3; end_ := 12 + 3 |}, {| beg := 0; end_ := 0 |})
|}.

Definition hdmi_timings_576p50 : hdmi_timings := {|
  hact := {| beg := 144; end_ := 864 |};
  hsyn_pol := 1;
  hsyn := {| beg := 12; end_ := 12 + 64 |};
  interlaced := 0;
  vact := ({| beg := 44 + 5; end_ := 620 + 5 |}, {| beg := 0; end_ := 0 |});
  vsyn_pol := 1;
  vsyn_off := 0;
  vsyn := ({| beg := 0 + 5; end_ := 5 + 5 |}, {| beg := 0; end_ := 0 |})
|}.

Definition hdmi_timings_720p60 : hdmi_timings := {|
  hact := {| beg := 370; end_ := 1650 |};
  hsyn_pol := 0;
  hsyn := {| beg := 110; end_ := 110 + 40 |};
  interlaced := 0;
  vact := ({| beg := 25 + 5; end_ := 745 + 5 |}, {| beg := 0; end_ := 0 |});
  vsyn_pol := 0;
  vsyn_off := 0;
  vsyn := ({| beg := 0 + 5; end_ := 5 + 5 |}, {| beg := 0; end_ := 0 |})
|}.

Definition hdmi_timings_720p50 : hdmi_timings := {|
  hact := {| beg := 700; end_ := 1980 |};
  hsyn_pol := 0;
  hsyn := {| beg := 440; end_ := 440 + 40 |};
  interlaced := 0;
  vact := ({| beg := 25 + 5; end_ := 745 + 5 |}, {| beg := 0; end_ := 0 |});
  vsyn_pol := 0;
  vsyn_off := 0;
  vsyn := ({| beg := 0 + 5; end_ := 5 + 5 |}, {| beg := 0; end_ := 0 |})
|}.

Definition hdmi_timings_1080p24 : hdmi_timings := {|
  hact := {| beg := 830; end_ := 2750 |};
  hsyn_pol := 0;
  hsyn := {| beg := 638; end_ := 638 + 44 |};
  interlaced := 0;
  vact := ({| beg := 41 + 4; end_ := 1121 + 4 |}, {| beg := 0; end_ := 0 |});
  vsyn_pol := 0;
  vsyn_off := 0;
  vsyn := ({| beg := 0 + 4; end_ := 5 + 4 |}, {| beg := 0; end_ := 0 |})
|}.

Definition hdmi_timings_1080p60 : hdmi_timings := {|
  hact := {| beg := 280; end_ := 2200 |};
  hsyn_pol := 0;
  hsyn := {| beg := 88; end_ := 88 + 44 |};
  interlaced := 0;
  vact := ({| beg := 41 + 4; end_ := 1121 + 4 |}, {| beg := 0; end_ := 0 |});
  vsyn_pol := 0;
  vsyn_off := 0;
  vsyn := ({| beg := 0 + 4; end_ := 5 + 4 |}, {| beg := 0; end_ := 0 |})
|}.

Definition hdmi_timings_1080i60 : hdmi_timings := {|
  hact := {| beg := 280; end_ := 2200 |};
  hsyn_pol := 0;
  hsyn := {| beg := 88; end_ := 88 + 44 |};
  interlaced := 1;
  vact := ({| beg := 20 + 2; end_ := 560 + 2 |},
           {| beg := 583 + 2; end_ := 1123 + 2 |});
  vsyn_pol := 0;
  vsyn_off := 1100;
  vsyn := ({| beg := 0 + 2; end_ := 5 + 2 |},
           {| beg := 562 + 2; end_ := 567 + 2 |})
|}.

Definition hdmi_timings_1080i50 : hdmi_timings := {|
  hact := {| beg := 720; end_ := 2640 |};
  hsyn_pol := 0;
  hsyn := {| beg := 528; end_ := 528 + 44 |};
  interlaced := 1;
  vact := ({| beg := 20 + 2; end_ := 560 + 2 |},
           {| beg := 583 + 2; end_ := 1123 + 2 |});
  vsyn_pol := 0;
  vsyn_off := 1320;
  vsyn := ({| beg := 0 + 2; end_ := 5 + 2 |},
           {| beg := 562 + 2; end_ := 567 + 2 |})
|}.

Definition hdmi_timings_1080p50 : hdmi_timings := {|
  hact := {| beg := 720; end_ := 2640 |};
  hsyn_pol := 0;
  hsyn := {| beg := 528; end_ := 528 + 44 |};
  interlaced := 0;
  vact := ({| beg := 41 + 4; end_ := 1121 + 4 |}, {| beg := 0; end_ := 0 |});
  vsyn_pol := 0;
  vsyn_off := 0;
  vsyn := ({| beg := 0 + 4; end_ := 5 + 4 |}, {| beg := 0; end_ := 0 |})
|}.

(* default hdmi_timings index of the timings configured on probe *)
Definition HDMI_DEFAULT_TIMINGS_IDX : nat := 0.

(** One row of the table [hdmi_timings[]]; the last member points at one of
    the parameter sets above. *)
Record hdmi_timings_row : Type := {
  reduced_fps : bool;
  dv_timings : v4l2_dv_timings;
  hdmi_timings_ptr : hdmi_timings
}.

Definition hdmi_timings_tab : list hdmi_timings_row := [
  {| reduced_fps := false; dv_timings := V4L2_DV_BT_CEA_720X480P59_94;
     hdmi_timings_ptr := hdmi_timings_480p |};
  {| reduced_fps := false; dv_timings := V4L2_DV_BT_CEA_720X576P50;
     hdmi_timings_ptr := hdmi_timings_576p50 |};
  {| reduced_fps := false; dv_timings := V4L2_DV_BT_CEA_1280X720P50;
     hdmi_timings_ptr := hdmi_timings_720p50 |};
  {| reduced_fps := true; dv_timings := V4L2_DV_BT_CEA_1280X720P60;
     hdmi_timings_ptr := hdmi_timings_720p60 |};
  {| reduced_fps := false; dv_timings := V4L2_DV_BT_CEA_1920X1080P24;
     hdmi_timings_ptr := hdmi_timings_1080p24 |};
  {| reduced_fps := false; dv_timings := V4L2_DV_BT_CEA_1920X1080P30;
     hdmi_timings_ptr := hdmi_timings_1080p60 |};
  {| reduced_fps := false; dv_timings := V4L2_DV_BT_CEA_1920X1080P50;
     hdmi_timings_ptr := hdmi_timings_1080p50 |};
  {| reduced_fps := false; dv_timings := V4L2_DV_BT_CEA_1920X1080I50;
     hdmi_timings_ptr := hdmi_timings_1080i50 |};
  {| reduced_fps := false; dv_timings := V4L2_DV_BT_CEA_1920X1080I60;
     hdmi_timings_ptr := hdmi_timings_1080i60 |};
  {| reduced_fps := false; dv_timings := V4L2_DV_BT_CEA_1920X1080P60;
     hdmi_timings_ptr := hdmi_timings_1080p60 |}
].

Definition ARRAY_SIZE {A} (a : list A) : nat := List.length a.

(** ** Stream start and stop *)

(** The PHY lock wait: [for (tries = 100; tries; --tries)], returning the
    value of [tries] on exit. *)
Fixpoint hdmi_streamon_wait (tries : nat) : M nat :=
  match tries with
  | O => ret O
  | S tries' =>
      val <- hdmi_read HDMI_PHY_STATUS;;
      if negb (val .& HDMI_PHY_STATUS_READY =? 0) then ret tries
      else
        mdelay 1;;
        hdmi_streamon_wait tries'
  end.

Definition is_null {A} (p : option A) : bool :=
  match p with None => true | Some _ => false end.

Definition hdmi_streamon : M Z :=
  r <- hdmi_conf_apply;;
  if negb (r =? 0) then ret r else
  d <- get_hdev;;
  r <- v4l2_subdev_call (phy_sd d) (video_s_stream 1);;
  if negb (r =? 0) then ret r else
  (* waiting for HDMIPHY's PLL to get to steady state *)
  tries <- hdmi_streamon_wait 100;;
  (* steady state not achieved *)
  if Nat.eqb tries 0 then
    v4l2_subdev_call (phy_sd d) (video_s_stream 0);;
    hdmi_dumpregs "hdmiphy - s_stream";;
    ret (- EIO)
  else
  (* starting MHL *)
  r <- v4l2_subdev_call (mhl_sd d) (video_s_stream 1);;
  if negb (is_null (mhl_sd d)) && negb (r =? 0) then
    v4l2_subdev_call (phy_sd d) (video_s_stream 0);;
    hdmi_dumpregs "mhl - s_stream";;
    ret (- EIO)
  else
  (* hdmiphy clock is used for HDMI in streaming mode *)
  clk_disable sclk_hdmi;;
  clk_set_parent sclk_hdmi sclk_hdmiphy;;
  clk_enable sclk_hdmi;;
  (* enable HDMI and timing generator *)
  hdmi_write_mask HDMI_CON_0 all_ones HDMI_EN;;
  hdmi_write_mask HDMI_TG_CMD all_ones HDMI_TG_EN;;
  hdmi_dumpregs "streamon";;
  ret 0.

Definition hdmi_streamoff : M Z :=
  d <- get_hdev;;
  hdmi_write_mask HDMI_CON_0 0 HDMI_EN;;
  hdmi_write_mask HDMI_TG_CMD 0 HDMI_TG_EN;;
  (* pixel(vpll) clock is used for HDMI in config mode *)
  clk_disable sclk_hdmi;;
  clk_set_parent sclk_hdmi sclk_pixel;;
  clk_enable sclk_hdmi;;
  v4l2_subdev_call (mhl_sd d) (video_s_stream 0);;
  v4l2_subdev_call (phy_sd d) (video_s_stream 0);;
  hdmi_dumpregs "streamoff";;
  ret 0.

Definition hdmi_s_stream (enable : Z) : M Z :=
  if negb (enable =? 0) then hdmi_streamon else hdmi_streamoff.

(** ** Power and clock sequencer *)

Definition hdmi_resource_poweron : M Z :=
  (* turn HDMI power on *)
  r <- regulator_bulk_enable;;
  if r <? 0 then ret r else
  (* power-on hdmi physical interface *)
  clk_enable hdmiphy;;
  (* use VPP as parent clock; HDMIPHY is not working yet *)
  clk_set_parent sclk_hdmi sclk_pixel;;
  (* turn clocks on *)
  clk_enable sclk_hdmi;;
  ret 0.

Definition hdmi_resource_poweroff : M unit :=
  (* turn clocks off *)
  clk_disable sclk_hdmi;;
  (* power-off hdmiphy *)
  clk_disable hdmiphy;;
  (* turn HDMI power off *)
  regulator_bulk_disable.

(** The runtime-PM core may run hdmi_runtime_resume or hdmi_runtime_suspend
    from inside these calls; the two callbacks are operations of their
    own below. *)
Definition hdmi_s_power (on : Z) : M Z :=
  r <- (if negb (on =? 0) then pm_runtime_get_sync else pm_runtime_put_sync);;
  (* only values < 0 indicate errors *)
  ret (if IS_ERR_VALUE r then r else 0).

(** ** Timings operations of the sub-device *)

(** The search loop of hdmi_s_dv_timings: the index of the first row, from
    [i] on, whose descriptor matches; the index after the last row if none
    does. *)
Fixpoint hdmi_s_dv_timings_loop (rows : list hdmi_timings_row)
    (timings : v4l2_dv_timings) (i : nat) : nat :=
  match rows with
  | [] => i
  | row :: rows' =>
      if v4l2_match_dv_timings (dv_timings row) timings 0 then i
      else hdmi_s_dv_timings_loop rows' timings (S i)
  end.

Definition clear_can_reduce_fps (t : v4l2_dv_timings) : v4l2_dv_timings :=
  {| type := type t;
     bt := {| bt_members := bt_members (bt t);
              flags := flags (bt t) .& .~ V4L2_DV_FL_CAN_REDUCE_FPS |} |}.

Definition hdmi_s_dv_timings (timings : v4l2_dv_timings) : M Z :=
  d <- get_hdev;;
  let i := hdmi_s_dv_timings_loop hdmi_timings_tab timings 0 in
  if Nat.eqb i (ARRAY_SIZE hdmi_timings_tab) then ret (- EINVAL) else
  match nth_error hdmi_timings_tab i with
  | None => fault
  | Some row =>
      put_hdev {| phy_sd := phy_sd d; mhl_sd := mhl_sd d;
                  cur_conf := Some (hdmi_timings_ptr row);
                  cur_conf_dirty := 1;
                  cur_timings :=
                    if negb (reduced_fps row)
                    then clear_can_reduce_fps timings
                    else timings |};;
      ret 0
  end.

Definition hdmi_g_dv_timings : M (Z * v4l2_dv_timings) :=
  d <- get_hdev;;
  ret (0, cur_timings d).

Definition hdmi_g_mbus_fmt (fmt : v4l2_mbus_framefmt)
    : M (Z * v4l2_mbus_framefmt) :=
  d <- get_hdev;;
  match cur_conf d with
  | None => ret (- EINVAL, fmt)
  | Some t =>
      let w := sub32 (end_ (hact t)) (beg (hact t)) in
      let h := sub32 (end_ (fst (vact t))) (beg (fst (vact t))) in
      if negb (interlaced t =? 0) then
        ret (0, {| width := w; height := u32 (h * 2);
                   code := V4L2_MBUS_FMT_FIXED;
                   field := V4L2_FIELD_INTERLACED;
                   colorspace := V4L2_COLORSPACE_SRGB |})
      else
        ret (0, {| width := w; height := h;
                   code := V4L2_MBUS_FMT_FIXED;
                   field := V4L2_FIELD_NONE;
                   colorspace := V4L2_COLORSPACE_SRGB |})
  end.

Definition hdmi_enum_dv_timings (timings : v4l2_enum_dv_timings)
    : M (Z * v4l2_enum_dv_timings) :=
  if negb (pad timings =? 0) then ret (- EINVAL, timings) else
  if Z.of_nat (ARRAY_SIZE hdmi_timings_tab) <=? index timings
  then ret (- EINVAL, timings) else
  match nth_error hdmi_timings_tab (Z.to_nat (index timings)) with
  | None => fault
  | Some row =>
      ret (0, {| index := index timings; pad := pad timings;
                 timings := if negb (reduced_fps row)
                            then clear_can_reduce_fps (dv_timings row)
                            else dv_timings row |})
  end.

Definition phy_dv_timings_cap (sd : option v4l2_subdev)
    (cap : v4l2_dv_timings_cap) : M v4l2_dv_timings_cap :=
  match sd with
  | None => ret cap
  | Some d =>
      r <- ask (QSubdevCall d pad_dv_timings_cap);;
      filled <- ask_dv_timings_cap cap;;
      emit (EvSubdevCall d pad_dv_timings_cap r);;
      ret filled
  end.

Definition hdmi_dv_timings_cap (cap : v4l2_dv_timings_cap)
    : M (Z * v4l2_dv_timings_cap) :=
  d <- get_hdev;;
  if negb (cap_pad cap =? 0) then ret (- EINVAL, cap) else
  (* Let the phy fill in the pixelclock range *)
  cap <- phy_dv_timings_cap (phy_sd d) cap;;
  ret (0, {| cap_type := V4L2_DV_BT_656_1120;
             cap_pad := cap_pad cap;
             cap_bt := {| min_width := 720;
                          max_width := 1920;
                          min_height := 480;
                          max_height := 1080;
                          min_pixelclock := min_pixelclock (cap_bt cap);
                          max_pixelclock := max_pixelclock (cap_bt cap);
                          standards := V4L2_DV_BT_STD_CEA861;
                          capabilities :=
                            V4L2_DV_BT_CAP_INTERLACED .|
                            V4L2_DV_BT_CAP_PROGRESSIVE |} |}).

(** ** Runtime power management *)

Definition hdmi_runtime_suspend : M Z :=
  d <- get_hdev;;
  v4l2_subdev_call (mhl_sd d) (core_s_power 0);;
  hdmi_resource_poweroff;;
  (* flag that device context is lost *)
  set_cur_conf_dirty 1;;
  ret 0.

Definition hdmi_runtime_resume : M Z :=
  d <- get_hdev;;
  r <- hdmi_resource_poweron;;
  if r <? 0 then ret r else
  (* starting MHL *)
  r <- v4l2_subdev_call (mhl_sd d) (core_s_power 1);;
  if negb (is_null (mhl_sd d)) && negb (r =? 0) then
    hdmi_resource_poweroff;;
    ret r
  else
    ret 0.

(** ** Attach

    The Mode Config State that hdmi_probe leaves behind when it succeeds:
    both sub-device pointers come from the platform data (the PHY is
    mandatory, probe fails without it). *)
Definition hdmi_probe_device (phy : v4l2_subdev) (mhl : option v4l2_subdev)
    : option hdmi_device :=
  match nth_error hdmi_timings_tab HDMI_DEFAULT_TIMINGS_IDX with
  | None => None
  | Some row =>
      Some {| phy_sd := Some phy; mhl_sd := mhl;
              cur_conf := Some (hdmi_timings_ptr row);
              cur_conf_dirty := 1;
              cur_timings := dv_timings row |}
  end.

(** ** The operations of a device instance after attach *)

Inductive hdmi_operation : Type :=
  | op_s_power (on : Z)
  | op_s_dv_timings (timings : v4l2_dv_timings)
  | op_g_dv_timings
  | op_g_mbus_fmt (fmt : v4l2_mbus_framefmt)
  | op_s_stream (enable : Z)
  | op_enum_dv_timings (timings : v4l2_enum_dv_timings)
  | op_dv_timings_cap (cap : v4l2_dv_timings_cap)
  | op_runtime_suspend
  | op_runtime_resume
  | op_irq_handler.

Definition run_operation (op : hdmi_operation) : M Z :=
  match op with
  | op_s_power on => hdmi_s_power on
  | op_s_dv_timings t => hdmi_s_dv_timings t
  | op_g_dv_timings => r <- hdmi_g_dv_timings;; ret (fst r)
  | op_g_mbus_fmt fmt => r <- hdmi_g_mbus_fmt fmt;; ret (fst r)
  | op_s_stream enable => hdmi_s_stream enable
  | op_enum_dv_timings t => r <- hdmi_enum_dv_timings t;; ret (fst r)
  | op_dv_timings_cap cap => r <- hdmi_dv_timings_cap cap;; ret (fst r)
  | op_runtime_suspend => hdmi_runtime_suspend
  | op_runtime_resume => hdmi_runtime_resume
  | op_irq_handler => hdmi_irq_handler
  end.

(** ** Observations on traces *)

(** The state [s] with the events [d] appended to its trace. *)
Definition after (s : state) (d : list event) : state :=
  {| device := device s; trace := trace s ++ d |}.

(** What hdmi_write_mask stores when it has read [old]. *)
Definition mask_merge (value mask old : Z) : Z :=
  u32 ((value .& mask) .| (old .& .~ mask)).

Definition write_mask_events (reg : reg_id) (value mask old : Z)
    : list event :=
  [EvReadl (reg, 0) old; EvWritel (reg, 0) (mask_merge value mask old)].

(** The events of one v4l2_subdev_call answered [r]: none for a NULL
    pointer. *)
Definition call_events (sd : option v4l2_subdev) (op : sd_op) (r : Z)
    : list event :=
  match sd with
  | None => []
  | Some d => [EvSubdevCall d op r]
  end.

(** Unsuccessful samples of the PHY status, each followed by its delay. *)
Definition poll_events (vals : list Z) : list event :=
  flat_map (fun v => [EvReadl (HDMI_PHY_STATUS, 0) v; EvMdelay 1]) vals.

Definition phy_reset_events (o1 o2 : Z) : list event :=
  write_mask_events HDMI_PHY_RSTOUT all_ones HDMI_PHY_SW_RSTOUT o1 ++
  [EvMdelay 10] ++
  write_mask_events HDMI_PHY_RSTOUT 0 HDMI_PHY_SW_RSTOUT o2 ++
  [EvMdelay 10].

Definition core_reset_events (o1 o2 : Z) : list event :=
  write_mask_events HDMI_CORE_RSTOUT 0 HDMI_CORE_SW_RSTOUT o1 ++
  [EvMdelay 10] ++
  write_mask_events HDMI_CORE_RSTOUT all_ones HDMI_CORE_SW_RSTOUT o2 ++
  [EvMdelay 10].

Definition clk_switch_events (parent : clk) : list event :=
  [EvClkDisable sclk_hdmi; EvClkSetParent sclk_hdmi parent;
   EvClkEnable sclk_hdmi].

Definition is_clk_event (e : event) : bool :=
  match e with
  | EvClkEnable _ | EvClkDisable _ | EvClkSetParent _ _ => true
  | _ => false
  end.

Definition is_reg_write (e : event) : bool :=
  match e with
  | EvWritel _ _ | EvWriteb _ _ => true
  | _ => false
  end.

Definition is_phy_sample (e : event) : bool :=
  match e with
  | EvReadl a _ => addr_eqb a (HDMI_PHY_STATUS, 0)
  | _ => false
  end.

(** Some sample of the PHY status in [d] shows the ready bit. *)
Definition ready_seen (d : list event) : bool :=
  existsb
    (fun e =>
       match e with
       | EvReadl a v =>
           addr_eqb a (HDMI_PHY_STATUS, 0) &&
           negb (v .& HDMI_PHY_STATUS_READY =? 0)
       | _ => false
       end) d.

(** The 1 ms delay of the PHY lock wait. *)
Definition is_poll_delay (e : event) : bool :=
  match e with
  | EvMdelay ms => ms =? 1
  | _ => false
  end.

(** An event of the configuration sequences: it touches no clock, does not
    sample the PHY status and is not the 1 ms delay of the lock wait. *)
Definition config_event (e : event) : Prop :=
  is_clk_event e = false /\ is_phy_sample e = false /\ e <> EvMdelay 1.

(** [e] stores to the register [reg], in whatever lane. *)
Definition stores_to (reg : reg_id) (e : event) : bool :=
  match e with
  | EvWritel a _ | EvWriteb a _ => reg_id_beq (fst a) reg
  | _ => false
  end.

(** Every store to [reg] in [d] is the second half of a read-modify-write
    of [reg] and hands back the bits [m] as they were just read: the driver
    does not change them.  [prev] is the event before [d]. *)
Fixpoint preserves_bits (reg : reg_id) (m : Z) (prev : option event)
    (d : list event) : Prop :=
  match d with
  | [] => True
  | e :: d' =>
      (stores_to reg e = true ->
       exists old v,
         prev = Some (EvReadl (reg, 0) old) /\
         e = EvWritel (reg, 0) v /\
         v .& m = old .& m) /\
      preserves_bits reg m (Some e) d'
  end.

(** The events [d] leave the core-enable bit and the
    timing-generator-enable bit as they are; the bits that share their
    registers are told apart from them by the two premises. *)
Definition enable_kept (d : list event) : Prop :=
  HDMI_BLUE_SCR_EN .& HDMI_EN = 0 ->
  HDMI_TG_FIELD_EN .& HDMI_TG_EN = 0 ->
  preserves_bits HDMI_CON_0 HDMI_EN None d /\
  preserves_bits HDMI_TG_CMD HDMI_TG_EN None d.

(** An event that is neither a clock operation nor a register write. *)
Definition passive_event (e : event) : Prop :=
  is_clk_event e = false /\ is_reg_write e = false.

(** A computation that never changes the device structure. *)
Definition keeps_device {A} (m : M A) : Prop :=
  forall s a s', m s = Some (a, s') -> device s' = device s.

(** A computation that returns from every state. *)
Definition always_returns {A} (m : M A) : Prop :=
  forall s, exists a s', m s = Some (a, s').

(** A sample of the PHY status that does not show the ready bit. *)
Definition not_ready (v : Z) : Prop :=
  0 <= v < 2 ^ 32 /\ v .& HDMI_PHY_STATUS_READY = 0.

Definition count_events (p : event -> bool) (d : list event) : nat :=
  List.length (filter p d).

(** The byte most recently stored at [a] by writeb. *)
Fixpoint last_writeb (a : addr) (tr : list event) : option Z :=
  match tr with
  | [] => None
  | e :: tr' =>
      match last_writeb a tr' with
      | Some v => Some v
      | None =>
          match e with
          | EvWriteb a' v => if addr_eqb a a' then Some v else None
          | _ => None
          end
      end
  end.

(** The value held by the [n] byte lanes [reg], [reg + 4], ... (least
    significant first), once every lane has been written. *)
Fixpoint written_bytes (reg : reg_id) (n : nat) (tr : list event)
    : option Z :=
  match n with
  | O => Some 0
  | S k =>
      match last_writeb (reg, 4 * Z.of_nat k) tr, written_bytes reg k tr with
      | Some b, Some lo => Some (lo + b * 2 ^ (8 * Z.of_nat k))
      | _, _ => None
      end
  end.

(** The registers that describe the second field of an interlaced mode. *)
Definition second_field_regs : list reg_id :=
  [HDMI_V_BLANK_F_0; HDMI_V_SYNC_GEN_2_0; HDMI_V_SYNC_GEN_3_0;
   HDMI_TG_VSYNC2_L; HDMI_TG_FIELD_CHG_L; HDMI_TG_VACT_ST2_L;
   HDMI_TG_VSYNC_BOT_HDMI_L; HDMI_TG_FIELD_BOT_HDMI_L].

(** The byte stores of one hdmi_writebn that enters its switch with [k]
    lanes to go: lane [k - 1] first, lane 0 last. *)
Definition lane_events (reg : reg_id) (k : nat) (value : Z) : list event :=
  map (fun i => EvWriteb (reg, 4 * Z.of_nat i)
                  (u8 (value .>> (8 * Z.of_nat i))))
      (rev (seq 0 k)).

(** The [n] byte lanes of [reg] have all been written and hold [v]. *)
Definition lanes_hold (tr : list event) (x : reg_id * nat * Z) : Prop :=
  let '(reg, n, v) := x in written_bytes reg n tr = Some v.

Definition clk_eqb (a b : clk) : bool :=
  match a, b with
  | hdmi, hdmi | sclk_hdmi, sclk_hdmi | sclk_pixel, sclk_pixel
  | sclk_hdmiphy, sclk_hdmiphy | hdmiphy, hdmiphy => true
  | _, _ => false
  end.

(** How often [d] enables, and disables, the clock [c]. *)
Definition enables (c : clk) (d : list event) : nat :=
  count_events
    (fun e => match e with EvClkEnable c' => clk_eqb c c' | _ => false end) d.

Definition disables (c : clk) (d : list event) : nat :=
  count_events
    (fun e => match e with EvClkDisable c' => clk_eqb c c' | _ => false end) d.

(** How often [d] switches the regulators on (an answer below 0 is a
    failure: nothing was switched on), and off. *)
Definition power_ups (d : list event) : nat :=
  count_events
    (fun e => match e with EvRegulatorBulkEnable r => 0 <=? r | _ => false end)
    d.

Definition power_downs (d : list event) : nat :=
  count_events
    (fun e => match e with EvRegulatorBulkDisable => true | _ => false end) d.

(** The clocks follow the power in [d]: the two gated clocks, the shared
    clock and the PHY clock, are enabled once more than disabled for every
    time the regulators went on and stayed on, and the other three clocks
    are neither enabled nor disabled. *)
Definition clocks_follow_power (d : list event) : Prop :=
  (enables sclk_hdmi d + power_downs d =
   disables sclk_hdmi d + power_ups d)%nat /\
  (enables hdmiphy d + power_downs d =
   disables hdmiphy d + power_ups d)%nat /\
  forall c, c = hdmi \/ c = sclk_pixel \/ c = sclk_hdmiphy ->
    enables c d = O /\ disables c d = O.

(** The operations [ops] one after the other, in whatever order the V4L2
    core, the runtime-PM core and the interrupt controller issue them; the
    results in that order. *)
Fixpoint run_operations (ops : list hdmi_operation) : M (list Z) :=
  match ops with
  | [] => ret []
  | op :: ops' =>
      r <- run_operation op;;
      rs <- run_operations ops';;
      ret (r :: rs)
  end.

(** An event of the clock framework or of the regulators. *)
Definition is_power_event (e : event) : bool :=
  match e with
  | EvClkEnable _ | EvClkDisable _ | EvClkSetParent _ _
  | EvRegulatorBulkEnable _ | EvRegulatorBulkDisable => true
  | _ => false
  end.

(** An event that leaves the clocks and the regulators alone. *)
Definition quiet (e : event) : Prop := is_power_event e = false.

(** A computation that only appends to the trace, and only events that
    satisfy [P]. *)
Definition emits_only (P : event -> Prop) {A} (m : M A) : Prop :=
  forall s a s', m s = Some (a, s') ->
    exists d, trace s' = trace s ++ d /\ Forall P d.

(** What holds of the device structure from attach on: the sub-device
    pointers are the ones set by probe, the dirty flag is 0 or 1 and
    [cur_conf] points at the parameter set of a catalogue row. *)
Definition attached (phy : v4l2_subdev) (mhl : option v4l2_subdev)
    (d : hdmi_device) : Prop :=
  phy_sd d = Some phy /\ mhl_sd d = mhl /\
  (cur_conf_dirty d = 0 \/ cur_conf_dirty d = 1) /\
  exists row,
    In row hdmi_timings_tab /\ cur_conf d = Some (hdmi_timings_ptr row).

(** The registers of a parameter set, each with its lane count and the
    value that the packed fields make up when none of them overflows:
    what hdmi_timing_apply means to program. *)
Definition timing_registers (t : hdmi_timings) : list (reg_id * nat * Z) :=
  [(HDMI_H_BLANK_0, 2%nat, beg (hact t));
   (HDMI_H_SYNC_GEN_0, 3%nat,
    hsyn_pol t * 2 ^ 20 + end_ (hsyn t) * 2 ^ 10 + beg (hsyn t));
   (HDMI_V_BLANK_0, 3%nat,
    beg (fst (vact t)) * 2 ^ 11 + end_ (fst (vact t)));
   (HDMI_V_SYNC_GEN_1_0, 3%nat,
    beg (fst (vsyn t)) * 2 ^ 12 + end_ (fst (vsyn t)));
   (HDMI_TG_H_FSZ_L, 2%nat, end_ (hact t));
   (HDMI_TG_HACT_ST_L, 2%nat, beg (hact t));
   (HDMI_TG_HACT_SZ_L, 2%nat, end_ (hact t) - beg (hact t));
   (HDMI_TG_VSYNC_L, 2%nat, beg (fst (vsyn t)));
   (HDMI_TG_VACT_ST_L, 2%nat, beg (fst (vact t)));
   (HDMI_TG_VACT_SZ_L, 2%nat,
    end_ (fst (vact t)) - beg (fst (vact t)));
   (HDMI_TG_VSYNC_TOP_HDMI_L, 2%nat, beg (fst (vsyn t)));
   (HDMI_TG_FIELD_TOP_HDMI_L, 2%nat, beg (fst (vsyn t)))] ++
  (if interlaced t =? 0 then
     [(HDMI_H_V_LINE_0, 3%nat,
       end_ (hact t) * 2 ^ 12 + end_ (fst (vact t)));
      (HDMI_TG_V_FSZ_L, 2%nat, end_ (fst (vact t)))]
   else
     [(HDMI_H_V_LINE_0, 3%nat,
       end_ (hact t) * 2 ^ 12 + end_ (snd (vact t)));
      (HDMI_V_BLANK_F_0, 3%nat,
       end_ (snd (vact t)) * 2 ^ 11 + beg (snd (vact t)));
      (HDMI_V_SYNC_GEN_2_0, 3%nat,
       beg (snd (vsyn t)) * 2 ^ 12 + end_ (snd (vsyn t)));
      (HDMI_V_SYNC_GEN_3_0, 3%nat,
       (beg (hsyn t) + vsyn_off t) * 2 ^ 12 + (beg (hsyn t) + vsyn_off t));
      (HDMI_TG_V_FSZ_L, 2%nat, end_ (snd (vact t)));
      (HDMI_TG_VSYNC2_L, 2%nat, beg (snd (vsyn t)));
      (HDMI_TG_FIELD_CHG_L, 2%nat, end_ (fst (vact t)));
      (HDMI_TG_VACT_ST2_L, 2%nat, beg (snd (vact t)));
      (HDMI_TG_VSYNC_BOT_HDMI_L, 2%nat, beg (snd (vsyn t)));
      (HDMI_TG_FIELD_BOT_HDMI_L, 2%nat, beg (snd (vsyn t)))]).

(** An event other than a byte store. *)
Definition no_writeb (e : event) : bool :=
  match e with
  | EvWriteb _ _ => false
  | _ => true
  end.

End Driver.

(** * Attach and detach

    hdmi_probe, hdmi_remove and the resource bookkeeping below them talk to
    the driver core, the clock framework, the regulator framework, the
    allocator, the V4L2 core and the I2C core.  Each such call is an event
    of its own trace; what a call returns is supplied by the platform, which
    may look at the history.  A pointer is the integer value of the address,
    NULL is 0.  Log output and the copying of names (strlcpy) are not
    modelled. *)

Definition ENXIO : Z := 6.
Definition ENOMEM : Z := 12.

(** linux/err.h is not among the sources at hand: the two functions that
    the driver uses of it are parameters, with the one property of them that
    the driver relies on. *)
Class LinuxErr : Type := {
  ERR_PTR : Z -> Z;
  IS_ERR : Z -> bool;
  IS_ERR_ERR_PTR : IS_ERR (ERR_PTR (- EINVAL)) = true
}.

Inductive resource_type : Set := IORESOURCE_MEM | IORESOURCE_IRQ.

(** What the driver reads of a struct resource: [res->start] and
    [resource_size(res)]. *)
Record resource : Set := {
  start : Z;
  resource_size : Z
}.

Inductive i2c_adapter : Set := Adapter (id : Z).
Inductive i2c_board_info : Set := BoardInfo (id : Z).

Record s5p_hdmi_platform_data : Set := {
  hdmiphy_bus : Z;
  hdmiphy_info : option i2c_board_info;
  mhl_bus : Z;
  mhl_info : option i2c_board_info
}.

Inductive kevent : Set :=
  | KDevmKzalloc (ok : bool)
  | KClkGet (id : string) (c : Z)
  | KClkPut (c : Z)
  | KKcalloc (n : Z) (p : Z)
  | KKfree (p : Z)
  | KRegulatorBulkGet (num : Z) (supplies : list string) (r : Z)
  | KRegulatorBulkFree (num : Z) (p : Z)
  | KPlatformGetResource (type : resource_type) (num : Z) (r : option resource)
  | KDevmIoremap (offset size : Z) (p : Z)
  | KDevmRequestIrq (irq : Z) (name : string) (r : Z)
  | KV4l2DeviceRegister (r : Z)
  | KV4l2DeviceUnregister
  | KI2cGetAdapter (nr : Z) (a : option i2c_adapter)
  | KI2cPutAdapter (a : i2c_adapter)
  | KV4l2I2cNewSubdevBoard (a : i2c_adapter) (info : i2c_board_info)
      (sd : option v4l2_subdev)
  | KClkEnable (c : Z)
  | KClkDisable (c : Z)
  | KPmRuntimeEnable
  | KPmRuntimeDisable
  | KV4l2SubdevInit
  | KDevSetDrvdata
  | KDisableIrq (irq : Z).

(** The answers of the platform, each from the history so far. *)
Class Platform : Type := {
  plat_devm_kzalloc : list kevent -> bool;
  plat_clk_get : list kevent -> string -> Z;
  plat_kcalloc : list kevent -> Z -> Z;
  plat_regulator_bulk_get : list kevent -> Z -> list string -> Z;
  plat_platform_get_resource :
    list kevent -> resource_type -> Z -> option resource;
  plat_devm_ioremap : list kevent -> Z -> Z -> Z;
  plat_devm_request_irq : list kevent -> Z -> string -> Z;
  plat_v4l2_device_register : list kevent -> Z;
  plat_i2c_get_adapter : list kevent -> Z -> option i2c_adapter;
  plat_v4l2_i2c_new_subdev_board :
    list kevent -> i2c_adapter -> i2c_board_info -> option v4l2_subdev
}.

Section Attach.

Context {V : V4l2Hdr} {L : V4l2DvTimings} {LE : LinuxErr} {P : Platform}.

Record hdmi_resources : Set := {
  res_hdmi : Z;
  res_sclk_hdmi : Z;
  res_sclk_pixel : Z;
  res_sclk_hdmiphy : Z;
  res_hdmiphy : Z;
  regul_bulk : Z;
  regul_count : Z
}.

(** The whole of struct hdmi_device: the register window, the interrupt
    line and the resources, beside the members that the operations use. *)
Record hdmi_device_mem : Type := {
  (** base address of HDMI registers *)
  regs : Z;
  (** HDMI interrupt *)
  irq : Z;
  (** other resources *)
  res : hdmi_resources;
  (** phy_sd, mhl_sd, cur_conf, cur_conf_dirty, cur_timings *)
  core : hdmi_device
}.

(** ** The monad of attach: the trace of kernel calls, [None] for an access
    outside the catalogue *)

Definition K (A : Type) : Type := list kevent -> option (A * list kevent).

Definition kret {A} (a : A) : K A := fun tr => Some (a, tr).

Definition kbind {A B} (m : K A) (k : A -> K B) : K B :=
  fun tr => match m tr with
            | Some (a, tr') => k a tr'
            | None => None
            end.

Definition kfault {A} : K A := fun _ => None.

Notation "x <- m ;; k" := (kbind m (fun x => k))
  (at level 61, m at next level, right associativity).
Notation "m ;; k" := (kbind m (fun _ => k))
  (at level 61, right associativity).

Definition kemit (e : kevent) : K unit := fun tr => Some (tt, tr ++ [e]).

(** A call that returns what the platform answers. *)
Definition kcall {A} (answer : list kevent -> A) (ev : A -> kevent) : K A :=
  fun tr => Some (answer tr, tr ++ [ev (answer tr)]).

Definition devm_kzalloc : K bool := kcall plat_devm_kzalloc KDevmKzalloc.

Definition clk_get (id : string) : K Z :=
  kcall (fun tr => plat_clk_get tr id) (KClkGet id).

Definition clk_put (c : Z) : K unit := kemit (KClkPut c).

Definition kcalloc (n : Z) : K Z :=
  kcall (fun tr => plat_kcalloc tr n) (KKcalloc n).

Definition kfree (p : Z) : K unit := kemit (KKfree p).

Definition regulator_bulk_get (num : Z) (supplies : list string) : K Z :=
  kcall (fun tr => plat_regulator_bulk_get tr num supplies)
        (KRegulatorBulkGet num supplies).

Definition regulator_bulk_free (num : Z) (p : Z) : K unit :=
  kemit (KRegulatorBulkFree num p).

Definition platform_get_resource (type : resource_type) (num : Z)
    : K (option resource) :=
  kcall (fun tr => plat_platform_get_resource tr type num)
        (KPlatformGetResource type num).

Definition devm_ioremap (offset size : Z) : K Z :=
  kcall (fun tr => plat_devm_ioremap tr offset size)
        (KDevmIoremap offset size).

Definition devm_request_irq (irq : Z) (name : string) : K Z :=
  kcall (fun tr => plat_devm_request_irq tr irq name)
        (KDevmRequestIrq irq name).

Definition v4l2_device_register : K Z :=
  kcall plat_v4l2_device_register KV4l2DeviceRegister.

Definition v4l2_device_unregister : K unit := kemit KV4l2DeviceUnregister.

Definition i2c_get_adapter (nr : Z) : K (option i2c_adapter) :=
  kcall (fun tr => plat_i2c_get_adapter tr nr) (KI2cGetAdapter nr).

Definition i2c_put_adapter (a : i2c_adapter) : K unit :=
  kemit (KI2cPutAdapter a).

Definition v4l2_i2c_new_subdev_board (a : i2c_adapter)
    (info : i2c_board_info) : K (option v4l2_subdev) :=
  kcall (fun tr => plat_v4l2_i2c_new_subdev_board tr a info)
        (KV4l2I2cNewSubdevBoard a info).

Definition pm_runtime_enable : K unit := kemit KPmRuntimeEnable.
Definition pm_runtime_disable : K unit := kemit KPmRuntimeDisable.
Definition v4l2_subdev_init : K unit := kemit KV4l2SubdevInit.
Definition dev_set_drvdata : K unit := kemit KDevSetDrvdata.
Definition disable_irq (irq : Z) : K unit := kemit (KDisableIrq irq).

(** ** Resources *)

Definition hdmi_resource_clear_clocks (res : hdmi_resources)
    : hdmi_resources :=
  {| res_hdmi := ERR_PTR (- EINVAL);
     res_sclk_hdmi := ERR_PTR (- EINVAL);
     res_sclk_pixel := ERR_PTR (- EINVAL);
     res_sclk_hdmiphy := ERR_PTR (- EINVAL);
     res_hdmiphy := ERR_PTR (- EINVAL);
     regul_bulk := regul_bulk res;
     regul_count := regul_count res |}.

(** [memset] of the whole of [res] to 0 *)
Definition hdmi_resources_zero : hdmi_resources :=
  {| res_hdmi := 0; res_sclk_hdmi := 0; res_sclk_pixel := 0;
     res_sclk_hdmiphy := 0; res_hdmiphy := 0;
     regul_bulk := 0; regul_count := 0 |}.

Definition hdmi_resources_cleanup (res : hdmi_resources) : K hdmi_resources :=
  (* put clocks, power *)
  (if negb (regul_count res =? 0)
   then regulator_bulk_free (regul_count res) (regul_bulk res)
   else kret tt);;
  (* kfree is NULL-safe *)
  kfree (regul_bulk res);;
  (if negb (IS_ERR (res_hdmiphy res)) then clk_put (res_hdmiphy res)
   else kret tt);;
  (if negb (IS_ERR (res_sclk_hdmiphy res)) then clk_put (res_sclk_hdmiphy res)
   else kret tt);;
  (if negb (IS_ERR (res_sclk_pixel res)) then clk_put (res_sclk_pixel res)
   else kret tt);;
  (if negb (IS_ERR (res_sclk_hdmi res)) then clk_put (res_sclk_hdmi res)
   else kret tt);;
  (if negb (IS_ERR (res_hdmi res)) then clk_put (res_hdmi res)
   else kret tt);;
  kret (hdmi_resource_clear_clocks hdmi_resources_zero).

Definition supply : list string :=
  ["hdmi-en"%string; "vdd"%string; "vdd_osc"%string; "vdd_pll"%string].

(** Every [goto fail] of hdmi_resources_init. *)
Definition hdmi_resources_init_fail (res : hdmi_resources)
    : K (Z * hdmi_resources) :=
  res <- hdmi_resources_cleanup res;;
  kret (- ENODEV, res).

Definition hdmi_resources_init : K (Z * hdmi_resources) :=
  let res := hdmi_resource_clear_clocks hdmi_resources_zero in
  (* get clocks, power *)
  c <- clk_get "hdmi";;
  let res :=
    {| res_hdmi := c; res_sclk_hdmi := res_sclk_hdmi res;
       res_sclk_pixel := res_sclk_pixel res;
       res_sclk_hdmiphy := res_sclk_hdmiphy res;
       res_hdmiphy := res_hdmiphy res;
       regul_bulk := regul_bulk res; regul_count := regul_count res |} in
  if IS_ERR (res_hdmi res) then hdmi_resources_init_fail res else
  c <- clk_get "sclk_hdmi";;
  let res :=
    {| res_hdmi := res_hdmi res; res_sclk_hdmi := c;
       res_sclk_pixel := res_sclk_pixel res;
       res_sclk_hdmiphy := res_sclk_hdmiphy res;
       res_hdmiphy := res_hdmiphy res;
       regul_bulk := regul_bulk res; regul_count := regul_count res |} in
  if IS_ERR (res_sclk_hdmi res) then hdmi_resources_init_fail res else
  c <- clk_get "sclk_pixel";;
  let res :=
    {| res_hdmi := res_hdmi res; res_sclk_hdmi := res_sclk_hdmi res;
       res_sclk_pixel := c;
       res_sclk_hdmiphy := res_sclk_hdmiphy res;
       res_hdmiphy := res_hdmiphy res;
       regul_bulk := regul_bulk res; regul_count := regul_count res |} in
  if IS_ERR (res_sclk_pixel res) then hdmi_resources_init_fail res else
  c <- clk_get "sclk_hdmiphy";;
  let res :=
    {| res_hdmi := res_hdmi res; res_sclk_hdmi := res_sclk_hdmi res;
       res_sclk_pixel := res_sclk_pixel res;
       res_sclk_hdmiphy := c;
       res_hdmiphy := res_hdmiphy res;
       regul_bulk := regul_bulk res; regul_count := regul_count res |} in
  if IS_ERR (res_sclk_hdmiphy res) then hdmi_resources_init_fail res else
  c <- clk_get "hdmiphy";;
  let res :=
    {| res_hdmi := res_hdmi res; res_sclk_hdmi := res_sclk_hdmi res;
       res_sclk_pixel := res_sclk_pixel res;
       res_sclk_hdmiphy := res_sclk_hdmiphy res;
       res_hdmiphy := c;
       regul_bulk := regul_bulk res; regul_count := regul_count res |} in
  if IS_ERR (res_hdmiphy res) then hdmi_resources_init_fail res else
  p <- kcalloc (Z.of_nat (ARRAY_SIZE supply));;
  let res :=
    {| res_hdmi := res_hdmi res; res_sclk_hdmi := res_sclk_hdmi res;
       res_sclk_pixel := res_sclk_pixel res;
       res_sclk_hdmiphy := res_sclk_hdmiphy res;
       res_hdmiphy := res_hdmiphy res;
       regul_bulk := p; regul_count := regul_count res |} in
  if regul_bulk res =? 0 then hdmi_resources_init_fail res else
  (* the loop stores the names of [supply] in the array *)
  ret <- regulator_bulk_get (Z.of_nat (ARRAY_SIZE supply)) supply;;
  if negb (ret =? 0) then hdmi_resources_init_fail res else
  let res :=
    {| res_hdmi := res_hdmi res; res_sclk_hdmi := res_sclk_hdmi res;
       res_sclk_pixel := res_sclk_pixel res;
       res_sclk_hdmiphy := res_sclk_hdmiphy res;
       res_hdmiphy := res_hdmiphy res;
       regul_bulk := regul_bulk res;
       regul_count := Z.of_nat (ARRAY_SIZE supply) |} in
  kret (0, res).

(** ** Probe and remove *)

(** The labels [fail], [fail_init] and [fail_vdev] of hdmi_probe; the
    device structure is device-managed memory and is gone after a
    failure. *)
Definition hdmi_probe_fail (ret : Z) : K (Z * option hdmi_device_mem) :=
  kret (ret, None).

Definition hdmi_probe_fail_init (res : hdmi_resources) (ret : Z)
    : K (Z * option hdmi_device_mem) :=
  hdmi_resources_cleanup res;;
  hdmi_probe_fail ret.

Definition hdmi_probe_fail_vdev (res : hdmi_resources) (ret : Z)
    : K (Z * option hdmi_device_mem) :=
  v4l2_device_unregister;;
  hdmi_probe_fail_init res ret.

(** The end of hdmi_probe, from [clk_enable(hdmi_dev->res.hdmi)] on. *)
Definition hdmi_probe_finish (regs irq : Z) (res : hdmi_resources)
    (phy_sd : v4l2_subdev) (mhl_sd : option v4l2_subdev)
    : K (Z * option hdmi_device_mem) :=
  kemit (KClkEnable (res_hdmi res));;
  pm_runtime_enable;;
  v4l2_subdev_init;;
  match nth_error hdmi_timings_tab HDMI_DEFAULT_TIMINGS_IDX with
  | None => kfault
  | Some row =>
      (* storing subdev for call that have only access to struct device *)
      dev_set_drvdata;;
      kret (0, Some {| regs := regs; irq := irq; res := res;
                       core := {| phy_sd := Some phy_sd;
                                  mhl_sd := mhl_sd;
                                  cur_conf := Some (hdmi_timings_ptr row);
                                  cur_conf_dirty := 1;
                                  cur_timings := dv_timings row |} |})
  end.

Definition hdmi_probe (pdata : option s5p_hdmi_platform_data)
    : K (Z * option hdmi_device_mem) :=
  match pdata with
  | None => hdmi_probe_fail (- ENODEV)
  | Some pdata =>
  hdmi_dev <- devm_kzalloc;;
  if negb hdmi_dev then hdmi_probe_fail (- ENOMEM) else
  r <- hdmi_resources_init;;
  let ret := fst r in
  let res := snd r in
  if negb (ret =? 0) then hdmi_probe_fail ret else
  (* mapping HDMI registers *)
  mem <- platform_get_resource IORESOURCE_MEM 0;;
  match mem with
  | None => hdmi_probe_fail_init res (- ENXIO)
  | Some mem =>
  regs <- devm_ioremap (start mem) (resource_size mem);;
  if regs =? 0 then hdmi_probe_fail_init res (- ENXIO) else
  irq_res <- platform_get_resource IORESOURCE_IRQ 0;;
  match irq_res with
  | None => hdmi_probe_fail_init res (- ENXIO)
  | Some irq_res =>
  ret <- devm_request_irq (start irq_res) "hdmi";;
  if negb (ret =? 0) then hdmi_probe_fail_init res ret else
  let irq := start irq_res in
  (* passing NULL owner prevents driver from erasing drvdata *)
  ret <- v4l2_device_register;;
  if negb (ret =? 0) then hdmi_probe_fail_init res ret else
  (* testing if hdmiphy info is present *)
  match hdmiphy_info pdata with
  | None => hdmi_probe_fail_vdev res (- ENXIO)
  | Some phy_info =>
  adapter <- i2c_get_adapter (hdmiphy_bus pdata);;
  match adapter with
  | None => hdmi_probe_fail_vdev res (- ENXIO)
  | Some adapter =>
  phy_sd <- v4l2_i2c_new_subdev_board adapter phy_info;;
  (* on failure or not adapter is no longer useful *)
  i2c_put_adapter adapter;;
  match phy_sd with
  | None => hdmi_probe_fail_vdev res (- ENODEV)
  | Some phy_sd =>
  (* initialization of MHL interface if present *)
  match mhl_info pdata with
  | Some mhl_info =>
      adapter <- i2c_get_adapter (mhl_bus pdata);;
      match adapter with
      | None => hdmi_probe_fail_vdev res (- ENXIO)
      | Some adapter =>
          mhl_sd <- v4l2_i2c_new_subdev_board adapter mhl_info;;
          (* on failure or not adapter is no longer useful *)
          i2c_put_adapter adapter;;
          match mhl_sd with
          | None => hdmi_probe_fail_vdev res (- ENODEV)
          | Some mhl_sd =>
              hdmi_probe_finish regs irq res phy_sd (Some mhl_sd)
          end
      end
  | None => hdmi_probe_finish regs irq res phy_sd None
  end
  end end end end end
  end.

Definition hdmi_remove (hdmi_dev : hdmi_device_mem)
    : K (Z * hdmi_device_mem) :=
  pm_runtime_disable;;
  kemit (KClkDisable (res_hdmi (res hdmi_dev)));;
  v4l2_device_unregister;;
  disable_irq (irq hdmi_dev);;
  res' <- hdmi_resources_cleanup (res hdmi_dev);;
  kret (0, {| regs := regs hdmi_dev; irq := irq hdmi_dev; res := res';
              core := core hdmi_dev |}).

(** ** What a trace of kernel calls leaves held

    Device-managed acquisitions (devm_kzalloc, devm_ioremap,
    devm_request_irq) are released by the driver core and are not
    tracked. *)

Record holdings : Set := {
  (** clocks got and not put *)
  held_clocks : list Z;
  (** clocks enabled and not disabled *)
  enabled_clocks : list Z;
  (** arrays allocated and not freed *)
  held_blocks : list Z;
  (** regulator sets got and not freed *)
  held_regulators : nat;
  (** I2C adapters got and not put *)
  held_adapters : list i2c_adapter;
  (** V4L2 devices registered and not unregistered *)
  registered : nat;
  (** runtime PM enabled and not disabled *)
  pm_enabled : nat
}.

Definition nothing_held : holdings :=
  {| held_clocks := []; enabled_clocks := []; held_blocks := [];
     held_regulators := O; held_adapters := []; registered := O;
     pm_enabled := O |}.

(** [x] taken out of [l] once; [None] when it is not there. *)
Fixpoint take_out {A} (eqb : A -> A -> bool) (x : A) (l : list A)
    : option (list A) :=
  match l with
  | [] => None
  | y :: l' =>
      if eqb x y then Some l'
      else match take_out eqb x l' with
           | Some r => Some (y :: r)
           | None => None
           end
  end.

Definition adapter_eqb (a b : i2c_adapter) : bool :=
  match a, b with Adapter x, Adapter y => x =? y end.

(** One kernel call applied to the holdings; [None] when the call releases
    what is not held. *)
Definition hold (h : holdings) (e : kevent) : option holdings :=
  match e with
  | KClkGet _ c =>
      Some (if IS_ERR c then h
            else {| held_clocks := c :: held_clocks h;
                    enabled_clocks := enabled_clocks h;
                    held_blocks := held_blocks h;
                    held_regulators := held_regulators h;
                    held_adapters := held_adapters h;
                    registered := registered h;
                    pm_enabled := pm_enabled h |})
  | KClkPut c =>
      match take_out Z.eqb c (held_clocks h) with
      | Some l =>
          Some {| held_clocks := l;
                  enabled_clocks := enabled_clocks h;
                  held_blocks := held_blocks h;
                  held_regulators := held_regulators h;
                  held_adapters := held_adapters h;
                  registered := registered h;
                  pm_enabled := pm_enabled h |}
      | None => None
      end
  | KClkEnable c =>
      Some {| held_clocks := held_clocks h;
              enabled_clocks := c :: enabled_clocks h;
              held_blocks := held_blocks h;
              held_regulators := held_regulators h;
              held_adapters := held_adapters h;
              registered := registered h;
              pm_enabled := pm_enabled h |}
  | KClkDisable c =>
      match take_out Z.eqb c (enabled_clocks h) with
      | Some l =>
          Some {| held_clocks := held_clocks h;
                  enabled_clocks := l;
                  held_blocks := held_blocks h;
                  held_regulators := held_regulators h;
                  held_adapters := held_adapters h;
                  registered := registered h;
                  pm_enabled := pm_enabled h |}
      | None => None
      end
  | KKcalloc _ p =>
      Some (if p =? 0 then h
            else {| held_clocks := held_clocks h;
                    enabled_clocks := enabled_clocks h;
                    held_blocks := p :: held_blocks h;
                    held_regulators := held_regulators h;
                    held_adapters := held_adapters h;
                    registered := registered h;
                    pm_enabled := pm_enabled h |})
  | KKfree p =>
      if p =? 0 then Some h
      else match take_out Z.eqb p (held_blocks h) with
           | Some l =>
               Some {| held_clocks := held_clocks h;
                       enabled_clocks := enabled_clocks h;
                       held_blocks := l;
                       held_regulators := held_regulators h;
                       held_adapters := held_adapters h;
                       registered := registered h;
                       pm_enabled := pm_enabled h |}
           | None => None
           end
  | KRegulatorBulkGet _ _ r =>
      Some (if r =? 0
            then {| held_clocks := held_clocks h;
                    enabled_clocks := enabled_clocks h;
                    held_blocks := held_blocks h;
                    held_regulators := S (held_regulators h);
                    held_adapters := held_adapters h;
                    registered := registered h;
                    pm_enabled := pm_enabled h |}
            else h)
  | KRegulatorBulkFree _ _ =>
      match held_regulators h with
      | O => None
      | S n =>
          Some {| held_clocks := held_clocks h;
                  enabled_clocks := enabled_clocks h;
                  held_blocks := held_blocks h;
                  held_regulators := n;
                  held_adapters := held_adapters h;
                  registered := registered h;
                  pm_enabled := pm_enabled h |}
      end
  | KI2cGetAdapter _ (Some a) =>
      Some {| held_clocks := held_clocks h;
              enabled_clocks := enabled_clocks h;
              held_blocks := held_blocks h;
              held_regulators := held_regulators h;
              held_adapters := a :: held_adapters h;
              registered := registered h;
              pm_enabled := pm_enabled h |}
  | KI2cPutAdapter a =>
      match take_out adapter_eqb a (held_adapters h) with
      | Some l =>
          Some {| held_clocks := held_clocks h;
                  enabled_clocks := enabled_clocks h;
                  held_blocks := held_blocks h;
                  held_regulators := held_regulators h;
                  held_adapters := l;
                  registered := registered h;
                  pm_enabled := pm_enabled h |}
      | None => None
      end
  | KV4l2DeviceRegister r =>
      Some (if r =? 0
            then {| held_clocks := held_clocks h;
                    enabled_clocks := enabled_clocks h;
                    held_blocks := held_blocks h;
                    held_regulators := held_regulators h;
                    held_adapters := held_adapters h;
                    registered := S (registered h);
                    pm_enabled := pm_enabled h |}
            else h)
  | KV4l2DeviceUnregister =>
      match registered h with
      | O => None
      | S n =>
          Some {| held_clocks := held_clocks h;
                  enabled_clocks := enabled_clocks h;
                  held_blocks := held_blocks h;
                  held_regulators := held_regulators h;
                  held_adapters := held_adapters h;
                  registered := n;
                  pm_enabled := pm_enabled h |}
      end
  | KPmRuntimeEnable =>
      Some {| held_clocks := held_clocks h;
              enabled_clocks := enabled_clocks h;
              held_blocks := held_blocks h;
              held_regulators := held_regulators h;
              held_adapters := held_adapters h;
              registered := registered h;
              pm_enabled := S (pm_enabled h) |}
  | KPmRuntimeDisable =>
      match pm_enabled h with
      | O => None
      | S n =>
          Some {| held_clocks := held_clocks h;
                  enabled_clocks := enabled_clocks h;
                  held_blocks := held_blocks h;
                  held_regulators := held_regulators h;
                  held_adapters := held_adapters h;
                  registered := registered h;
                  pm_enabled := n |}
      end
  | _ => Some h
  end.

Fixpoint held_after (h : holdings) (d : list kevent) : option holdings :=
  match d with
  | [] => Some h
  | e :: d' =>
      match hold h e with
      | Some h' => held_after h' d'
      | None => None
      end
  end.

(** The calls of hdmi_resources_cleanup: it releases what the structure
    says is held, the regulators when the count is not 0, the array, and
    every clock that is not an error pointer, the last one got first. *)
Definition cleanup_events (res : hdmi_resources) : list kevent :=
  (if regul_count res =? 0 then []
   else [KRegulatorBulkFree (regul_count res) (regul_bulk res)]) ++
  [KKfree (regul_bulk res)] ++
  (if IS_ERR (res_hdmiphy res) then [] else [KClkPut (res_hdmiphy res)]) ++
  (if IS_ERR (res_sclk_hdmiphy res) then []
   else [KClkPut (res_sclk_hdmiphy res)]) ++
  (if IS_ERR (res_sclk_pixel res) then []
   else [KClkPut (res_sclk_pixel res)]) ++
  (if IS_ERR (res_sclk_hdmi res) then [] else [KClkPut (res_sclk_hdmi res)]) ++
  (if IS_ERR (res_hdmi res) then [] else [KClkPut (res_hdmi res)]).

(** The structure as cleanup leaves it: nothing to release. *)
Definition resources_cleared : hdmi_resources :=
  hdmi_resource_clear_clocks hdmi_resources_zero.

(** The structure describes resources that are all there: five clocks,
    none an error pointer, the array and the four regulators. *)
Definition resources_complete (res : hdmi_resources) : Prop :=
  IS_ERR (res_hdmi res) = false /\
  IS_ERR (res_sclk_hdmi res) = false /\
  IS_ERR (res_sclk_pixel res) = false /\
  IS_ERR (res_sclk_hdmiphy res) = false /\
  IS_ERR (res_hdmiphy res) = false /\
  regul_bulk res <> 0 /\
  regul_count res = 4.

(** The holdings [h] and, on top, the resources of [res]. *)
Definition with_resources (res : hdmi_resources) (h : holdings) : holdings :=
  {| held_clocks :=
       res_hdmiphy res :: res_sclk_hdmiphy res :: res_sclk_pixel res
       :: res_sclk_hdmi res :: res_hdmi res :: held_clocks h;
     enabled_clocks := enabled_clocks h;
     held_blocks := regul_bulk res :: held_blocks h;
     held_regulators := S (held_regulators h);
     held_adapters := held_adapters h;
     registered := registered h;
     pm_enabled := pm_enabled h |}.

(** What a successful hdmi_probe leaves held: the resources, the bus clock
    of the device enabled, the V4L2 device registered, runtime PM
    enabled. *)
Definition probed_holdings (res : hdmi_resources) : holdings :=
  {| held_clocks :=
       [res_hdmiphy res; res_sclk_hdmiphy res; res_sclk_pixel res;
        res_sclk_hdmi res; res_hdmi res];
     enabled_clocks := [res_hdmi res];
     held_blocks := [regul_bulk res];
     held_regulators := 1;
     held_adapters := [];
     registered := 1;
     pm_enabled := 1 |}.

(** The error codes of hdmi_probe: one of the driver's own three, or the
    answer of the interrupt request or of the V4L2 registration, handed
    on. *)
Definition probe_error (r : Z) (d : list kevent) : Prop :=
  r = - ENODEV \/ r = - ENOMEM \/ r = - ENXIO \/
  (exists irq name, In (KDevmRequestIrq irq name r) d) \/
  In (KV4l2DeviceRegister r) d.

End Attach.

(** ** An instance of the parameters, for examples *)

Definition demo_regs : RegsHdmi := {|
  HDMI_INTC_EN_GLOBAL := 64;
  HDMI_INTC_EN_HPD_PLUG := 4;
  HDMI_INTC_EN_HPD_UNPLUG := 8;
  HDMI_INTC_FLAG_HPD_PLUG := 4;
  HDMI_INTC_FLAG_HPD_UNPLUG := 8;
  HDMI_PHY_SW_RSTOUT := 1;
  HDMI_CORE_SW_RSTOUT := 1;
  HDMI_BLUE_SCR_EN := 32;
  HDMI_EN := 1;
  HDMI_DVI_PERAMBLE_EN := 32;
  HDMI_DVI_BAND_EN := 2;
  HDMI_PHY_STATUS_READY := 1;
  HDMI_MODE_DVI_EN := 1;
  HDMI_MODE_MASK := 3;
  HDMI_TG_FIELD_EN := 2;
  HDMI_TG_EN := 1
|}.

(** The payload lists width, height, interlaced, pixel clock and horizontal
    front porch. *)
Definition demo_v4l2 : V4l2Hdr := {|
  bt_other := list Z;
  V4L2_DV_FL_CAN_REDUCE_FPS := 1;
  V4L2_DV_BT_656_1120 := 0;
  V4L2_DV_BT_STD_CEA861 := 1;
  V4L2_DV_BT_CAP_INTERLACED := 1;
  V4L2_DV_BT_CAP_PROGRESSIVE := 2;
  V4L2_MBUS_FMT_FIXED := 1;
  V4L2_COLORSPACE_SRGB := 8;
  V4L2_FIELD_NONE := 1;
  V4L2_FIELD_INTERLACED := 4
|}.

Definition demo_dv (members : list Z) (fl : Z)
    : @v4l2_dv_timings demo_v4l2 :=
  @Build_v4l2_dv_timings demo_v4l2 0
    (@Build_v4l2_bt_timings demo_v4l2 members fl).

Fixpoint list_Z_eqb (a b : list Z) : bool :=
  match a, b with
  | [], [] => true
  | x :: a', y :: b' => (x =? y) && list_Z_eqb a' b'
  | _, _ => false
  end.

Definition demo_match (t1 t2 : @v4l2_dv_timings demo_v4l2) (pclock_delta : Z)
    : bool :=
  (type t1 =? type t2) &&
  list_Z_eqb (bt_members (bt t1)) (bt_members (bt t2)).

Definition demo_dv_timings : @V4l2DvTimings demo_v4l2 := {|
  V4L2_DV_BT_CEA_720X480P59_94 := demo_dv [720; 480; 0; 27000000; 16] 0;
  V4L2_DV_BT_CEA_720X576P50 := demo_dv [720; 576; 0; 27000000; 12] 0;
  V4L2_DV_BT_CEA_1280X720P50 := demo_dv [1280; 720; 0; 74250000; 440] 0;
  V4L2_DV_BT_CEA_1280X720P60 := demo_dv [1280; 720; 0; 74250000; 110] 1;
  V4L2_DV_BT_CEA_1920X1080P24 := demo_dv [1920; 1080; 0; 74250000; 638] 1;
  V4L2_DV_BT_CEA_1920X1080P30 := demo_dv [1920; 1080; 0; 74250000; 88] 1;
  V4L2_DV_BT_CEA_1920X1080P50 := demo_dv [1920; 1080; 0; 148500000; 528] 0;
  V4L2_DV_BT_CEA_1920X1080I50 := demo_dv [1920; 1080; 1; 74250000; 528] 0;
  V4L2_DV_BT_CEA_1920X1080I60 := demo_dv [1920; 1080; 1; 74250000; 88] 1;
  V4L2_DV_BT_CEA_1920X1080P60 := demo_dv [1920; 1080; 0; 148500000; 88] 1;
  v4l2_match_dv_timings := demo_match
|}.

Definition demo_phy : v4l2_subdev := Subdev 1.
Definition demo_mhl : v4l2_subdev := Subdev 2.

(** Every register reads [status]; the PHY answers [phy_timings] to
    s_dv_timings, the repeater answers [mhl_stream] to s_stream(1); every
    other call succeeds. *)
Definition demo_env (status phy_timings mhl_stream : Z)
    : @Environment demo_v4l2 := {|
  env := fun _ q =>
    match q with
    | QReadl _ => status
    | QSubdevCall (Subdev 1) (video_s_dv_timings _) => phy_timings
    | QSubdevCall (Subdev 2) (video_s_stream 1) => mhl_stream
    | _ => 0
    end;
  env_dv_timings_cap := fun _ cap => cap
|}.

(** The device as hdmi_probe leaves it, with a repeater, nothing done yet. *)
Definition demo_device : @hdmi_device demo_v4l2 := {|
  phy_sd := Some demo_phy;
  mhl_sd := Some demo_mhl;
  cur_conf := Some hdmi_timings_480p;
  cur_conf_dirty := 1;
  cur_timings := demo_dv [720; 480; 0; 27000000; 16] 0
|}.

Definition demo_state : @state demo_v4l2 :=
  {| device := demo_device; trace := [] |}.

(** The synthetic parameter sets of the register-programmer test. *)
Definition synthetic_timings (il off : Z) : hdmi_timings := {|
  hact := {| beg := 100; end_ := 900 |};
  hsyn_pol := 0;
  hsyn := {| beg := 16; end_ := 78 |};
  interlaced := il;
  vact := ({| beg := 10; end_ := 510 |}, {| beg := 533; end_ := 1033 |});
  vsyn_pol := 0;
  vsyn_off := off;
  vsyn := ({| beg := 2; end_ := 7 |}, {| beg := 512; end_ := 517 |})
|}.

(** A horizontal window wider than the two byte lanes of its size
    register, and a vsync transition point (16 + 4984 = 5000) wider than
    12 bits; every member is a u32 and every pulse has begin < end. *)
Definition wide_timings : hdmi_timings := {|
  hact := {| beg := 0; end_ := 70000 |};
  hsyn_pol := 0;
  hsyn := {| beg := 16; end_ := 78 |};
  interlaced := 1;
  vact := ({| beg := 10; end_ := 510 |}, {| beg := 533; end_ := 1033 |});
  vsyn_pol := 0;
  vsyn_off := 4984;
  vsyn := ({| beg := 2; end_ := 7 |}, {| beg := 512; end_ := 517 |})
|}.

(** A descriptor outside the catalogue (640x480). *)
Definition vga_dv : @v4l2_dv_timings demo_v4l2 :=
  demo_dv [640; 480; 0; 25175000; 16] 0.

(** A device whose registers already hold the current configuration. *)
Definition clean_state : @state demo_v4l2 :=
  {| device := with_dirty demo_device 0; trace := [] |}.

(** Error pointers as the kernel has them: the address is the errno. *)
Definition demo_linux_err : LinuxErr := {|
  ERR_PTR := fun error => error;
  IS_ERR := IS_ERR_VALUE;
  IS_ERR_ERR_PTR := eq_refl
|}.

(** A platform on which the clock [bad_clock] does not exist and the
    interrupt request is answered [irq_answer]; everything else is there.
    Clock handles are addresses that differ from call to call, the I2C
    adapter of bus n is adapter n and carries sub-device n. *)
Definition demo_platform (bad_clock : string) (irq_answer : Z) : Platform := {|
  plat_devm_kzalloc := fun _ => true;
  plat_clk_get := fun tr id =>
    if String.eqb id bad_clock then - 2
    else 4096 + Z.of_nat (List.length tr);
  plat_kcalloc := fun _ _ => 8192;
  plat_regulator_bulk_get := fun _ _ _ => 0;
  plat_platform_get_resource := fun _ type _ =>
    Some (match type with
          | IORESOURCE_MEM => {| start := 65536; resource_size := 4096 |}
          | IORESOURCE_IRQ => {| start := 95; resource_size := 1 |}
          end);
  plat_devm_ioremap := fun _ offset _ => offset;
  plat_devm_request_irq := fun _ _ _ => irq_answer;
  plat_v4l2_device_register := fun _ => 0;
  plat_i2c_get_adapter := fun _ nr => Some (Adapter nr);
  plat_v4l2_i2c_new_subdev_board := fun _ a _ =>
    match a with Adapter n => Some (Subdev n) end
|}.

(** Platform data with the PHY on bus 1 and the repeater on bus 2. *)
Definition demo_pdata : s5p_hdmi_platform_data := {|
  hdmiphy_bus := 1;
  hdmiphy_info := Some (BoardInfo 1);
  mhl_bus := 2;
  mhl_info := Some (BoardInfo 2)
|}.

(** A format structure with stale contents. *)
Definition stale_fmt : v4l2_mbus_framefmt :=
  {| width := 1; height := 2; code := 3; field := 4; colorspace := 5 |}.

(** * Properties *)

Section Properties.

Context {R : RegsHdmi} {V : V4l2Hdr} {L : V4l2DvTimings} {E : Environment}.

#[local] Arguments u8 : simpl never.
#[local] Arguments u32 : simpl never.
#[local] Arguments shl32 : simpl never.
#[local] Arguments shr32 : simpl never.
#[local] Arguments sub32 : simpl never.
#[local] Arguments add32 : simpl never.
#[local] Arguments not32 : simpl never.
#[local] Arguments mask_merge : simpl never.
#[local] Arguments Z.land : simpl never.
#[local] Arguments Z.lor : simpl never.
#[local] Arguments Z.mul : simpl never.
#[local] Arguments Z.add : simpl never.
#[local] Arguments Z.pow : simpl never.
#[local] Arguments Z.modulo : simpl never.
#[local] Arguments Z.div : simpl never.
#[local] Arguments written_bytes : simpl never.

(** ** Machine arithmetic *)

Lemma u32_range x : 0 <= u32 x < 2 ^ 32.
Proof. unfold u32. apply Z.mod_pos_bound. lia. Qed.

Lemma u32_small x : 0 <= x < 2 ^ 32 -> u32 x = x.
Proof. intros H. unfold u32. now apply Z.mod_small. Qed.

Lemma two_lanes v :
  0 <= v ->
  0 + u8 (v .>> 0) * 2 ^ (8 * 0) + u8 (v .>> 8) * 2 ^ (8 * 1) = v mod 2 ^ 16.
Proof.
  intros Hv. unfold u8, shr32.
  rewrite Z.shiftr_0_r, Z.shiftr_div_pow2 by lia.
  change (2 ^ (8 * 0)) with 1. change (2 ^ (8 * 1)) with 256.
  change (2 ^ 8) with 256. change (2 ^ 16) with 65536.
  Z.to_euclidean_division_equations. lia.
Qed.

Lemma three_lanes v :
  0 <= v ->
  0 + u8 (v .>> 0) * 2 ^ (8 * 0) + u8 (v .>> 8) * 2 ^ (8 * 1)
    + u8 (v .>> 16) * 2 ^ (8 * 2) = v mod 2 ^ 24.
Proof.
  intros Hv. unfold u8, shr32.
  rewrite Z.shiftr_0_r, !Z.shiftr_div_pow2 by lia.
  change (2 ^ (8 * 0)) with 1. change (2 ^ (8 * 1)) with 256.
  change (2 ^ (8 * 2)) with 65536.
  change (2 ^ 8) with 256. change (2 ^ 16) with 65536.
  change (2 ^ 24) with 16777216.
  Z.to_euclidean_division_equations. lia.
Qed.

Lemma testbit_above x k n :
  0 <= x < 2 ^ k -> 0 <= k <= n -> Z.testbit x n = false.
Proof.
  intros Hx Hk.
  destruct (Z.eqb_spec x 0) as [->|Hx0]; [apply Z.bits_0|].
  apply Z.bits_above_log2; [lia|].
  apply Z.lt_le_trans with k; [|lia].
  apply Z.log2_lt_pow2; lia.
Qed.

(** Both 12-bit halves of [(x << 12) | x] carry [x] when [x] fits. *)
Lemma twin_halves x :
  0 <= x < 2 ^ 12 ->
  (x .<< 12 .| x) mod 2 ^ 24 = x * 2 ^ 12 + x.
Proof.
  intros Hx. unfold shl32, u32.
  rewrite Z.shiftl_mul_pow2 by lia.
  rewrite (Z.mod_small (x * 2 ^ 12)) by lia.
  assert (Hd : Z.land (x * 2 ^ 12) x = 0).
  { apply Z.bits_inj'. intros n Hn. rewrite Z.land_spec, Z.bits_0.
    destruct (Z.ltb_spec n 12).
    - rewrite Z.mul_pow2_bits_low by lia. reflexivity.
    - rewrite (testbit_above x 12 n) by lia. apply andb_false_r. }
  rewrite <- Z.lxor_lor by exact Hd.
  rewrite <- Z.add_nocarry_lxor by exact Hd.
  apply Z.mod_small. lia.
Qed.

(** ** Running the monad *)

Lemma after_nil s : after s [] = s.
Proof. destruct s. unfold after. simpl. now rewrite app_nil_r. Qed.

Lemma after_after s d1 d2 : after (after s d1) d2 = after s (d1 ++ d2).
Proof. unfold after. simpl. now rewrite app_assoc. Qed.

Lemma bind_Some {A B} {m : M A} (k : A -> M B) {s a s'} :
  m s = Some (a, s') -> bind m k s = k a s'.
Proof. intros H. unfold bind. now rewrite H. Qed.

Lemma last_writeb_app a tr d :
  last_writeb a (tr ++ d) =
  match last_writeb a d with
  | Some v => Some v
  | None => last_writeb a tr
  end.
Proof.
  induction tr as [|e tr IH]; simpl.
  - now destruct (last_writeb a d).
  - rewrite IH. now destruct (last_writeb a d).
Qed.

Lemma written_two_lanes reg tr d v :
  0 <= v ->
  last_writeb (reg, 4) d = Some (u8 (v .>> 8)) ->
  last_writeb (reg, 0) d = Some (u8 (v .>> 0)) ->
  written_bytes reg 2 (tr ++ d) = Some (v mod 2 ^ 16).
Proof.
  intros Hv H1 H0. unfold written_bytes.
  change (4 * Z.of_nat 1) with 4. change (4 * Z.of_nat 0) with 0.
  rewrite !last_writeb_app, H1, H0.
  change (Z.of_nat 1) with 1. change (Z.of_nat 0) with 0.
  now rewrite two_lanes.
Qed.

Lemma written_three_lanes reg tr d v :
  0 <= v ->
  last_writeb (reg, 8) d = Some (u8 (v .>> 16)) ->
  last_writeb (reg, 4) d = Some (u8 (v .>> 8)) ->
  last_writeb (reg, 0) d = Some (u8 (v .>> 0)) ->
  written_bytes reg 3 (tr ++ d) = Some (v mod 2 ^ 24).
Proof.
  intros Hv H2 H1 H0. unfold written_bytes.
  change (4 * Z.of_nat 2) with 8.
  change (4 * Z.of_nat 1) with 4. change (4 * Z.of_nat 0) with 0.
  rewrite !last_writeb_app, H2, H1, H0.
  change (Z.of_nat 2) with 2.
  change (Z.of_nat 1) with 1. change (Z.of_nat 0) with 0.
  now rewrite three_lanes.
Qed.

Lemma sub32_small a b : 0 <= b - a < 2 ^ 16 -> sub32 b a = b - a.
Proof. intros H. unfold sub32. apply u32_small. lia. Qed.

(** C1 (amended).  When an active window is no wider than its two byte
    lanes can hold (0 <= end - begin < 2^16), the register programmer leaves
    end - begin in the timing generator's size register, horizontally and
    vertically.  When the mode is interlaced and hsync.begin +
    vsync_field_offset fits in 12 bits, both 12-bit halves of the three
    byte lanes of the vsync-transition register hold that sum. *)
Theorem hdmi_timing_apply_tg_window_sizes (t : hdmi_timings) (s : state) :
  0 <= end_ (hact t) - beg (hact t) < 2 ^ 16 ->
  0 <= end_ (fst (vact t)) - beg (fst (vact t)) < 2 ^ 16 ->
  exists s',
    hdmi_timing_apply t s = Some (tt, s') /\
    written_bytes HDMI_TG_HACT_SZ_L 2 (trace s') =
      Some (end_ (hact t) - beg (hact t)) /\
    written_bytes HDMI_TG_VACT_SZ_L 2 (trace s') =
      Some (end_ (fst (vact t)) - beg (fst (vact t))) /\
    (interlaced t <> 0 ->
     0 <= beg (hsyn t) + vsyn_off t < 2 ^ 12 ->
     exists x,
       written_bytes HDMI_V_SYNC_GEN_3_0 3 (trace s') = Some x /\
       x mod 2 ^ 12 = beg (hsyn t) + vsyn_off t /\
       x / 2 ^ 12 = beg (hsyn t) + vsyn_off t).
Proof.
  intros Hh Hv.
  pose proof (sub32_small _ _ Hh) as Eh.
  pose proof (sub32_small _ _ Hv) as Ev.
  unfold hdmi_timing_apply.
  destruct (interlaced t =? 0) eqn:Hi; cbn; unfold writeb, emit; cbn;
    repeat rewrite <- app_assoc; cbn [app];
    (eexists; split; [reflexivity|]); cbn [trace].
  - split; [|split].
    + rewrite (written_two_lanes _ _ _ (sub32 (end_ (hact t)) (beg (hact t))));
        [rewrite Eh; f_equal; apply Z.mod_small; lia | rewrite Eh; lia | reflexivity | reflexivity].
    + rewrite (written_two_lanes _ _ _ (sub32 (end_ (fst (vact t))) (beg (fst (vact t)))));
        [rewrite Ev; f_equal; apply Z.mod_small; lia | rewrite Ev; lia | reflexivity | reflexivity].
    + intros Hn. apply Z.eqb_eq in Hi. contradiction.
  - split; [|split].
    + rewrite (written_two_lanes _ _ _ (sub32 (end_ (hact t)) (beg (hact t))));
        [rewrite Eh; f_equal; apply Z.mod_small; lia | rewrite Eh; lia | reflexivity | reflexivity].
    + rewrite (written_two_lanes _ _ _ (sub32 (end_ (fst (vact t))) (beg (fst (vact t)))));
        [rewrite Ev; f_equal; apply Z.mod_small; lia | rewrite Ev; lia | reflexivity | reflexivity].
    + intros _ Ht.
      assert (Ea : add32 (beg (hsyn t)) (vsyn_off t) = beg (hsyn t) + vsyn_off t)
        by (unfold add32; apply u32_small; lia).
      eexists. split.
      * apply (written_three_lanes _ _ _
          (add32 (beg (hsyn t)) (vsyn_off t) .<< 12 .| add32 (beg (hsyn t)) (vsyn_off t)));
          [|reflexivity|reflexivity|reflexivity].
        rewrite Ea. apply Z.lor_nonneg. split; [apply u32_range|lia].
      * rewrite Ea, twin_halves by lia.
        split.
        -- rewrite Z.add_comm, Z.mod_add by lia. apply Z.mod_small. lia.
        -- rewrite Z.add_comm, Z.div_add by lia. rewrite Z.div_small by lia. lia.
Qed.

(** ** Primitive steps *)

Lemma emit_run e s : emit e s = Some (tt, after s [e]).
Proof. reflexivity. Qed.

Lemma mdelay_run ms s : mdelay ms s = Some (tt, after s [EvMdelay ms]).
Proof. reflexivity. Qed.

Lemma readl_run a s :
  readl a s =
  Some (u32 (env (trace s) (QReadl a)),
        after s [EvReadl a (u32 (env (trace s) (QReadl a)))]).
Proof. reflexivity. Qed.

Lemma hdmi_read_run reg s :
  exists v, 0 <= v < 2 ^ 32 /\
    hdmi_read reg s = Some (v, after s [EvReadl (reg, 0) v]).
Proof.
  eexists. split; [|apply readl_run]. apply u32_range.
Qed.

Lemma hdmi_write_mask_run reg value mask s :
  exists old, 0 <= old < 2 ^ 32 /\
    hdmi_write_mask reg value mask s =
    Some (tt, after s (write_mask_events reg value mask old)).
Proof.
  exists (u32 (env (trace s) (QReadl (reg, 0)))). split; [apply u32_range|].
  unfold hdmi_write_mask, write_mask_events, mask_merge.
  rewrite (bind_Some _ (readl_run (reg, 0) s)).
  unfold writel. rewrite emit_run. now rewrite after_after.
Qed.

Lemma hdmi_writeb_run reg value s :
  hdmi_writeb reg value s = Some (tt, after s [EvWriteb (reg, 0) (u8 value)]).
Proof. reflexivity. Qed.

Lemma v4l2_subdev_call_run sd op s :
  exists r,
    v4l2_subdev_call sd op s = Some (r, after s (call_events sd op r)) /\
    (sd = None -> r = - ENODEV).
Proof.
  destruct sd as [d|]; simpl.
  - exists (env (trace s) (QSubdevCall d op)). split; [reflexivity|].
    discriminate.
  - exists (- ENODEV). split; [|reflexivity].
    unfold ret. now rewrite after_nil.
Qed.

Lemma clk_enable_run c s : clk_enable c s = Some (tt, after s [EvClkEnable c]).
Proof. reflexivity. Qed.

Lemma clk_disable_run c s :
  clk_disable c s = Some (tt, after s [EvClkDisable c]).
Proof. reflexivity. Qed.

Lemma clk_set_parent_run c p s :
  clk_set_parent c p s = Some (tt, after s [EvClkSetParent c p]).
Proof. reflexivity. Qed.

Lemma hdmi_dumpregs_run prefix s :
  hdmi_dumpregs prefix s = Some (tt, after s [EvDumpregs prefix]).
Proof. reflexivity. Qed.

(** One step of symbolic execution: the head of a [bind] is run by the
    lemma above that fits it. *)
Ltac run_head :=
  match goal with
  | |- context [bind (hdmi_write_mask ?r ?v ?m) ?k ?s] =>
      let o := fresh "o" in
      let Ho := fresh "Ho" in
      let Eo := fresh "Eo" in
      destruct (hdmi_write_mask_run r v m s) as (o & Ho & Eo);
      rewrite (bind_Some k Eo); clear Eo
  | |- context [bind (mdelay ?n) ?k ?s] =>
      rewrite (bind_Some k (mdelay_run n s))
  | |- context [bind (hdmi_writeb ?r ?v) ?k ?s] =>
      rewrite (bind_Some k (hdmi_writeb_run r v s))
  | |- context [bind (clk_enable ?c) ?k ?s] =>
      rewrite (bind_Some k (clk_enable_run c s))
  | |- context [bind (clk_disable ?c) ?k ?s] =>
      rewrite (bind_Some k (clk_disable_run c s))
  | |- context [bind (clk_set_parent ?c ?p) ?k ?s] =>
      rewrite (bind_Some k (clk_set_parent_run c p s))
  | |- context [bind (hdmi_dumpregs ?p) ?k ?s] =>
      rewrite (bind_Some k (hdmi_dumpregs_run p s))
  | |- context [bind (v4l2_subdev_call ?sd ?op) ?k ?s] =>
      let r := fresh "r" in
      let Er := fresh "Er" in
      let Nr := fresh "Nr" in
      destruct (v4l2_subdev_call_run sd op s) as (r & Er & Nr);
      rewrite (bind_Some k Er); clear Er
  end;
  cbv beta; rewrite ?after_after.

(** Traces are compared in one shape: a single [after], the lists
    associated to the right. *)
Ltac flatten :=
  unfold phy_reset_events, core_reset_events, clk_switch_events in *;
  rewrite ?after_after in *;
  rewrite <- ?app_assoc in *;
  cbn [app] in *.

Lemma config_event_write_mask reg value mask old :
  reg <> HDMI_PHY_STATUS ->
  Forall config_event (write_mask_events reg value mask old).
Proof.
  intros Hr. unfold write_mask_events.
  repeat constructor; simpl; try discriminate.
  unfold addr_eqb. simpl. rewrite andb_true_r.
  destruct reg; try reflexivity. contradiction.
Qed.

(** ** Bits that a sequence leaves alone *)

Lemma u32_bits x n :
  0 <= n -> Z.testbit (u32 x) n = (n <? 32) && Z.testbit x n.
Proof.
  intros Hn. unfold u32. destruct (Z.ltb_spec n 32).
  - now rewrite Z.mod_pow2_bits_low by lia.
  - now rewrite Z.mod_pow2_bits_high by lia.
Qed.

Lemma mask_merge_keeps value mask old m :
  0 <= old < 2 ^ 32 -> mask .& m = 0 ->
  mask_merge value mask old .& m = old .& m.
Proof.
  intros Ho Hm. unfold mask_merge, not32.
  apply Z.bits_inj'. intros n Hn.
  assert (Hdis : Z.testbit mask n && Z.testbit m n = false).
  { rewrite <- Z.land_spec, Hm. apply Z.bits_0. }
  rewrite !Z.land_spec, u32_bits, Z.lor_spec, !Z.land_spec, u32_bits,
    Z.lnot_spec by exact Hn.
  destruct (Z.testbit m n); [|now rewrite !andb_false_r].
  rewrite andb_true_r in Hdis. rewrite Hdis, !andb_true_r.
  rewrite andb_false_r. cbn [orb negb].
  destruct (Z.ltb_spec n 32); cbn [andb].
  - now rewrite andb_true_r.
  - symmetry. apply (testbit_above old 32 n); lia.
Qed.

Lemma preserves_bits_any_prev reg m p d :
  preserves_bits reg m None d -> preserves_bits reg m p d.
Proof.
  destruct d as [|e d]; [trivial|]. cbn [preserves_bits].
  intros (He & Hd). split; [|exact Hd].
  intros Hs. destruct (He Hs) as (old & v & Hp & _). discriminate Hp.
Qed.

Lemma preserves_bits_app reg m p d1 d2 :
  preserves_bits reg m p d1 -> preserves_bits reg m None d2 ->
  preserves_bits reg m p (d1 ++ d2).
Proof.
  revert p. induction d1 as [|e d1 IH]; intros p H1 H2.
  - now apply preserves_bits_any_prev.
  - cbn [app preserves_bits] in *. destruct H1 as (He & H1).
    split; [exact He|]. now apply IH.
Qed.

Lemma preserves_bits_untouched reg m p d :
  Forall (fun e => stores_to reg e = false) d -> preserves_bits reg m p d.
Proof.
  intros H. revert p. induction H as [|e d He _ IH]; intros p.
  - exact I.
  - cbn [preserves_bits]. split; [|apply IH].
    rewrite He. intros Hx. discriminate Hx.
Qed.

Lemma preserves_bits_write_mask reg reg' m value mask old :
  0 <= old < 2 ^ 32 ->
  (reg' = reg -> mask .& m = 0) ->
  preserves_bits reg m None (write_mask_events reg' value mask old).
Proof.
  intros Ho Hm. unfold write_mask_events. cbn [preserves_bits stores_to fst].
  split; [intros Hx; discriminate Hx|]. split; [|exact I].
  intros Hs. apply internal_reg_id_dec_bl in Hs. subst reg'.
  exists old, (mask_merge value mask old).
  split; [reflexivity|]. split; [reflexivity|].
  apply mask_merge_keeps; auto.
Qed.

Lemma enable_kept_app d1 d2 :
  enable_kept d1 -> enable_kept d2 -> enable_kept (d1 ++ d2).
Proof.
  intros H1 H2 Hb Hf.
  destruct (H1 Hb Hf) as (Ha1 & Hb1). destruct (H2 Hb Hf) as (Ha2 & Hb2).
  split; now apply preserves_bits_app.
Qed.

Lemma enable_kept_untouched d :
  Forall (fun e => stores_to HDMI_CON_0 e = false) d ->
  Forall (fun e => stores_to HDMI_TG_CMD e = false) d ->
  enable_kept d.
Proof.
  intros H1 H2 _ _. split; now apply preserves_bits_untouched.
Qed.

Lemma enable_kept_write_mask reg value mask old :
  0 <= old < 2 ^ 32 ->
  (reg = HDMI_CON_0 -> mask = HDMI_BLUE_SCR_EN) ->
  (reg = HDMI_TG_CMD -> mask = HDMI_TG_FIELD_EN) ->
  enable_kept (write_mask_events reg value mask old).
Proof.
  intros Ho Hc Ht Hb Hf.
  split; apply preserves_bits_write_mask; try exact Ho; intros Hr.
  - now rewrite (Hc Hr).
  - now rewrite (Ht Hr).
Qed.

Lemma enable_kept_call sd op r : enable_kept (call_events sd op r).
Proof.
  apply enable_kept_untouched; destruct sd; repeat constructor.
Qed.

Lemma enable_kept_nil : enable_kept [].
Proof. intros _ _. split; exact I. Qed.

Lemma enable_kept_cons e d :
  stores_to HDMI_CON_0 e = false -> stores_to HDMI_TG_CMD e = false ->
  enable_kept d -> enable_kept (e :: d).
Proof.
  intros H1 H2 Hd. apply (enable_kept_app [e] d); [|exact Hd].
  apply enable_kept_untouched; now repeat constructor.
Qed.

Ltac enable_kept :=
  repeat first
    [ assumption
    | apply enable_kept_nil
    | apply enable_kept_call
    | apply enable_kept_app
    | apply enable_kept_write_mask;
      [assumption || apply u32_range
      |first [reflexivity | intros Hx; discriminate Hx]
      |first [reflexivity | intros Hx; discriminate Hx]]
    | match goal with
      | |- enable_kept
             (EvReadl (?reg, 0) ?o ::
              EvWritel (?reg, 0) (u32 ((?v .& ?m) .| _)) :: ?rest) =>
          change (enable_kept (write_mask_events reg v m o ++ rest))
      | |- enable_kept
             (EvReadl (?reg, 0) ?o ::
              EvWritel (?reg, 0) (mask_merge ?v ?m ?o) :: ?rest) =>
          change (enable_kept (write_mask_events reg v m o ++ rest))
      end
    | apply enable_kept_cons; [reflexivity|reflexivity|] ].

Lemma hdmi_reg_init_run s :
  exists d,
    hdmi_reg_init s = Some (tt, after s d) /\
    Forall config_event d /\ enable_kept d.
Proof.
  unfold hdmi_reg_init.
  do 4 run_head. do 2 run_head.
  rewrite hdmi_writeb_run, after_after.
  eexists. split; [reflexivity|]. split.
  - repeat (apply Forall_app; split);
      try (apply config_event_write_mask; discriminate);
      repeat constructor; discriminate.
  - enable_kept.
Qed.

Lemma hdmi_timing_apply_run t s :
  exists d,
    hdmi_timing_apply t s = Some (tt, after s d) /\
    Forall config_event d /\ existsb is_reg_write d = true /\
    enable_kept d.
Proof.
  unfold hdmi_timing_apply.
  destruct (interlaced t =? 0); cbn; unfold writeb, emit, after; cbn;
    repeat rewrite <- app_assoc; cbn [app];
    (eexists; split; [reflexivity|]);
    (split; [repeat constructor; discriminate|]);
    (split; [reflexivity|]);
    enable_kept.
Qed.

(** ** Mode apply, path by path *)

Lemma config_event_phy_reset o1 o2 : Forall config_event (phy_reset_events o1 o2).
Proof.
  unfold phy_reset_events.
  repeat (apply Forall_app; split);
    try (apply config_event_write_mask; discriminate);
    repeat constructor; discriminate.
Qed.

Lemma config_event_core_reset o1 o2 :
  Forall config_event (core_reset_events o1 o2).
Proof.
  unfold core_reset_events.
  repeat (apply Forall_app; split);
    try (apply config_event_write_mask; discriminate);
    repeat constructor; discriminate.
Qed.

Lemma enable_kept_phy_reset o1 o2 :
  0 <= o1 < 2 ^ 32 -> 0 <= o2 < 2 ^ 32 ->
  enable_kept (phy_reset_events o1 o2).
Proof. intros H1 H2. unfold phy_reset_events. enable_kept. Qed.

Lemma enable_kept_core_reset o1 o2 :
  0 <= o1 < 2 ^ 32 -> 0 <= o2 < 2 ^ 32 ->
  enable_kept (core_reset_events o1 o2).
Proof. intros H1 H2. unfold core_reset_events. enable_kept. Qed.

Lemma config_event_call sd op r : Forall config_event (call_events sd op r).
Proof.
  destruct sd; simpl; repeat constructor; discriminate.
Qed.

(** The three ways through hdmi_conf_apply on a dirty device: the PHY
    rejects the timings; the PHY accepts them and [cur_conf] is NULL; the
    PHY accepts them and the whole sequence runs. *)
Lemma hdmi_conf_apply_dirty s :
  cur_conf_dirty (device s) <> 0 ->
  exists o1 o2 r,
    0 <= o1 < 2 ^ 32 /\ 0 <= o2 < 2 ^ 32 /\
    let s1 :=
      after s (phy_reset_events o1 o2 ++
               call_events (phy_sd (device s))
                 (video_s_dv_timings (cur_timings (device s))) r) in
    (phy_sd (device s) = None -> r = - ENODEV) /\
    ((r <> 0 /\ hdmi_conf_apply s = Some (r, s1)) \/
     (r = 0 /\
      exists o3 o4 di,
        0 <= o3 < 2 ^ 32 /\ 0 <= o4 < 2 ^ 32 /\
        let s2 := after s1 (core_reset_events o3 o4) in
        hdmi_reg_init s2 = Some (tt, after s2 di) /\
        Forall config_event di /\ enable_kept di /\
        match cur_conf (device s) with
        | None => hdmi_conf_apply s = None
        | Some t =>
            exists dt,
              hdmi_timing_apply t (after s2 di) =
                Some (tt, after (after s2 di) dt) /\
              Forall config_event dt /\
              existsb is_reg_write dt = true /\
              enable_kept dt /\
              hdmi_conf_apply s =
                Some (0, {| device := with_dirty (device s) 0;
                            trace := trace (after (after s2 di) dt) |})
        end)).
Proof.
  intros Hd.
  remember (hdmi_conf_apply s) as res eqn:Eres. symmetry in Eres.
  revert Eres. unfold hdmi_conf_apply.
  unfold bind at 1, get_hdev. cbv beta iota.
  apply Z.eqb_neq in Hd. rewrite Hd.
  do 5 run_head.
  intros Eres. exists o, o0, r.
  split; [exact Ho|]. split; [exact Ho0|]. cbv zeta. split; [exact Nr|].
  revert Eres.
  destruct (Z.eqb_spec r 0) as [->|Hr]; cbv [negb]; cbv iota.
  - do 4 run_head.
    match goal with
    | |- context [bind hdmi_reg_init _ ?s0] =>
        destruct (hdmi_reg_init_run s0) as (di & Ei & Fi & Ki)
    end.
    rewrite (bind_Some _ Ei). cbv beta.
    intros Eres. right. split; [reflexivity|].
    exists o1, o2, di.
    split; [exact Ho1|]. split; [exact Ho2|].
    split; [flatten; exact Ei|]. split; [exact Fi|]. split; [exact Ki|].
    revert Eres.
    destruct (cur_conf (device s)) as [t|].
    + match goal with
      | |- context [bind (hdmi_timing_apply t) _ ?s0] =>
          destruct (hdmi_timing_apply_run t s0) as (dt & Et & Ft & Wt & Kt)
      end.
      rewrite (bind_Some _ Et). cbv beta.
      intros <-. exists dt.
      split; [flatten; exact Et|]. split; [exact Ft|]. split; [exact Wt|].
      split; [exact Kt|].
      unfold bind, set_cur_conf_dirty, get_hdev, put_hdev, ret, after.
      cbn [device trace]. flatten. reflexivity.
    + intros <-. reflexivity.
  - intros <-. left. split; [exact Hr|]. flatten. reflexivity.
Qed.

Lemma hdmi_conf_apply_clean s :
  cur_conf_dirty (device s) = 0 -> hdmi_conf_apply s = Some (0, s).
Proof.
  intros Hd. unfold hdmi_conf_apply.
  unfold bind at 1, get_hdev. cbv beta iota.
  now rewrite Hd.
Qed.

(** ** The PHY lock wait *)

Lemma hdmi_streamon_wait_run tries s :
  exists vals,
    Forall not_ready vals /\
    ((List.length vals = tries /\
      hdmi_streamon_wait tries s = Some (O, after s (poll_events vals))) \/
     (exists v k h,
        (List.length vals < tries)%nat /\
        v = u32 (env h (QReadl (HDMI_PHY_STATUS, 0))) /\
        v .& HDMI_PHY_STATUS_READY <> 0 /\
        hdmi_streamon_wait tries s =
          Some (S k, after s (poll_events vals ++
                              [EvReadl (HDMI_PHY_STATUS, 0) v])))).
Proof.
  revert s. induction tries as [|n IH]; intros s.
  - exists []. split; [constructor|]. left. split; [reflexivity|].
    simpl. unfold ret. now rewrite after_nil.
  - cbn [hdmi_streamon_wait]. unfold hdmi_read.
    rewrite (bind_Some _ (readl_run (HDMI_PHY_STATUS, 0) s)).
    set (v := u32 (env (trace s) (QReadl (HDMI_PHY_STATUS, 0)))).
    destruct (Z.eqb_spec (v .& HDMI_PHY_STATUS_READY) 0) as [Hz|Hnz];
      cbv [negb]; cbv iota.
    + rewrite (bind_Some _ (mdelay_run 1 _)). rewrite after_after.
      destruct (IH (after s ([EvReadl (HDMI_PHY_STATUS, 0) v] ++ [EvMdelay 1])))
        as (vals & Fv & [(Hl & Ew)|(v' & k & h & Hl & Hv & Hr & Ew)]).
      * exists (v :: vals). split.
        { constructor; [|exact Fv]. split; [apply u32_range|exact Hz]. }
        left. split; [simpl; now rewrite Hl|].
        rewrite Ew, after_after. reflexivity.
      * exists (v :: vals). split.
        { constructor; [|exact Fv]. split; [apply u32_range|exact Hz]. }
        right. exists v', k, h. split; [simpl; lia|].
        split; [exact Hv|]. split; [exact Hr|].
        rewrite Ew, after_after. reflexivity.
    + exists []. split; [constructor|]. right.
      exists v, n, (trace s). split; [simpl; lia|].
      split; [reflexivity|]. split; [exact Hnz|]. reflexivity.
Qed.

(** ** Stream start, path by path *)

Lemma hdmi_streamon_run s ra sa :
  hdmi_conf_apply s = Some (ra, sa) ->
  (ra <> 0 /\ hdmi_streamon s = Some (ra, sa)) \/
  (ra = 0 /\
   exists r1,
     (phy_sd (device sa) = None -> r1 = - ENODEV) /\
     let s1 :=
       after sa (call_events (phy_sd (device sa)) (video_s_stream 1) r1) in
     v4l2_subdev_call (phy_sd (device sa)) (video_s_stream 1) sa =
       Some (r1, s1) /\
     ((r1 <> 0 /\ hdmi_streamon s = Some (r1, s1)) \/
      (r1 = 0 /\
       exists vals,
         Forall not_ready vals /\
         ((List.length vals = 100%nat /\
           exists rp,
             hdmi_streamon s =
               Some (- EIO,
                     after s1
                       (poll_events vals ++
                        call_events (phy_sd (device sa)) (video_s_stream 0) rp ++
                        [EvDumpregs "hdmiphy - s_stream"]))) \/
          (exists v h rm,
             (List.length vals < 100)%nat /\
             v = u32 (env h (QReadl (HDMI_PHY_STATUS, 0))) /\
             v .& HDMI_PHY_STATUS_READY <> 0 /\
             (mhl_sd (device sa) = None -> rm = - ENODEV) /\
             let s2 :=
               after s1
                 (poll_events vals ++ [EvReadl (HDMI_PHY_STATUS, 0) v] ++
                  call_events (mhl_sd (device sa)) (video_s_stream 1) rm) in
             ((mhl_sd (device sa) <> None /\ rm <> 0 /\
               exists rp,
                 hdmi_streamon s =
                   Some (- EIO,
                         after s2
                           (call_events (phy_sd (device sa))
                              (video_s_stream 0) rp ++
                            [EvDumpregs "mhl - s_stream"]))) \/
              ((mhl_sd (device sa) = None \/ rm = 0) /\
               exists o1 o2,
                 0 <= o1 < 2 ^ 32 /\ 0 <= o2 < 2 ^ 32 /\
                 hdmi_streamon s =
                   Some (0,
                         after s2
                           (clk_switch_events sclk_hdmiphy ++
                            write_mask_events HDMI_CON_0 all_ones HDMI_EN o1 ++
                            write_mask_events HDMI_TG_CMD all_ones HDMI_TG_EN o2 ++
                            [EvDumpregs "streamon"]))))))))).
Proof.
  intros Ea.
  remember (hdmi_streamon s) as res eqn:Eres. symmetry in Eres.
  revert Eres. unfold hdmi_streamon.
  rewrite (bind_Some _ Ea).
  destruct (Z.eqb_spec ra 0) as [->|Hra]; cbv [negb]; cbv iota.
  2:{ intros <-. left. split; [exact Hra|]. reflexivity. }
  unfold bind at 1, get_hdev. cbv beta iota.
  destruct (v4l2_subdev_call_run (phy_sd (device sa)) (video_s_stream 1) sa)
    as (r & Er & Nr).
  rewrite (bind_Some _ Er). cbv beta.
  intros Eres. right. split; [reflexivity|]. exists r.
  split; [exact Nr|]. cbv zeta. split; [exact Er|]. clear Er. revert Eres.
  destruct (Z.eqb_spec r 0) as [->|Hr]; cbv [negb]; cbv iota.
  2:{ intros <-. left. split; [exact Hr|]. reflexivity. }
  match goal with
  | |- context [bind (hdmi_streamon_wait 100) _ ?s0] =>
      destruct (hdmi_streamon_wait_run 100 s0)
        as (vals & Fv & [(Hl & Ew)|(v & k & h & Hl & Hv & Hrdy & Ew)])
  end; rewrite (bind_Some _ Ew); cbv beta; cbn [Nat.eqb]; rewrite ?after_after.
  - do 2 run_head.
    intros <-. right. split; [reflexivity|]. exists vals.
    split; [exact Fv|]. left. split; [exact Hl|].
    exists r. unfold ret. flatten. reflexivity.
  - run_head.
    intros Eres. right. split; [reflexivity|]. exists vals.
    split; [exact Fv|]. right. exists v, h, r.
    split; [exact Hl|]. split; [exact Hv|]. split; [exact Hrdy|].
    split; [exact Nr0|]. cbv zeta. revert Eres.
    destruct (mhl_sd (device sa)) as [mhl|] eqn:Em; cbn [is_null negb andb].
    + destruct (Z.eqb_spec r 0) as [->|Hrm]; cbv [negb]; cbv iota.
      * do 6 run_head.
        intros <-. right. split; [now right|].
        exists o, o0. split; [exact Ho|]. split; [exact Ho0|].
        unfold ret. flatten. reflexivity.
      * do 2 run_head.
        intros <-. left. split; [discriminate|]. split; [exact Hrm|].
        exists r0. unfold ret. flatten. reflexivity.
    + do 6 run_head.
      intros <-. right. split; [now left|].
      exists o, o0. split; [exact Ho|]. split; [exact Ho0|].
      unfold ret. flatten. reflexivity.
Qed.

(** ** Mode apply and the dirty flag *)

Lemma hdmi_conf_apply_returns s :
  cur_conf (device s) <> None ->
  exists r s', hdmi_conf_apply s = Some (r, s').
Proof.
  intros Hc.
  destruct (Z.eq_dec (cur_conf_dirty (device s)) 0) as [Hd|Hd].
  - exists 0, s. now apply hdmi_conf_apply_clean.
  - destruct (hdmi_conf_apply_dirty s Hd) as (o1 & o2 & r & Ho1 & Ho2 & _ & [(_ & Ee)|(_ & Hok)]).
    + eauto.
    + destruct Hok as (o3 & o4 & di & Ho3 & Ho4 & _ & _ & Ki & Hm).
      destruct (cur_conf (device s)) as [t|]; [|contradiction].
      destruct Hm as (dt & _ & _ & _ & Kt & Ee). eauto.
Qed.

Lemma dirty_cleared_iff_success s :
  cur_conf_dirty (device s) <> 0 ->
  forall r s',
    hdmi_conf_apply s = Some (r, s') ->
    (cur_conf_dirty (device s') = 0 <-> r = 0).
Proof.
  intros Hd r s' Er.
  destruct (hdmi_conf_apply_dirty s Hd)
    as (o1 & o2 & r0 & Ho1 & Ho2 & _ & [(Hr0 & Ee)|(-> & Hok)]).
  - rewrite Ee in Er. injection Er as <- <-. cbn [after device]. tauto.
  - destruct Hok as (o3 & o4 & di & Ho3 & Ho4 & _ & _ & Ki & Hm).
    destruct (cur_conf (device s)) as [t|]; [|congruence].
    destruct Hm as (dt & _ & _ & _ & Kt & Ee).
    rewrite Ee in Er. injection Er as <- <-.
    cbn [device with_dirty cur_conf_dirty]. tauto.
Qed.


(** C5.  On a device that is not dirty mode-apply returns success and
    leaves the state, trace included, as it was: no register access, no
    PHY call, no delay.  Hence, whenever a call has succeeded, a second call
    right after it adds nothing: the two calls together end in the state the
    first one reached, and when the device was dirty that state's trace
    holds the register writes of the one sequence. *)
Theorem hdmi_conf_apply_idempotent (s : state) :
  (cur_conf_dirty (device s) = 0 -> hdmi_conf_apply s = Some (0, s)) /\
  (forall s1,
     hdmi_conf_apply s = Some (0, s1) ->
     hdmi_conf_apply s1 = Some (0, s1) /\
     bind hdmi_conf_apply (fun _ => hdmi_conf_apply) s = Some (0, s1) /\
     (cur_conf_dirty (device s) <> 0 ->
      exists d, trace s1 = trace s ++ d /\ existsb is_reg_write d = true)).
Proof.
  split; [apply hdmi_conf_apply_clean|].
  intros s1 E1.
  assert (Hc : cur_conf_dirty (device s1) = 0).
  { destruct (Z.eq_dec (cur_conf_dirty (device s)) 0) as [Hd|Hd].
    - rewrite (hdmi_conf_apply_clean s Hd) in E1. now injection E1 as <-.
    - now apply (dirty_cleared_iff_success s Hd 0 s1 E1). }
  split; [now apply hdmi_conf_apply_clean|].
  split; [rewrite (bind_Some _ E1); now apply hdmi_conf_apply_clean|].
  intros Hd.
  destruct (hdmi_conf_apply_dirty s Hd)
    as (o1 & o2 & r0 & Ho1 & Ho2 & _ & [(Hr0 & Ee)|(-> & Hok)]).
  - rewrite Ee in E1. injection E1 as E0 _. congruence.
  - destruct Hok as (o3 & o4 & di & Ho3 & Ho4 & _ & _ & Ki & Hm).
    destruct (cur_conf (device s)) as [t|]; [|congruence].
    destruct Hm as (dt & _ & _ & Wt & Kt & Ee).
    rewrite Ee in E1. injection E1 as <-.
    cbn [trace after]. rewrite <- !app_assoc.
    eexists. split; [reflexivity|].
    rewrite !existsb_app, Wt. now rewrite !orb_true_r.
Qed.

(** ** What mode apply leaves behind *)

Ltac config_events :=
  repeat first
    [ assumption
    | apply Forall_nil
    | apply config_event_call
    | apply config_event_phy_reset
    | apply config_event_core_reset
    | apply Forall_app; split
    | apply Forall_cons;
      [split; [reflexivity|split; [reflexivity|discriminate]]|] ].

Lemma hdmi_conf_apply_frame s r sa :
  hdmi_conf_apply s = Some (r, sa) ->
  (exists d,
     trace sa = trace s ++ d /\ Forall config_event d /\ enable_kept d) /\
  phy_sd (device sa) = phy_sd (device s) /\
  mhl_sd (device sa) = mhl_sd (device s) /\
  cur_conf (device sa) = cur_conf (device s) /\
  cur_timings (device sa) = cur_timings (device s) /\
  (cur_conf_dirty (device sa) = cur_conf_dirty (device s) \/
   cur_conf_dirty (device sa) = 0 /\ r = 0).
Proof.
  intros Er.
  destruct (Z.eq_dec (cur_conf_dirty (device s)) 0) as [Hd|Hd].
  - rewrite (hdmi_conf_apply_clean s Hd) in Er. injection Er as <- <-.
    split.
    { exists []. split; [now rewrite app_nil_r|].
      split; [constructor|apply enable_kept_nil]. }
    repeat split; auto.
  - destruct (hdmi_conf_apply_dirty s Hd)
      as (o1 & o2 & r0 & Ho1 & Ho2 & _ & [(Hr0 & Ee)|(-> & Hok)]).
    + rewrite Ee in Er. injection Er as <- <-.
      split; [|cbn [after device]; repeat split; auto].
      eexists. split; [reflexivity|]. split; [config_events|].
      enable_kept.
    + destruct Hok as (o3 & o4 & di & Ho3 & Ho4 & _ & Fi & Ki & Hm).
      destruct (cur_conf (device s)) as [t|] eqn:Ec; [|congruence].
      destruct Hm as (dt & _ & Ft & _ & Kt & Ee).
      rewrite Ee in Er. injection Er as <- <-.
      split.
      * cbn [trace after]. rewrite <- !app_assoc.
        eexists. split; [reflexivity|]. split; [config_events|].
        enable_kept.
      * cbn [device with_dirty phy_sd mhl_sd cur_conf cur_timings
               cur_conf_dirty].
        repeat split; auto.
Qed.

(** ** Counting *)

Lemma count_events_app p d1 d2 :
  count_events p (d1 ++ d2) = (count_events p d1 + count_events p d2)%nat.
Proof. unfold count_events. now rewrite filter_app, length_app. Qed.

Lemma count_events_cons p e d :
  count_events p (e :: d) =
  ((if p e then 1 else 0) + count_events p d)%nat.
Proof. unfold count_events. simpl. now destruct (p e). Qed.

Lemma count_events_nil p : count_events p [] = O.
Proof. reflexivity. Qed.

Lemma count_events_none p d :
  Forall (fun e => p e = false) d -> count_events p d = O.
Proof.
  unfold count_events. induction 1 as [|e d He _ IH]; simpl.
  - reflexivity.
  - now rewrite He.
Qed.

Lemma count_samples_poll vals :
  count_events is_phy_sample (poll_events vals) = List.length vals.
Proof.
  unfold count_events. induction vals as [|v vals IH]; simpl; auto.
Qed.

Lemma count_delays_poll vals :
  count_events is_poll_delay (poll_events vals) = List.length vals.
Proof.
  unfold count_events. induction vals as [|v vals IH]; simpl; auto.
Qed.

Lemma config_event_no_sample d :
  Forall config_event d -> Forall (fun e => is_phy_sample e = false) d.
Proof. apply Forall_impl. intros e (_ & H & _). exact H. Qed.

Lemma config_event_no_clk d :
  Forall config_event d -> Forall (fun e => is_clk_event e = false) d.
Proof. apply Forall_impl. intros e (H & _). exact H. Qed.

Lemma config_event_no_poll_delay d :
  Forall config_event d -> Forall (fun e => is_poll_delay e = false) d.
Proof.
  apply Forall_impl. intros e (_ & _ & H).
  destruct e; try reflexivity. simpl.
  destruct (Z.eqb_spec ms 1) as [->|]; [contradiction|reflexivity].
Qed.

Lemma count_call p sd op r :
  (forall d, p (EvSubdevCall d op r) = false) ->
  count_events p (call_events sd op r) = O.
Proof. intros H. destruct sd; simpl; [|reflexivity]. unfold count_events. simpl. now rewrite H. Qed.

Ltac count_up :=
  repeat first
    [ rewrite count_events_app
    | rewrite count_samples_poll
    | rewrite count_delays_poll
    | rewrite count_call by reflexivity
    | rewrite count_events_cons
    | rewrite count_events_nil ];
  cbn [is_phy_sample is_poll_delay app].

(** ** Stream start: the lock wait *)

Lemma hdmi_streamon_needs_apply s r s' :
  hdmi_streamon s = Some (r, s') ->
  exists ra sa, hdmi_conf_apply s = Some (ra, sa).
Proof.
  unfold hdmi_streamon. unfold bind at 1.
  destruct (hdmi_conf_apply s) as [[ra sa]|]; [eauto|discriminate].
Qed.

Lemma hdmi_streamon_returns s :
  cur_conf (device s) <> None ->
  exists r s', hdmi_streamon s = Some (r, s').
Proof.
  intros Hc.
  destruct (hdmi_conf_apply_returns s Hc) as (ra & sa & Ea).
  destruct (hdmi_streamon_run s ra sa Ea)
    as [(_ & Es)|(_ & r1 & _ & _ & [(_ & Es)|(_ & vals & _ & Hw)])];
    [eauto|eauto|].
  destruct Hw as [(_ & rp & Es)|(v & h & rm & _ & _ & _ & _ & Hm)]; [eauto|].
  destruct Hm as [(_ & _ & rp & Es)|(_ & o1 & o2 & _ & _ & Es)]; eauto.
Qed.

(** C2.  Start-stream returns (there is a current configuration), and in
    every run it samples the PHY status at most 100 times and waits 1 ms at
    most 100 times.  When the wait was reached and no sample showed the
    ready bit, the run ends with 100 samples, each followed by a delay of
    1 ms, then the stop request to the PHY, whose answer is dropped, then
    the register dump, and the result is -EIO. *)
Theorem hdmi_streamon_phy_lock_timeout (s : state) :
  (cur_conf (device s) <> None ->
   exists r s', hdmi_streamon s = Some (r, s')) /\
  (forall r s',
     hdmi_streamon s = Some (r, s') ->
     exists d,
       trace s' = trace s ++ d /\
       (count_events is_phy_sample d <= 100)%nat /\
       (count_events is_poll_delay d <= 100)%nat /\
       ((0 < count_events is_phy_sample d)%nat ->
        ready_seen d = false ->
        r = - EIO /\
        count_events is_phy_sample d = 100%nat /\
        count_events is_poll_delay d = 100%nat /\
        exists d0 vals phy rp,
          phy_sd (device s) = Some phy /\
          List.length vals = 100%nat /\
          Forall not_ready vals /\
          d = d0 ++ poll_events vals ++
              [EvSubdevCall phy (video_s_stream 0) rp;
               EvDumpregs "hdmiphy - s_stream"])).
Proof.
  split; [apply hdmi_streamon_returns|].
  intros r s' Es.
  destruct (hdmi_streamon_needs_apply s r s' Es) as (ra & sa & Ea).
  destruct (hdmi_conf_apply_frame s ra sa Ea)
    as ((da & Eda & Fa & _) & Ephy & _).
  pose proof (count_events_none is_phy_sample da
                (config_event_no_sample da Fa)) as Ca.
  pose proof (count_events_none is_poll_delay da
                (config_event_no_poll_delay da Fa)) as Cb.
  destruct (hdmi_streamon_run s ra sa Ea)
    as [(_ & Es')|(_ & r1 & Nr & _ & [(_ & Es')|(-> & vals & Fv & Hw)])];
    cbv zeta in *.
  - rewrite Es' in Es. injection Es as _ <-.
    exists da. rewrite Ca, Cb.
    split; [exact Eda|]. split; [lia|]. split; [lia|]. intros H. lia.
  - rewrite Es' in Es. injection Es as _ <-.
    cbn [trace after]. rewrite Eda, <- app_assoc.
    eexists. split; [reflexivity|].
    count_up. rewrite Ca, Cb.
    split; [lia|]. split; [lia|]. intros H. lia.
  - destruct (phy_sd (device sa)) as [phy|] eqn:Ep;
      [|specialize (Nr eq_refl); discriminate].
    destruct Hw as [(Hl & rp & Es')|(v & h & rm & Hl & _ & Hrdy & _ & Hm)].
    + rewrite Es' in Es. injection Es as <- <-.
      cbn [trace after call_events]. rewrite Eda, <- !app_assoc.
      eexists. split; [reflexivity|].
      count_up. rewrite Ca, Cb, Hl.
      split; [cbn; lia|]. split; [cbn; lia|]. intros _ _.
      split; [reflexivity|]. split; [reflexivity|]. split; [reflexivity|].
      exists (da ++ [EvSubdevCall phy (video_s_stream 1) 0]), vals, phy, rp.
      split; [congruence|]. split; [exact Hl|]. split; [exact Fv|].
      now rewrite <- !app_assoc.
    + assert (Hseen : forall x,
                ready_seen (da ++ [EvSubdevCall phy (video_s_stream 1) 0] ++
                            poll_events vals ++
                            [EvReadl (HDMI_PHY_STATUS, 0) v] ++ x) = true).
      { intros x. unfold ready_seen. rewrite !existsb_app.
        cbn [existsb addr_eqb fst snd reg_id_beq Z.eqb andb].
        destruct (Z.eqb_spec (v .& HDMI_PHY_STATUS_READY) 0);
          [contradiction|].
        cbn [negb orb]. now rewrite !orb_true_r. }
      destruct Hm as [(_ & _ & rp & Es')|(_ & o1 & o2 & _ & _ & Es')];
        rewrite Es' in Es; injection Es as _ <-;
        cbn [trace after call_events]; rewrite Eda, <- !app_assoc;
        (eexists; split; [reflexivity|]);
        (split; [count_up; rewrite ?Ca, ?Cb; cbn; lia|]);
        (split; [count_up; rewrite ?Ca, ?Cb; cbn; lia|]);
        intros _ Hns;
        match type of Hns with
        | ready_seen ?l = false =>
            assert (Ht : ready_seen l = true) by apply Hseen
        end;
        rewrite Ht in Hns; discriminate Hns.
Qed.

(** ** Bits stored by hdmi_write_mask *)

Lemma not32_bits m n :
  0 <= n ->
  Z.testbit (.~ m) n = (n <? 32) && negb (Z.testbit m n).
Proof.
  intros Hn. unfold not32, u32.
  destruct (Z.ltb_spec n 32).
  - rewrite Z.mod_pow2_bits_low by lia. now rewrite Z.lnot_spec.
  - now rewrite Z.mod_pow2_bits_high by lia.
Qed.

Lemma land_not32_disjoint o m : o .& .~ m .& m = 0.
Proof.
  apply Z.bits_inj'. intros n Hn.
  rewrite !Z.land_spec, not32_bits, Z.bits_0 by exact Hn.
  destruct (Z.testbit m n); simpl; now rewrite ?andb_false_r.
Qed.

Lemma u32_no_high_bits z :
  (forall n, 32 <= n -> Z.testbit z n = false) -> u32 z = z.
Proof.
  intros H. unfold u32. apply Z.bits_inj'. intros n Hn.
  destruct (Z.ltb_spec n 32).
  - now rewrite Z.mod_pow2_bits_low by lia.
  - rewrite Z.mod_pow2_bits_high by lia. symmetry. now apply H.
Qed.

(** Written with value 0, the bits of the mask come out clear. *)
Lemma mask_merge_clears m o :
  0 <= o < 2 ^ 32 -> mask_merge 0 m o .& m = 0.
Proof.
  intros Ho. unfold mask_merge.
  rewrite Z.land_0_l, Z.lor_0_l.
  rewrite u32_no_high_bits.
  - apply land_not32_disjoint.
  - intros n Hn. rewrite Z.land_spec, (testbit_above o 32 n) by lia.
    reflexivity.
Qed.

(** Written with value ~0, the bits of the mask come out set. *)
Lemma mask_merge_sets m o :
  0 <= m < 2 ^ 32 -> 0 <= o < 2 ^ 32 -> mask_merge all_ones m o .& m = m.
Proof.
  intros Hm Ho. unfold mask_merge.
  assert (Ea : all_ones .& m = m).
  { rewrite Z.land_comm. unfold all_ones, not32, u32.
    change (Z.lnot 0 mod 2 ^ 32) with (Z.ones 32).
    rewrite Z.land_ones by lia. apply Z.mod_small. exact Hm. }
  rewrite Ea.
  rewrite u32_no_high_bits.
  - rewrite Z.land_lor_distr_l, land_not32_disjoint, Z.lor_0_r.
    apply Z.land_diag.
  - intros n Hn.
    rewrite Z.lor_spec, Z.land_spec, (testbit_above m 32 n),
      (testbit_above o 32 n) by lia.
    reflexivity.
Qed.

(** ** Stream start: ordering *)

Lemma passive_call sd op r : Forall passive_event (call_events sd op r).
Proof. destruct sd; simpl; repeat constructor. Qed.

Lemma passive_poll vals : Forall passive_event (poll_events vals).
Proof.
  induction vals as [|v vals IH]; simpl; [constructor|].
  repeat constructor. exact IH.
Qed.

Lemma in_call_events d op r sd op' r' :
  In (EvSubdevCall d op r) (call_events sd op' r') ->
  sd = Some d /\ op' = op /\ r' = r.
Proof.
  destruct sd as [d'|]; simpl; [|contradiction].
  intros [H|[]]. injection H as -> -> ->. auto.
Qed.

Lemma in_poll_events d op r vals :
  ~ In (EvSubdevCall d op r) (poll_events vals).
Proof.
  induction vals as [|v vals IH]; simpl; [tauto|].
  intros [H|[H|H]]; [discriminate H|discriminate H|exact (IH H)].
Qed.

(** Case analysis on the membership of an event in a list written with
    [++] and [::]; what is left are the call and poll segments. *)
Ltac in_split H :=
  lazymatch type of H with
  | In _ (_ ++ _) => apply in_app_or in H; destruct H as [H|H]; in_split H
  | In _ (_ :: _) => destruct H as [H|H]; [try discriminate H|in_split H]
  | In _ [] => destruct H
  | In _ (poll_events _) => exfalso; exact (in_poll_events _ _ _ _ H)
  | _ => idtac
  end.

(** C3.  Every run of start-stream splits into what mode-apply did, then
    the PHY start, the lock wait and the repeater start, then a tail.  The
    first part is what mode-apply added to the trace and the other two
    together are everything the run added after it.  The first two parts
    hold no clock operation; mode-apply hands the two enable bits back as
    it read them, and after mode-apply no register is written before the
    tail.  When the run succeeds, the PHY status was seen ready, a
    configured repeater answered 0 to its start as the last thing before
    the tail, and the tail is: disable the shared clock, reparent it to
    the PHY clock, enable it, set the core-enable bit, set the
    timing-generator-enable bit, dump.  When the run fails, the tail holds
    no clock operation and no register write.  Whenever the run, after
    mode-apply, holds a start request to the repeater answered with an
    error, the result is -EIO, that request is the last event before the
    tail, and the tail is exactly the stop request to the PHY and the
    dump. *)
Theorem hdmi_streamon_switch_order (s : state) (r : Z) (s' : state) :
  hdmi_streamon s = Some (r, s') ->
  exists ra sa da rest post,
    hdmi_conf_apply s = Some (ra, sa) /\
    trace sa = trace s ++ da /\
    trace s' = trace s ++ da ++ rest ++ post /\
    Forall (fun e => is_clk_event e = false) da /\
    enable_kept da /\
    Forall passive_event rest /\
    (r = 0 ->
     (exists v,
        In (EvReadl (HDMI_PHY_STATUS, 0) v) rest /\
        v .& HDMI_PHY_STATUS_READY <> 0) /\
     (forall mhl,
        mhl_sd (device s) = Some mhl ->
        exists rest', rest = rest' ++ [EvSubdevCall mhl (video_s_stream 1) 0]) /\
     exists o1 o2,
       post =
         clk_switch_events sclk_hdmiphy ++
         write_mask_events HDMI_CON_0 all_ones HDMI_EN o1 ++
         write_mask_events HDMI_TG_CMD all_ones HDMI_TG_EN o2 ++
         [EvDumpregs "streamon"] /\
       (0 <= HDMI_EN < 2 ^ 32 ->
        mask_merge all_ones HDMI_EN o1 .& HDMI_EN = HDMI_EN) /\
       (0 <= HDMI_TG_EN < 2 ^ 32 ->
        mask_merge all_ones HDMI_TG_EN o2 .& HDMI_TG_EN = HDMI_TG_EN)) /\
    (r <> 0 -> Forall passive_event post) /\
    (forall mhl rm,
       mhl_sd (device s) = Some mhl ->
       phy_sd (device s) <> Some mhl ->
       In (EvSubdevCall mhl (video_s_stream 1) rm) (rest ++ post) ->
       rm <> 0 ->
       r = - EIO /\
       exists phy rp rest',
         phy_sd (device s) = Some phy /\
         rest = rest' ++ [EvSubdevCall mhl (video_s_stream 1) rm] /\
         post = [EvSubdevCall phy (video_s_stream 0) rp;
                 EvDumpregs "mhl - s_stream"]).
Proof.
  intros Es.
  destruct (hdmi_streamon_needs_apply s r s' Es) as (ra & sa & Ea).
  destruct (hdmi_conf_apply_frame s ra sa Ea)
    as ((da & Eda & Fa & Ka) & Ephy & Emhl & _).
  exists ra, sa, da.
  destruct (hdmi_streamon_run s ra sa Ea)
    as [(Hra & Es')|(-> & r1 & Nr & _ & [(Hr1 & Es')|(-> & vals & Fv & Hw)])];
    cbv zeta in *.
  - (* mode-apply failed *)
    rewrite Es' in Es. injection Es as <- <-.
    exists [], []. split; [exact Ea|]. split; [exact Eda|].
    split; [now rewrite !app_nil_r|].
    split; [now apply config_event_no_clk|]. split; [exact Ka|]. split; [constructor|].
    split; [intros H; contradiction|]. split; [constructor|].
    intros mhl rm _ _ H. destruct H.
  - (* the PHY did not start *)
    rewrite Es' in Es. injection Es as <- <-.
    exists (call_events (phy_sd (device sa)) (video_s_stream 1) r1), [].
    split; [exact Ea|]. split; [exact Eda|].
    split; [cbn [trace after]; now rewrite Eda, app_nil_r, app_assoc|].
    split; [now apply config_event_no_clk|]. split; [exact Ka|]. split; [apply passive_call|].
    split; [intros H; contradiction|]. split; [constructor|].
    intros mhl rm Hm Hp H _. exfalso.
    in_split H. apply in_call_events in H. destruct H as (Hs & _).
    apply Hp. congruence.
  - destruct Hw as [(Hl & rp & Es')|(v & h & rm & Hl & Hv & Hrdy & Nm & Hm)].
    + (* lock timeout *)
      rewrite Es' in Es. injection Es as <- <-.
      exists (call_events (phy_sd (device sa)) (video_s_stream 1) 0 ++
              poll_events vals),
             (call_events (phy_sd (device sa)) (video_s_stream 0) rp ++
              [EvDumpregs "hdmiphy - s_stream"]).
      split; [exact Ea|]. split; [exact Eda|].
      split; [cbn [trace after]; now rewrite Eda, <- !app_assoc|].
      split; [now apply config_event_no_clk|]. split; [exact Ka|].
      split; [apply Forall_app; split; [apply passive_call|apply passive_poll]|].
      split; [discriminate|].
      split.
      { intros _. apply Forall_app. split; [apply passive_call|].
        repeat constructor. }
      intros mhl rm _ Hp H _. exfalso.
      in_split H; apply in_call_events in H.
      * destruct H as (Hs & _). apply Hp. congruence.
      * destruct H as (_ & Ho & _). discriminate Ho.
    + destruct Hm as [(Hsome & Hrm & rp & Es')|(Hok & o1 & o2 & Ho1 & Ho2 & Es')].
      * (* the repeater did not start *)
        rewrite Es' in Es. injection Es as <- <-.
        exists (call_events (phy_sd (device sa)) (video_s_stream 1) 0 ++
                poll_events vals ++ [EvReadl (HDMI_PHY_STATUS, 0) v] ++
                call_events (mhl_sd (device sa)) (video_s_stream 1) rm),
               (call_events (phy_sd (device sa)) (video_s_stream 0) rp ++
                [EvDumpregs "mhl - s_stream"]).
        split; [exact Ea|]. split; [exact Eda|].
        split; [cbn [trace after]; now rewrite Eda, <- !app_assoc|].
        split; [now apply config_event_no_clk|]. split; [exact Ka|].
        split.
        { repeat (apply Forall_app; split);
            auto using passive_call, passive_poll.
          repeat constructor. }
        split; [discriminate|].
        split.
        { intros _. apply Forall_app. split; [apply passive_call|].
          repeat constructor. }
        intros mhl rm' Hmhl Hp H _. split; [reflexivity|].
        destruct (phy_sd (device sa)) as [phy|] eqn:Ep;
          [|specialize (Nr eq_refl); discriminate].
        rewrite <- Emhl in Hmhl. rewrite Hmhl in *. cbn [call_events] in *.
        in_split H; try (injection H as <- _; exfalso; apply Hp; congruence).
        injection H as <-.
        exists phy, rp. eexists.
        split; [congruence|]. split; [|reflexivity].
        rewrite !app_assoc. reflexivity.
      * (* streaming *)
        rewrite Es' in Es. injection Es as <- <-.
        exists (call_events (phy_sd (device sa)) (video_s_stream 1) 0 ++
                poll_events vals ++ [EvReadl (HDMI_PHY_STATUS, 0) v] ++
                call_events (mhl_sd (device sa)) (video_s_stream 1) rm),
               (clk_switch_events sclk_hdmiphy ++
                write_mask_events HDMI_CON_0 all_ones HDMI_EN o1 ++
                write_mask_events HDMI_TG_CMD all_ones HDMI_TG_EN o2 ++
                [EvDumpregs "streamon"]).
        split; [exact Ea|]. split; [exact Eda|].
        split; [cbn [trace after]; now rewrite Eda, <- !app_assoc|].
        split; [now apply config_event_no_clk|]. split; [exact Ka|].
        split.
        { repeat (apply Forall_app; split);
            auto using passive_call, passive_poll.
          repeat constructor. }
        split.
        { intros _. split; [|split].
          - exists v. split; [|exact Hrdy].
            apply in_or_app. right. apply in_or_app. right. now left.
          - intros mhl Hmhl. rewrite <- Emhl in Hmhl.
            destruct Hok as [Hnone| ->]; [congruence|].
            rewrite Hmhl. cbn [call_events].
            eexists. rewrite !app_assoc. reflexivity.
          - exists o1, o2. split; [reflexivity|].
            split; intros Hmask; now apply mask_merge_sets. }
        split; [intros H; contradiction|].
        intros mhl rm' Hmhl Hp H Hrm'. exfalso.
        rewrite <- Emhl in Hmhl.
        unfold clk_switch_events, write_mask_events in H.
        in_split H; apply in_call_events in H.
        -- destruct H as (Hs & _). apply Hp. congruence.
        -- destruct H as (_ & _ & Hrr).
           destruct Hok as [Hnone| ->]; congruence.
Qed.

(** ** Stream stop *)

(** C6.  In every environment stop-stream returns 0 and its events are, in
    this order: the read-modify-write that clears the core-enable bit, the
    one that clears the timing-generator-enable bit, disable / reparent to
    the pixel clock / enable of the shared clock, the stop call to the
    repeater (when one is configured), the stop call to the PHY, the
    register dump.  The answers of the two stop calls do not enter the
    result or any later step. *)
Theorem hdmi_streamoff_sequence (s : state) :
  exists o1 o2 rm rp,
    0 <= o1 < 2 ^ 32 /\ 0 <= o2 < 2 ^ 32 /\
    hdmi_streamoff s =
      Some (0,
            after s
              (write_mask_events HDMI_CON_0 0 HDMI_EN o1 ++
               write_mask_events HDMI_TG_CMD 0 HDMI_TG_EN o2 ++
               clk_switch_events sclk_pixel ++
               call_events (mhl_sd (device s)) (video_s_stream 0) rm ++
               call_events (phy_sd (device s)) (video_s_stream 0) rp ++
               [EvDumpregs "streamoff"])) /\
    mask_merge 0 HDMI_EN o1 .& HDMI_EN = 0 /\
    mask_merge 0 HDMI_TG_EN o2 .& HDMI_TG_EN = 0.
Proof.
  remember (hdmi_streamoff s) as res eqn:Eres. symmetry in Eres.
  revert Eres. unfold hdmi_streamoff.
  unfold bind at 1, get_hdev. cbv beta iota.
  do 8 run_head.
  intros <-. exists o, o0, r, r0.
  split; [exact Ho|]. split; [exact Ho0|].
  split; [unfold ret; flatten; reflexivity|].
  split; apply mask_merge_clears; assumption.
Qed.

(** ** Set and get timings *)

Lemma hdmi_s_dv_timings_loop_none rows timings i :
  (forall row, In row rows ->
     v4l2_match_dv_timings (dv_timings row) timings 0 = false) ->
  hdmi_s_dv_timings_loop rows timings i = (i + List.length rows)%nat.
Proof.
  revert i. induction rows as [|row rows IH]; intros i H; simpl.
  - lia.
  - rewrite (H row) by now left.
    rewrite IH by (intros row' Hin; apply H; now right). lia.
Qed.

Lemma hdmi_s_dv_timings_loop_found rows timings i j :
  hdmi_s_dv_timings_loop rows timings i = j ->
  (j <> i + List.length rows)%nat ->
  exists row,
    nth_error rows (j - i) = Some row /\
    (i <= j)%nat /\
    v4l2_match_dv_timings (dv_timings row) timings 0 = true /\
    forall k row',
      (k < j - i)%nat -> nth_error rows k = Some row' ->
      v4l2_match_dv_timings (dv_timings row') timings 0 = false.
Proof.
  revert i. induction rows as [|row rows IH]; intros i; simpl.
  - intros <- H. lia.
  - destruct (v4l2_match_dv_timings (dv_timings row) timings 0) eqn:Em.
    + intros <- _. exists row. rewrite Nat.sub_diag.
      split; [reflexivity|]. split; [lia|]. split; [exact Em|].
      intros k row' Hk. lia.
    + intros Hj Hne.
      destruct (IH (S i) Hj) as (row0 & Hn & Hle & Hm & Hfirst); [lia|].
      exists row0. replace (j - i)%nat with (S (j - S i)) by lia.
      split; [exact Hn|]. split; [lia|]. split; [exact Hm|].
      intros [|k] row' Hk Hk'.
      * injection Hk' as <-. exact Em.
      * apply (Hfirst k row'); [lia|exact Hk'].
Qed.

(** C7.  A descriptor that no row of the catalogue matches is refused with
    -EINVAL and the whole state stays as it was: [cur_conf], the dirty flag
    and [cur_timings]; get-timings after the refused call returns the
    descriptor it returned before. *)
Theorem hdmi_s_dv_timings_unsupported (s : state) (timings : v4l2_dv_timings) :
  (forall row, In row hdmi_timings_tab ->
     v4l2_match_dv_timings (dv_timings row) timings 0 = false) ->
  exists s',
    hdmi_s_dv_timings timings s = Some (- EINVAL, s') /\
    s' = s /\
    cur_conf (device s') = cur_conf (device s) /\
    cur_conf_dirty (device s') = cur_conf_dirty (device s) /\
    hdmi_g_dv_timings s' = Some ((0, cur_timings (device s)), s').
Proof.
  intros Hno. exists s.
  split; [|repeat split].
  unfold hdmi_s_dv_timings. unfold bind at 1, get_hdev. cbv beta iota.
  rewrite (hdmi_s_dv_timings_loop_none _ _ _ Hno).
  unfold ARRAY_SIZE. now rewrite Nat.add_0_l, Nat.eqb_refl.
Qed.

(** C8.  When set-timings succeeds, the descriptor matched a row of the
    catalogue, the first one that matches, and get-timings then returns the
    descriptor that was passed in, member for member, except for [flags]:
    if the row allows reduced fps the flags are the caller's (the whole
    descriptor is returned verbatim), otherwise they are the caller's with
    the can-reduce-fps bits cleared. *)
Theorem hdmi_s_dv_timings_roundtrip (s : state) (timings : v4l2_dv_timings)
    (s' : state) :
  hdmi_s_dv_timings timings s = Some (0, s') ->
  exists i row got,
    hdmi_s_dv_timings_loop hdmi_timings_tab timings 0 = i /\
    nth_error hdmi_timings_tab i = Some row /\
    v4l2_match_dv_timings (dv_timings row) timings 0 = true /\
    (forall k row',
       (k < i)%nat -> nth_error hdmi_timings_tab k = Some row' ->
       v4l2_match_dv_timings (dv_timings row') timings 0 = false) /\
    hdmi_g_dv_timings s' = Some ((0, got), s') /\
    type got = type timings /\
    bt_members (bt got) = bt_members (bt timings) /\
    flags (bt got) =
      (if reduced_fps row then flags (bt timings)
       else flags (bt timings) .& .~ V4L2_DV_FL_CAN_REDUCE_FPS) /\
    (reduced_fps row = true -> got = timings) /\
    (reduced_fps row = false ->
     flags (bt got) .& V4L2_DV_FL_CAN_REDUCE_FPS = 0).
Proof.
  unfold hdmi_s_dv_timings. unfold bind at 1, get_hdev. cbv beta iota.
  set (i := hdmi_s_dv_timings_loop hdmi_timings_tab timings 0).
  destruct (Nat.eqb_spec i (ARRAY_SIZE hdmi_timings_tab)) as [Hi|Hi].
  { unfold ret. intros H. discriminate. }
  destruct (hdmi_s_dv_timings_loop_found hdmi_timings_tab timings 0 i eq_refl)
    as (row & Hn & _ & Hm & Hfirst); [exact Hi|].
  rewrite Nat.sub_0_r in Hn, Hfirst. rewrite Hn.
  unfold bind, put_hdev, ret. intros H. injection H as <-.
  exists i, row.
  eexists. split; [reflexivity|]. split; [exact Hn|]. split; [exact Hm|].
  split; [exact Hfirst|].
  split; [reflexivity|]. cbn [device cur_timings].
  destruct (reduced_fps row); cbn [negb type bt bt_members flags
                                     clear_can_reduce_fps].
  - repeat split; try reflexivity. discriminate.
  - repeat split; try reflexivity; try discriminate.
    intros _. apply land_not32_disjoint.
Qed.

(** ** Operations that leave the device structure alone *)

Lemma keeps_ret A (a : A) : keeps_device (ret a).
Proof. intros s a' s' H. now injection H as _ <-. Qed.

Lemma keeps_emit e : keeps_device (emit e).
Proof. intros s a s' H. now injection H as _ <-. Qed.

Lemma keeps_ask q : keeps_device (ask q).
Proof. intros s a s' H. now injection H as _ <-. Qed.

Lemma keeps_get_hdev : keeps_device get_hdev.
Proof. intros s a s' H. now injection H as _ <-. Qed.

Lemma keeps_fault A : keeps_device (@fault V A).
Proof. intros s a s' H. discriminate. Qed.

Lemma keeps_bind A B (m : M A) (k : A -> M B) :
  keeps_device m -> (forall a, keeps_device (k a)) -> keeps_device (bind m k).
Proof.
  intros Hm Hk s b s' H. unfold bind in H.
  destruct (m s) as [[a s1]|] eqn:E1; [|discriminate].
  rewrite (Hk a s1 b s' H). exact (Hm s a s1 E1).
Qed.

Ltac keeps :=
  repeat first
    [ apply keeps_ret | apply keeps_emit | apply keeps_ask
    | apply keeps_get_hdev | apply keeps_fault
    | apply keeps_bind; [|intros ?]
    | match goal with
      | |- keeps_device (if ?b then _ else _) => destruct b
      | |- keeps_device (match ?x with Some _ => _ | None => _ end) =>
          destruct x
      end ].

Lemma keeps_hdmi_write_mask reg value mask :
  keeps_device (hdmi_write_mask reg value mask).
Proof. unfold hdmi_write_mask, readl, writel. keeps. Qed.

Lemma keeps_v4l2_subdev_call sd op : keeps_device (v4l2_subdev_call sd op).
Proof. unfold v4l2_subdev_call. keeps. Qed.

Lemma keeps_hdmi_resource_poweroff : keeps_device hdmi_resource_poweroff.
Proof.
  unfold hdmi_resource_poweroff, clk_disable, regulator_bulk_disable. keeps.
Qed.

Lemma keeps_hdmi_resource_poweron : keeps_device hdmi_resource_poweron.
Proof.
  unfold hdmi_resource_poweron, regulator_bulk_enable, clk_enable,
    clk_set_parent.
  keeps.
Qed.

Lemma keeps_hdmi_runtime_resume : keeps_device hdmi_runtime_resume.
Proof.
  unfold hdmi_runtime_resume. keeps;
    auto using keeps_hdmi_resource_poweron, keeps_hdmi_resource_poweroff,
      keeps_v4l2_subdev_call.
Qed.

Lemma keeps_hdmi_irq_handler : keeps_device hdmi_irq_handler.
Proof.
  unfold hdmi_irq_handler, hdmi_read, readl. keeps;
    auto using keeps_hdmi_write_mask.
Qed.

Lemma keeps_hdmi_streamoff : keeps_device hdmi_streamoff.
Proof.
  unfold hdmi_streamoff, clk_disable, clk_enable, clk_set_parent,
    hdmi_dumpregs.
  keeps; auto using keeps_hdmi_write_mask, keeps_v4l2_subdev_call.
Qed.

Lemma keeps_hdmi_s_power on : keeps_device (hdmi_s_power on).
Proof.
  unfold hdmi_s_power, pm_runtime_get_sync, pm_runtime_put_sync. keeps.
Qed.

Lemma keeps_hdmi_g_dv_timings : keeps_device hdmi_g_dv_timings.
Proof. unfold hdmi_g_dv_timings. keeps. Qed.

Lemma keeps_hdmi_g_mbus_fmt fmt : keeps_device (hdmi_g_mbus_fmt fmt).
Proof. unfold hdmi_g_mbus_fmt. keeps. Qed.

Lemma keeps_hdmi_enum_dv_timings t : keeps_device (hdmi_enum_dv_timings t).
Proof. unfold hdmi_enum_dv_timings. keeps. Qed.

Lemma keeps_hdmi_dv_timings_cap cap : keeps_device (hdmi_dv_timings_cap cap).
Proof.
  unfold hdmi_dv_timings_cap, phy_dv_timings_cap, ask_dv_timings_cap. keeps.
  intros s0 x s0' H. now injection H as _ <-.
Qed.

(** ** Runtime power management *)

Lemma hdmi_resource_poweroff_run s :
  hdmi_resource_poweroff s =
  Some (tt, after s [EvClkDisable sclk_hdmi; EvClkDisable hdmiphy;
                     EvRegulatorBulkDisable]).
Proof.
  unfold hdmi_resource_poweroff. do 2 run_head.
  unfold regulator_bulk_disable. rewrite emit_run. flatten. reflexivity.
Qed.

Lemma hdmi_runtime_suspend_run s :
  exists r,
    hdmi_runtime_suspend s =
    Some (0,
          {| device := with_dirty (device s) 1;
             trace := trace s ++
                      call_events (mhl_sd (device s)) (core_s_power 0) r ++
                      [EvClkDisable sclk_hdmi; EvClkDisable hdmiphy;
                       EvRegulatorBulkDisable] |}).
Proof.
  unfold hdmi_runtime_suspend. unfold bind at 1, get_hdev. cbv beta iota.
  run_head. exists r.
  rewrite (bind_Some _ (hdmi_resource_poweroff_run _)).
  unfold bind, set_cur_conf_dirty, get_hdev, put_hdev, ret, after.
  cbn [device trace]. now rewrite <- app_assoc.
Qed.

Lemma returns_ret A (a : A) : always_returns (ret a).
Proof. intros s. unfold ret. eauto. Qed.

Lemma returns_emit e : always_returns (emit e).
Proof. intros s. unfold emit. eauto. Qed.

Lemma returns_ask q : always_returns (ask q).
Proof. intros s. unfold ask. eauto. Qed.

Lemma returns_bind A B (m : M A) (k : A -> M B) :
  always_returns m -> (forall a, always_returns (k a)) ->
  always_returns (bind m k).
Proof.
  intros Hm Hk s. destruct (Hm s) as (a & s1 & E1).
  rewrite (bind_Some _ E1). apply Hk.
Qed.

Lemma returns_v4l2_subdev_call sd op : always_returns (v4l2_subdev_call sd op).
Proof.
  intros s. destruct (v4l2_subdev_call_run sd op s) as (r & Er & _). eauto.
Qed.

Lemma hdmi_runtime_resume_returns : always_returns hdmi_runtime_resume.
Proof.
  unfold hdmi_runtime_resume, hdmi_resource_poweron, hdmi_resource_poweroff,
    regulator_bulk_enable, regulator_bulk_disable, clk_enable, clk_disable,
    clk_set_parent.
  repeat first
    [ apply returns_ret | apply returns_emit | apply returns_ask
    | apply returns_v4l2_subdev_call
    | apply returns_bind; [|intros ?]
    | match goal with
      | |- always_returns (if ?b then _ else _) => destruct b
      end ].
  intros s. unfold get_hdev. eauto.
Qed.

Lemma hdmi_streamon_extends s ra sa r s' :
  hdmi_conf_apply s = Some (ra, sa) ->
  hdmi_streamon s = Some (r, s') ->
  device s' = device sa /\ exists d, trace s' = trace sa ++ d.
Proof.
  intros Ea Es.
  destruct (hdmi_streamon_run s ra sa Ea)
    as [(_ & Es')|(_ & r1 & _ & _ & [(_ & Es')|(_ & vals & _ & Hw)])];
    cbv zeta in *.
  - rewrite Es' in Es. injection Es as _ <-.
    split; [reflexivity|]. exists []. now rewrite app_nil_r.
  - rewrite Es' in Es. injection Es as _ <-.
    split; [reflexivity|]. eexists. reflexivity.
  - destruct Hw as [(_ & rp & Es')|(v & h & rm & _ & _ & _ & _ & Hm)].
    + rewrite Es' in Es. injection Es as _ <-.
      split; [reflexivity|]. flatten. eexists. reflexivity.
    + destruct Hm as [(_ & _ & rp & Es')|(_ & o1 & o2 & _ & _ & Es')];
        rewrite Es' in Es; injection Es as _ <-;
        (split; [reflexivity|]); flatten; eexists; reflexivity.
Qed.

(** C9.  Resume never changes the device structure, the dirty flag
    included.  Suspend returns 0 and leaves the dirty flag at 1, and after
    the resume that follows it (whatever its result) the flag is still 1.
    The next start-stream then does not skip mode-apply: its run starts
    with the PHY reset, the delays and the forwarding of the timings to the
    PHY; when the PHY accepts them it goes on with the core reset, the
    baseline registers and the register programmer on the current
    parameters, and only then is the flag cleared. *)
Theorem hdmi_suspend_resume_reapplies (s : state) :
  keeps_device hdmi_runtime_resume /\
  exists s1,
    hdmi_runtime_suspend s = Some (0, s1) /\
    cur_conf_dirty (device s1) = 1 /\
    exists r2 s2,
      hdmi_runtime_resume s1 = Some (r2, s2) /\
      cur_conf_dirty (device s2) = 1 /\
      forall t,
        cur_conf (device s) = Some t ->
        exists r3 s3 ra sa o1 o2 rt,
          hdmi_streamon s2 = Some (r3, s3) /\
          hdmi_conf_apply s2 = Some (ra, sa) /\
          (exists d, trace s3 = trace sa ++ d) /\
          let d1 :=
            phy_reset_events o1 o2 ++
            call_events (phy_sd (device s))
              (video_s_dv_timings (cur_timings (device s))) rt in
          (rt <> 0 /\ ra = rt /\ trace sa = trace s2 ++ d1 \/
           rt = 0 /\ ra = 0 /\
           exists o3 o4 di dt,
             let s_core := after s2 (d1 ++ core_reset_events o3 o4) in
             hdmi_reg_init s_core = Some (tt, after s_core di) /\
             hdmi_timing_apply t (after s_core di) =
               Some (tt, after (after s_core di) dt) /\
             existsb is_reg_write dt = true /\
             trace sa =
               trace s2 ++ d1 ++ core_reset_events o3 o4 ++ di ++ dt /\
             cur_conf_dirty (device sa) = 0).
Proof.
  split; [apply keeps_hdmi_runtime_resume|].
  destruct (hdmi_runtime_suspend_run s) as (rs & Esus).
  eexists. split; [exact Esus|]. split; [reflexivity|].
  destruct (hdmi_runtime_resume_returns
    {| device := with_dirty (device s) 1;
       trace := trace s ++
                call_events (mhl_sd (device s)) (core_s_power 0) rs ++
                [EvClkDisable sclk_hdmi; EvClkDisable hdmiphy;
                 EvRegulatorBulkDisable] |}) as (r2 & s2 & Eres).
  exists r2, s2. split; [exact Eres|].
  pose proof (keeps_hdmi_runtime_resume _ _ _ Eres) as Ed.
  cbn [device] in Ed.
  split; [now rewrite Ed|].
  intros t Ht.
  assert (Hd : cur_conf_dirty (device s2) <> 0) by (rewrite Ed; discriminate).
  assert (Hc : cur_conf (device s2) = Some t) by (rewrite Ed; exact Ht).
  destruct (hdmi_streamon_returns s2) as (r3 & s3 & Es3); [congruence|].
  destruct (hdmi_streamon_needs_apply s2 r3 s3 Es3) as (ra & sa & Ea).
  destruct (hdmi_streamon_extends s2 ra sa r3 s3 Ea Es3) as (_ & Hext).
  destruct (hdmi_conf_apply_dirty s2 Hd)
    as (o1 & o2 & rt & Ho1 & Ho2 & _ & [(Hrt & Ee)|(-> & Hok)]);
    rewrite Ed in *; cbn [with_dirty phy_sd cur_timings] in *.
  - exists r3, s3, ra, sa, o1, o2, rt.
    split; [exact Es3|]. split; [exact Ea|]. split; [exact Hext|].
    cbv zeta. left. split; [exact Hrt|].
    rewrite Ee in Ea. injection Ea as <- <-. split; reflexivity.
  - destruct Hok as (o3 & o4 & di & Ho3 & Ho4 & Ei & _ & Ki & Hm).
    rewrite Hc in Hm. destruct Hm as (dt & Et & _ & Wt & Kt & Ee).
    exists r3, s3, ra, sa, o1, o2, 0.
    split; [exact Es3|]. split; [exact Ea|]. split; [exact Hext|].
    cbv zeta. right. split; [reflexivity|].
    rewrite Ee in Ea. injection Ea as <- <-. split; [reflexivity|].
    exists o3, o4, di, dt.
    rewrite <- after_after.
    split; [exact Ei|]. split; [exact Et|]. split; [exact Wt|].
    split; [|reflexivity].
    cbn [trace after]. now rewrite <- !app_assoc.
Qed.

(** ** The current configuration is never NULL after attach *)

Lemma hdmi_probe_device_cur_conf phy mhl d :
  hdmi_probe_device phy mhl = Some d ->
  cur_conf d <> None /\ cur_conf_dirty d = 1 /\ phy_sd d = Some phy.
Proof.
  unfold hdmi_probe_device.
  destruct (nth_error hdmi_timings_tab HDMI_DEFAULT_TIMINGS_IDX) as [row|];
    [|discriminate].
  intros H. injection H as <-. cbn [cur_conf cur_conf_dirty phy_sd].
  split; [discriminate|]. split; reflexivity.
Qed.

Lemma run_operation_cur_conf op s r s' :
  run_operation op s = Some (r, s') ->
  cur_conf (device s) <> None -> cur_conf (device s') <> None.
Proof.
  assert (Hkeep : forall (m : M Z),
            keeps_device m -> m s = Some (r, s') ->
            cur_conf (device s) <> None -> cur_conf (device s') <> None).
  { intros m Hm H. now rewrite (Hm s r s' H). }
  assert (Hfst : forall B (m : M (Z * B)),
            keeps_device m -> keeps_device (bind m (fun x => ret (fst x)))).
  { intros B m Hm. apply keeps_bind; [exact Hm|]. intros x. apply keeps_ret. }
  destruct op as [on|timings| |fmt|enable|timings|cap| | |];
    cbn [run_operation]; intros H.
  - apply (Hkeep _ (keeps_hdmi_s_power on) H).
  - revert H. unfold hdmi_s_dv_timings.
    unfold bind at 1, get_hdev. cbv beta iota.
    destruct (Nat.eqb _ _).
    { unfold ret. intros H. injection H as _ <-. trivial. }
    destruct (nth_error _ _) as [row|]; [|discriminate].
    unfold bind, put_hdev, ret. intros H. injection H as _ <-.
    intros _. discriminate.
  - apply (Hkeep _ (Hfst _ _ keeps_hdmi_g_dv_timings) H).
  - apply (Hkeep _ (Hfst _ _ (keeps_hdmi_g_mbus_fmt fmt)) H).
  - unfold hdmi_s_stream in H.
    destruct (Z.eqb_spec enable 0) as [->|Hen]; cbv [negb] in H.
    + apply (Hkeep _ keeps_hdmi_streamoff H).
    + destruct (hdmi_streamon_needs_apply s r s' H) as (ra & sa & Ea).
      destruct (hdmi_streamon_extends s ra sa r s' Ea H) as (Ed & _).
      destruct (hdmi_conf_apply_frame s ra sa Ea) as (_ & _ & _ & Ec & _).
      rewrite Ed, Ec. trivial.
  - apply (Hkeep _ (Hfst _ _ (keeps_hdmi_enum_dv_timings timings)) H).
  - apply (Hkeep _ (Hfst _ _ (keeps_hdmi_dv_timings_cap cap)) H).
  - destruct (hdmi_runtime_suspend_run s) as (rs & Esus).
    rewrite Esus in H. injection H as _ <-. trivial.
  - apply (Hkeep _ keeps_hdmi_runtime_resume H).
  - apply (Hkeep _ keeps_hdmi_irq_handler H).
Qed.

(** ** Who writes the Mode Config State *)

(** C10 (amended).  An operation of the device that changes [cur_conf] or
    the dirty flag is one of three: set-timings, which on success leaves
    the flag at 1; start-stream, which changes them only through a
    successful mode-apply and leaves [cur_conf] alone and the flag at 0;
    the runtime-suspend handler, which leaves [cur_conf] alone and the flag
    at 1.  Every other operation (set-power, get-timings, get-format,
    stop-stream, enumerate-timings, timings-capabilities, runtime resume,
    the interrupt handler) leaves both as they were. *)
Theorem mode_config_writers (op : hdmi_operation) (s : state) (r : Z)
    (s' : state) :
  run_operation op s = Some (r, s') ->
  (cur_conf (device s') = cur_conf (device s) /\
   cur_conf_dirty (device s') = cur_conf_dirty (device s)) \/
  (exists timings,
     op = op_s_dv_timings timings /\ r = 0 /\
     cur_conf_dirty (device s') = 1) \/
  (exists enable sa,
     op = op_s_stream enable /\ enable <> 0 /\
     hdmi_conf_apply s = Some (0, sa) /\
     device s' = device sa /\
     cur_conf (device s') = cur_conf (device s) /\
     cur_conf_dirty (device s') = 0) \/
  (op = op_runtime_suspend /\
   cur_conf (device s') = cur_conf (device s) /\
   cur_conf_dirty (device s') = 1).
Proof.
  assert (Hkeep : forall (m : M Z),
            keeps_device m -> m s = Some (r, s') ->
            cur_conf (device s') = cur_conf (device s) /\
            cur_conf_dirty (device s') = cur_conf_dirty (device s)).
  { intros m Hm H. now rewrite (Hm s r s' H). }
  assert (Hfst : forall B (m : M (Z * B)),
            keeps_device m -> keeps_device (bind m (fun x => ret (fst x)))).
  { intros B m Hm. apply keeps_bind; [exact Hm|]. intros x. apply keeps_ret. }
  destruct op as [on|timings| |fmt|enable|timings|cap| | |]; cbn [run_operation];
    intros H.
  - left. apply (Hkeep _ (keeps_hdmi_s_power on) H).
  - revert H. unfold hdmi_s_dv_timings.
    unfold bind at 1, get_hdev. cbv beta iota.
    destruct (Nat.eqb _ _).
    { unfold ret. intros H. injection H as _ <-. now left. }
    destruct (nth_error _ _) as [row|]; [|discriminate].
    unfold bind, put_hdev, ret. intros H. injection H as <- <-.
    right. left. exists timings. auto.
  - left. apply (Hkeep _ (Hfst _ _ keeps_hdmi_g_dv_timings) H).
  - left. apply (Hkeep _ (Hfst _ _ (keeps_hdmi_g_mbus_fmt fmt)) H).
  - unfold hdmi_s_stream in H.
    destruct (Z.eqb_spec enable 0) as [->|Hen]; cbv [negb] in H.
    + left. apply (Hkeep _ keeps_hdmi_streamoff H).
    + destruct (hdmi_streamon_needs_apply s r s' H) as (ra & sa & Ea).
      destruct (hdmi_streamon_extends s ra sa r s' Ea H) as (Ed & _).
      destruct (hdmi_conf_apply_frame s ra sa Ea)
        as (_ & _ & _ & Ec & _ & [Hsame|(Hz & ->)]).
      * left. rewrite Ed. auto.
      * right. right. left. exists enable, sa.
        rewrite Ed. auto 10.
  - left. apply (Hkeep _ (Hfst _ _ (keeps_hdmi_enum_dv_timings timings)) H).
  - left. apply (Hkeep _ (Hfst _ _ (keeps_hdmi_dv_timings_cap cap)) H).
  - destruct (hdmi_runtime_suspend_run s) as (rs & Esus).
    rewrite Esus in H. injection H as _ <-.
    right. right. right. auto.
  - left. apply (Hkeep _ keeps_hdmi_runtime_resume H).
  - left. apply (Hkeep _ keeps_hdmi_irq_handler H).
Qed.

(** * Further properties of the driver *)

(** ** Register helpers *)

(** X1.  hdmi_write_mask is one read of the register followed by one write
    to the same register, and of the 32 bits written each one comes from
    [value] where the mask has the bit and from the word just read where
    it has not. *)
Theorem hdmi_write_mask_bitwise (reg : reg_id) (value mask : Z) (s : state) :
  exists old v,
    hdmi_write_mask reg value mask s =
      Some (tt, after s [EvReadl (reg, 0) old; EvWritel (reg, 0) v]) /\
    0 <= old < 2 ^ 32 /\ 0 <= v < 2 ^ 32 /\
    forall n, 0 <= n < 32 ->
      Z.testbit v n =
      if Z.testbit mask n then Z.testbit value n else Z.testbit old n.
Proof.
  destruct (hdmi_write_mask_run reg value mask s) as (old & Ho & Eo).
  exists old, (mask_merge value mask old).
  split; [exact Eo|]. split; [exact Ho|]. split; [apply u32_range|].
  intros n Hn. unfold mask_merge.
  rewrite u32_bits by lia.
  rewrite Z.lor_spec, !Z.land_spec, not32_bits by lia.
  destruct (Z.ltb_spec n 32); [|lia].
  destruct (Z.testbit mask n); simpl;
    rewrite ?andb_true_r, ?andb_false_r, ?orb_false_r; reflexivity.
Qed.

Lemma one_lane v :
  0 <= v -> 0 + u8 (v .>> 0) * 2 ^ (8 * 0) = v mod 2 ^ 8.
Proof.
  intros Hv. unfold u8, shr32. rewrite Z.shiftr_0_r.
  change (2 ^ (8 * 0)) with 1. lia.
Qed.

Lemma four_lanes v :
  0 <= v ->
  0 + u8 (v .>> 0) * 2 ^ (8 * 0) + u8 (v .>> 8) * 2 ^ (8 * 1)
    + u8 (v .>> 16) * 2 ^ (8 * 2) + u8 (v .>> 24) * 2 ^ (8 * 3)
  = v mod 2 ^ 32.
Proof.
  intros Hv. unfold u8, shr32.
  rewrite Z.shiftr_0_r, !Z.shiftr_div_pow2 by lia.
  change (2 ^ (8 * 0)) with 1. change (2 ^ (8 * 1)) with 256.
  change (2 ^ (8 * 2)) with 65536. change (2 ^ (8 * 3)) with 16777216.
  change (2 ^ 8) with 256. change (2 ^ 16) with 65536.
  change (2 ^ 24) with 16777216. change (2 ^ 32) with 4294967296.
  Z.to_euclidean_division_equations. lia.
Qed.

Lemma addr_eqb_same reg a b : addr_eqb (reg, a) (reg, b) = (a =? b).
Proof. unfold addr_eqb. simpl. now destruct reg. Qed.

(** The lanes written by [lane_events] read back as the low bytes of the
    value. *)
Lemma written_lane_events reg k value tr :
  0 <= value -> (1 <= k <= 4)%nat ->
  written_bytes reg k (tr ++ lane_events reg k value) =
    Some (value mod 2 ^ (8 * Z.of_nat k)).
Proof.
  intros Hv Hk.
  assert (Hc : k = 1%nat \/ k = 2%nat \/ k = 3%nat \/ k = 4%nat) by lia.
  destruct Hc as [-> | [-> | [-> | ->]]];
    unfold written_bytes, lane_events; cbn [rev seq app map];
    change (Z.of_nat 0) with 0; change (Z.of_nat 1) with 1;
    change (Z.of_nat 2) with 2; change (Z.of_nat 3) with 3;
    change (Z.of_nat 4) with 4;
    change (4 * 0) with 0; change (4 * 1) with 4;
    change (4 * 2) with 8; change (4 * 3) with 12;
    rewrite !last_writeb_app; cbn [last_writeb];
    rewrite !addr_eqb_same; cbn [Z.eqb Pos.eqb].
  - now rewrite one_lane.
  - now rewrite two_lanes.
  - now rewrite three_lanes.
  - now rewrite four_lanes.
Qed.

(** X2.  hdmi_writebn stores the value byte by byte, most significant lane
    first, in lanes 4 bytes apart: [n] lanes for n = 1, 2, 3, and four
    lanes for every other [n] (0 and negative counts included: the switch
    enters at its default label).  Read back, the lanes give the value
    modulo 2^(8 * lanes). *)
Theorem hdmi_writebn_lanes (reg : reg_id) (n value : Z) (s : state) :
  0 <= value ->
  let k := if (1 <=? n) && (n <=? 3) then Z.to_nat n else 4%nat in
  hdmi_writebn reg n value s = Some (tt, after s (lane_events reg k value)) /\
  written_bytes reg k (trace s ++ lane_events reg k value) =
    Some (value mod 2 ^ (8 * Z.of_nat k)).
Proof.
  intros Hv k.
  assert (Hk : (1 <= k <= 4)%nat).
  { subst k. destruct ((1 <=? n) && (n <=? 3)) eqn:Eb; [|lia].
    apply andb_true_iff in Eb. lia. }
  split; [|now apply written_lane_events].
  clear Hk. subst k. unfold hdmi_writebn.
  assert (Hn : n = 1 \/ n = 2 \/ n = 3 \/ (n <> 1 /\ n <> 2 /\ n <> 3)) by lia.
  destruct Hn as [-> | [-> | [-> | (N1 & N2 & N3)]]].
  4: { apply Z.eqb_neq in N1, N2, N3. rewrite N1, N2, N3.
       replace ((1 <=? n) && (n <=? 3)) with false
         by (symmetry; apply andb_false_iff; apply Z.eqb_neq in N1, N2, N3;
             lia).
       unfold bind, writeb, emit, after, lane_events. cbn.
       now rewrite <- !app_assoc. }
  all: unfold bind, writeb, emit, ret, after, lane_events; cbn;
    now rewrite <- ?app_assoc.
Qed.

Lemma mask_merge_all_ones m o :
  0 <= m < 2 ^ 32 -> 0 <= o < 2 ^ 32 -> mask_merge all_ones m o = o .| m.
Proof.
  intros Hm Ho. unfold mask_merge, all_ones.
  apply Z.bits_inj'. intros n Hn.
  rewrite u32_bits by lia.
  rewrite !Z.lor_spec, !Z.land_spec, !not32_bits by lia.
  rewrite Z.bits_0.
  destruct (Z.ltb_spec n 32).
  - simpl. destruct (Z.testbit m n), (Z.testbit o n); reflexivity.
  - rewrite (testbit_above m 32 n), (testbit_above o 32 n) by lia.
    reflexivity.
Qed.

Lemma mask_merge_zero m o :
  0 <= o < 2 ^ 32 -> mask_merge 0 m o = o .& .~ m.
Proof.
  intros Ho. unfold mask_merge.
  rewrite Z.land_0_l, Z.lor_0_l.
  apply u32_no_high_bits. intros n Hn.
  rewrite Z.land_spec, (testbit_above o 32 n) by lia. reflexivity.
Qed.

Lemma bind_ret {A B} (a : A) (k : A -> M B) s : bind (ret a) k s = k a s.
Proof. reflexivity. Qed.

(** ** Hot-plug interrupt handler *)

(** X3.  The interrupt handler reads the flag register once, always
    answers IRQ_HANDLED and never changes the device structure.  When
    neither hot-plug flag is set it does nothing else; for each flag that
    is set (unplug first) it reads the flag register again and writes the
    word back with that flag set, every other bit as just read.  No other
    register is accessed. *)
Theorem hdmi_irq_handler_acknowledge (s : state) :
  0 <= HDMI_INTC_FLAG_HPD_UNPLUG < 2 ^ 32 ->
  0 <= HDMI_INTC_FLAG_HPD_PLUG < 2 ^ 32 ->
  exists flag o1 o2,
    0 <= flag < 2 ^ 32 /\
    hdmi_irq_handler s =
      Some (IRQ_HANDLED,
            after s
              ([EvReadl (HDMI_INTC_FLAG, 0) flag] ++
               (if flag .& HDMI_INTC_FLAG_HPD_UNPLUG =? 0 then []
                else [EvReadl (HDMI_INTC_FLAG, 0) o1;
                      EvWritel (HDMI_INTC_FLAG, 0)
                        (o1 .| HDMI_INTC_FLAG_HPD_UNPLUG)]) ++
               (if flag .& HDMI_INTC_FLAG_HPD_PLUG =? 0 then []
                else [EvReadl (HDMI_INTC_FLAG, 0) o2;
                      EvWritel (HDMI_INTC_FLAG, 0)
                        (o2 .| HDMI_INTC_FLAG_HPD_PLUG)]))).
Proof.
  intros Hu Hp. unfold hdmi_irq_handler.
  destruct (hdmi_read_run HDMI_INTC_FLAG s) as (flag & Hf & Ef).
  rewrite (bind_Some _ Ef). cbv beta.
  exists flag.
  destruct (flag .& HDMI_INTC_FLAG_HPD_UNPLUG =? 0);
    destruct (flag .& HDMI_INTC_FLAG_HPD_PLUG =? 0);
    cbv [negb]; cbv iota.
  - exists 0, 0. split; [exact Hf|]. reflexivity.
  - rewrite bind_ret. run_head. exists 0, o. split; [exact Hf|].
    unfold write_mask_events. rewrite mask_merge_all_ones by assumption.
    reflexivity.
  - run_head. exists o, 0. split; [exact Hf|].
    unfold write_mask_events. rewrite mask_merge_all_ones by assumption.
    rewrite bind_ret. unfold ret. now rewrite app_nil_r.
  - do 2 run_head. exists o, o0. split; [exact Hf|].
    unfold write_mask_events. rewrite !mask_merge_all_ones by assumption.
    reflexivity.
Qed.

(** ** Register programmer: the second field *)

(** X4.  The register programmer writes the interlace mode register with 1
    for an interlaced parameter set and 0 for a progressive one, sets or
    clears the field-enable bit of the timing generator accordingly, and
    stores to the eight second-field registers exactly when the set is
    interlaced: a progressive set leaves each of them untouched. *)
Theorem hdmi_timing_apply_second_field (t : hdmi_timings) (s : state) :
  exists d o,
    hdmi_timing_apply t s = Some (tt, after s d) /\
    last_writeb (HDMI_INT_PRO_MODE, 0) d =
      Some (if interlaced t =? 0 then 0 else 1) /\
    In (EvWritel (HDMI_TG_CMD, 0)
          (mask_merge (if interlaced t =? 0 then 0 else all_ones)
             HDMI_TG_FIELD_EN o)) d /\
    forall reg, In reg second_field_regs ->
      existsb (stores_to reg) d = negb (interlaced t =? 0).
Proof.
  unfold hdmi_timing_apply.
  destruct (interlaced t =? 0); cbn; unfold writeb, emit, after; cbn;
    repeat rewrite <- app_assoc; cbn [app];
    (eexists; eexists; split; [reflexivity|]);
    (split; [reflexivity|]);
    (split; [unfold mask_merge; repeat (first [left; reflexivity | right])|]);
    intros reg Hin; simpl in Hin;
    repeat (destruct Hin as [<-|Hin]; [reflexivity|]);
    contradiction.
Qed.

(** ** The catalogue fits the registers *)

Lemma written_bytes_S reg k tr :
  written_bytes reg (S k) tr =
  match last_writeb (reg, 4 * Z.of_nat k) tr, written_bytes reg k tr with
  | Some b, Some lo => Some (lo + b * 2 ^ (8 * Z.of_nat k))
  | _, _ => None
  end.
Proof. reflexivity. Qed.

Lemma written_bytes_app reg n tr d v :
  written_bytes reg n d = Some v -> written_bytes reg n (tr ++ d) = Some v.
Proof.
  revert v. induction n as [|k IH]; intros v.
  - trivial.
  - rewrite !written_bytes_S, last_writeb_app.
    destruct (last_writeb (reg, 4 * Z.of_nat k) d) as [b|]; [|discriminate].
    destruct (written_bytes reg k d) as [lo|]; [|discriminate].
    now rewrite (IH lo eq_refl).
Qed.

Ltac lanes_hold :=
  repeat constructor; unfold lanes_hold; vm_compute; reflexivity.

(** The stores of hdmi_timing_apply for a row of the catalogue, taken by
    themselves, leave every register of the row exact. *)
Lemma hdmi_timing_apply_catalogue row s :
  In row hdmi_timings_tab ->
  exists d,
    hdmi_timing_apply (hdmi_timings_ptr row) s = Some (tt, after s d) /\
    Forall (lanes_hold d) (timing_registers (hdmi_timings_ptr row)).
Proof.
  intros Hin. simpl in Hin.
  repeat (destruct Hin as [<-|Hin]; [|]); try contradiction;
    cbn [hdmi_timings_ptr];
    unfold hdmi_timing_apply;
    cbn; unfold writeb, emit, after; cbn;
    repeat rewrite <- app_assoc; cbn [app];
    (eexists; split; [reflexivity|]);
    unfold timing_registers; cbn [interlaced Z.eqb app];
    lanes_hold.
Qed.

Lemma lanes_hold_app tr d x : lanes_hold d x -> lanes_hold (tr ++ d) x.
Proof. destruct x as [[reg n] v]. apply written_bytes_app. Qed.

(** X5.  For every row of the catalogue the register programmer loses
    nothing: each multi-byte register ends up holding the parameters of
    the row, the packed fields side by side without overlap and without a
    bit cut off by the lane count, for the progressive and for the
    interlaced rows alike. *)
Theorem hdmi_timings_tab_fits_registers (row : hdmi_timings_row) (s : state) :
  In row hdmi_timings_tab ->
  let t := hdmi_timings_ptr row in
  exists s',
    hdmi_timing_apply t s = Some (tt, s') /\
    Forall (lanes_hold (trace s'))
      [(HDMI_H_BLANK_0, 2%nat, beg (hact t));
       (HDMI_H_SYNC_GEN_0, 3%nat,
        hsyn_pol t * 2 ^ 20 + end_ (hsyn t) * 2 ^ 10 + beg (hsyn t));
       (HDMI_V_BLANK_0, 3%nat,
        beg (fst (vact t)) * 2 ^ 11 + end_ (fst (vact t)));
       (HDMI_V_SYNC_GEN_1_0, 3%nat,
        beg (fst (vsyn t)) * 2 ^ 12 + end_ (fst (vsyn t)));
       (HDMI_TG_H_FSZ_L, 2%nat, end_ (hact t));
       (HDMI_TG_HACT_ST_L, 2%nat, beg (hact t));
       (HDMI_TG_HACT_SZ_L, 2%nat, end_ (hact t) - beg (hact t));
       (HDMI_TG_VSYNC_L, 2%nat, beg (fst (vsyn t)));
       (HDMI_TG_VACT_ST_L, 2%nat, beg (fst (vact t)));
       (HDMI_TG_VACT_SZ_L, 2%nat,
        end_ (fst (vact t)) - beg (fst (vact t)));
       (HDMI_TG_VSYNC_TOP_HDMI_L, 2%nat, beg (fst (vsyn t)));
       (HDMI_TG_FIELD_TOP_HDMI_L, 2%nat, beg (fst (vsyn t)))] /\
    (interlaced t = 0 ->
     Forall (lanes_hold (trace s'))
       [(HDMI_H_V_LINE_0, 3%nat,
         end_ (hact t) * 2 ^ 12 + end_ (fst (vact t)));
        (HDMI_TG_V_FSZ_L, 2%nat, end_ (fst (vact t)))]) /\
    (interlaced t <> 0 ->
     Forall (lanes_hold (trace s'))
       [(HDMI_H_V_LINE_0, 3%nat,
         end_ (hact t) * 2 ^ 12 + end_ (snd (vact t)));
        (HDMI_V_BLANK_F_0, 3%nat,
         end_ (snd (vact t)) * 2 ^ 11 + beg (snd (vact t)));
        (HDMI_V_SYNC_GEN_2_0, 3%nat,
         beg (snd (vsyn t)) * 2 ^ 12 + end_ (snd (vsyn t)));
        (HDMI_V_SYNC_GEN_3_0, 3%nat,
         (beg (hsyn t) + vsyn_off t) * 2 ^ 12 + (beg (hsyn t) + vsyn_off t));
        (HDMI_TG_V_FSZ_L, 2%nat, end_ (snd (vact t)));
        (HDMI_TG_VSYNC2_L, 2%nat, beg (snd (vsyn t)));
        (HDMI_TG_FIELD_CHG_L, 2%nat, end_ (fst (vact t)));
        (HDMI_TG_VACT_ST2_L, 2%nat, beg (snd (vact t)));
        (HDMI_TG_VSYNC_BOT_HDMI_L, 2%nat, beg (snd (vsyn t)));
        (HDMI_TG_FIELD_BOT_HDMI_L, 2%nat, beg (snd (vsyn t)))]).
Proof.
  intros Hin t.
  destruct (hdmi_timing_apply_catalogue row s Hin) as (d & Ed & Hd).
  exists (after s d). split; [exact Ed|].
  assert (Hall : Forall (lanes_hold (trace (after s d))) (timing_registers t)).
  { eapply Forall_impl; [|exact Hd]. intros x. apply lanes_hold_app. }
  unfold timing_registers in Hall. apply Forall_app in Hall.
  destruct Hall as (Hc & Hs). split; [exact Hc|].
  destruct (Z.eqb_spec (interlaced t) 0) as [Hi|Hi].
  - split; [intros _; exact Hs|intros Hn; contradiction].
  - split; [intros Hn; contradiction|intros _; exact Hs].
Qed.

(** ** Timings operations *)

Lemma hdmi_s_dv_timings_loop_lt rows timings j k row :
  nth_error rows k = Some row ->
  v4l2_match_dv_timings (dv_timings row) timings 0 = true ->
  (hdmi_s_dv_timings_loop rows timings j < j + List.length rows)%nat.
Proof.
  revert j k. induction rows as [|r0 rows IH]; intros j k Hk Em.
  - destruct k; discriminate.
  - simpl.
    destruct (v4l2_match_dv_timings (dv_timings r0) timings 0) eqn:E0; [lia|].
    destruct k as [|k].
    + injection Hk as ->. congruence.
    + specialize (IH (S j) k Hk Em). lia.
Qed.

(** The two ways through hdmi_s_dv_timings. *)
Lemma hdmi_s_dv_timings_run timings s :
  ((forall row, In row hdmi_timings_tab ->
      v4l2_match_dv_timings (dv_timings row) timings 0 = false) /\
   hdmi_s_dv_timings timings s = Some (- EINVAL, s)) \/
  (exists row,
     In row hdmi_timings_tab /\
     v4l2_match_dv_timings (dv_timings row) timings 0 = true /\
     hdmi_s_dv_timings timings s =
       Some (0, {| device :=
                     {| phy_sd := phy_sd (device s);
                        mhl_sd := mhl_sd (device s);
                        cur_conf := Some (hdmi_timings_ptr row);
                        cur_conf_dirty := 1;
                        cur_timings :=
                          if negb (reduced_fps row)
                          then clear_can_reduce_fps timings
                          else timings |};
                   trace := trace s |})).
Proof.
  unfold hdmi_s_dv_timings. unfold bind at 1, get_hdev. cbv beta iota.
  set (i := hdmi_s_dv_timings_loop hdmi_timings_tab timings 0).
  destruct (Nat.eqb_spec i (ARRAY_SIZE hdmi_timings_tab)) as [Hi|Hi].
  - left. split; [|reflexivity].
    intros row Hin.
    destruct (v4l2_match_dv_timings (dv_timings row) timings 0) eqn:Em;
      [|reflexivity].
    exfalso.
    destruct (In_nth_error _ _ Hin) as (k & Hk).
    pose proof (hdmi_s_dv_timings_loop_lt _ timings 0 k row Hk Em) as Hlt.
    subst i. unfold ARRAY_SIZE in Hi. lia.
  - right.
    destruct (hdmi_s_dv_timings_loop_found hdmi_timings_tab timings 0 i eq_refl)
      as (row & Hn & _ & Hm & _); [exact Hi|].
    rewrite Nat.sub_0_r in Hn. rewrite Hn.
    exists row. split; [eapply nth_error_In; exact Hn|].
    split; [exact Hm|]. reflexivity.
Qed.

Lemma hdmi_g_mbus_fmt_catalogue row fmt s :
  In row hdmi_timings_tab ->
  cur_conf (device s) = Some (hdmi_timings_ptr row) ->
  exists fmt',
    hdmi_g_mbus_fmt fmt s = Some ((0, fmt'), s) /\
    In (width fmt', height fmt')
       [(720, 480); (720, 576); (1280, 720); (1920, 1080)] /\
    code fmt' = V4L2_MBUS_FMT_FIXED /\
    colorspace fmt' = V4L2_COLORSPACE_SRGB /\
    (field fmt' = V4L2_FIELD_NONE \/
     field fmt' = V4L2_FIELD_INTERLACED /\ height fmt' = 1080).
Proof.
  intros Hin Hc. unfold hdmi_g_mbus_fmt.
  unfold bind at 1, get_hdev. cbv beta iota. rewrite Hc.
  simpl in Hin.
  repeat (destruct Hin as [<-|Hin]; [|]); try contradiction;
    cbn [hdmi_timings_ptr]; cbn; unfold ret;
    (eexists; split; [reflexivity|]);
    cbn [width height code colorspace field];
    (split; [vm_compute; auto 10|]);
    (split; [reflexivity|]); (split; [reflexivity|]);
    first [left; reflexivity | right; split; reflexivity].
Qed.

(** X6.  After a successful set-timings, get-format succeeds and overwrites
    the caller's structure whatever it held: the size is one of 720x480,
    720x576, 1280x720 and 1920x1080 (an interlaced parameter set reports
    both fields, twice the lines of one), the code is the fixed RGB one,
    the colour space sRGB, and the field order is interlaced only for a
    1080-line mode.  The call touches neither the device nor the
    hardware. *)
Theorem hdmi_g_mbus_fmt_after_s_dv_timings (timings : v4l2_dv_timings)
    (fmt : v4l2_mbus_framefmt) (s s1 : state) :
  hdmi_s_dv_timings timings s = Some (0, s1) ->
  exists fmt',
    hdmi_g_mbus_fmt fmt s1 = Some ((0, fmt'), s1) /\
    In (width fmt', height fmt')
       [(720, 480); (720, 576); (1280, 720); (1920, 1080)] /\
    code fmt' = V4L2_MBUS_FMT_FIXED /\
    colorspace fmt' = V4L2_COLORSPACE_SRGB /\
    (field fmt' = V4L2_FIELD_NONE \/
     field fmt' = V4L2_FIELD_INTERLACED /\ height fmt' = 1080).
Proof.
  intros Hs.
  destruct (hdmi_s_dv_timings_run timings s) as [(_ & Er)|(row & Hin & _ & Er)];
    rewrite Er in Hs.
  - injection Hs as Hs _. unfold EINVAL in Hs. lia.
  - injection Hs as <-. now apply (hdmi_g_mbus_fmt_catalogue row).
Qed.

(** X7.  Set-timings only records: whether it succeeds or not it performs
    no register access and no sub-device call, and it never changes the
    two sub-device pointers.  After a success the next mode-apply resets
    the PHY and then hands the PHY exactly the descriptor that
    get-timings returns (the caller's, with the can-reduce-fps bits
    cleared unless the row allows reduced fps). *)
Theorem hdmi_s_dv_timings_deferred (timings : v4l2_dv_timings) (s : state)
    (r : Z) (s1 : state) :
  hdmi_s_dv_timings timings s = Some (r, s1) ->
  trace s1 = trace s /\
  phy_sd (device s1) = phy_sd (device s) /\
  mhl_sd (device s1) = mhl_sd (device s) /\
  (r = 0 \/ r = - EINVAL) /\
  (r = 0 ->
   forall phy, phy_sd (device s) = Some phy ->
   exists got ra s2 o1 o2 rp rest,
     hdmi_g_dv_timings s1 = Some ((0, got), s1) /\
     hdmi_conf_apply s1 = Some (ra, s2) /\
     trace s2 =
       trace s ++ phy_reset_events o1 o2 ++
       [EvSubdevCall phy (video_s_dv_timings got) rp] ++ rest /\
     (rp <> 0 -> ra = rp /\ rest = []) /\
     (rp = 0 -> ra = 0)).
Proof.
  intros Hs.
  destruct (hdmi_s_dv_timings_run timings s) as [(_ & Er)|(row & Hin & _ & Er)];
    rewrite Er in Hs; injection Hs as <- <-.
  - repeat split; try reflexivity; [now right|].
    unfold EINVAL. intros H. lia.
  - cbn [device trace phy_sd mhl_sd].
    split; [reflexivity|]. split; [reflexivity|]. split; [reflexivity|].
    split; [now left|]. intros _ phy Hphy.
    match goal with
    | |- context [hdmi_conf_apply ?s0] => set (s1 := s0)
    end.
    assert (Hd : cur_conf_dirty (device s1) <> 0) by (cbn; lia).
    destruct (hdmi_conf_apply_dirty s1 Hd)
      as (o1 & o2 & rp & _ & _ & _ & Hcase).
    cbv zeta in Hcase.
    assert (Ephy : phy_sd (device s1) = Some phy) by exact Hphy.
    rewrite Ephy in Hcase. cbn [call_events] in Hcase.
    exists (cur_timings (device s1)).
    destruct Hcase as [(Hr & Ea)|(Hr & o3 & o4 & di & _ & _ & _ & _ & _ & Hc)].
    + eexists rp, _, o1, o2, rp, [].
      split; [reflexivity|]. split; [exact Ea|].
      split; [cbn [after trace]; now rewrite app_nil_r|].
      split; [auto|]. intros H. contradiction.
    + assert (Ec : cur_conf (device s1) = Some (hdmi_timings_ptr row))
        by reflexivity.
      rewrite Ec in Hc. destruct Hc as (dt & _ & _ & _ & _ & Ea).
      eexists 0, _, o1, o2, rp, (core_reset_events o3 o4 ++ di ++ dt).
      split; [reflexivity|]. split; [exact Ea|].
      split; [cbn [after trace]; now rewrite <- !app_assoc|].
      split; [intros H; contradiction|]. reflexivity.
Qed.

(** X8.  Enumerate-timings refuses a pad other than 0 and an index of 10
    or more with -EINVAL and leaves the caller's structure as it was; for
    pad 0 and an index below 10 it returns 0 and the descriptor of that
    row, index and pad unchanged.  The can-reduce-fps bits are cleared in
    the descriptor handed out unless the row allows reduced fps, which
    only row 3 (1280x720 at 60 Hz) does.  Neither the device nor the
    hardware is touched. *)
Theorem hdmi_enum_dv_timings_bounds (e : v4l2_enum_dv_timings) (s : state) :
  0 <= index e ->
  (pad e <> 0 \/ 10 <= index e ->
   hdmi_enum_dv_timings e s = Some ((- EINVAL, e), s)) /\
  (pad e = 0 -> index e < 10 ->
   exists row,
     nth_error hdmi_timings_tab (Z.to_nat (index e)) = Some row /\
     hdmi_enum_dv_timings e s =
       Some ((0, {| index := index e; pad := pad e;
                    timings :=
                      if reduced_fps row then dv_timings row
                      else clear_can_reduce_fps (dv_timings row) |}), s) /\
     (reduced_fps row = true <-> index e = 3) /\
     (index e <> 3 ->
      flags (bt (clear_can_reduce_fps (dv_timings row)))
        .& V4L2_DV_FL_CAN_REDUCE_FPS = 0)).
Proof.
  intros H0. split.
  - intros Hbad. unfold hdmi_enum_dv_timings.
    destruct (Z.eqb_spec (pad e) 0) as [Hp|Hp]; cbv [negb]; cbv iota;
      [|reflexivity].
    destruct Hbad as [Hbad|Hbad]; [contradiction|].
    replace (Z.of_nat (ARRAY_SIZE hdmi_timings_tab) <=? index e) with true;
      [reflexivity|].
    symmetry. apply Z.leb_le. exact Hbad.
  - intros Hp Hi. unfold hdmi_enum_dv_timings.
    rewrite Hp. cbv [negb Z.eqb]; cbv iota.
    replace (Z.of_nat (ARRAY_SIZE hdmi_timings_tab) <=? index e) with false
      by (symmetry; apply Z.leb_gt; exact Hi).
    assert (Hk : exists k, (k < 10)%nat /\ index e = Z.of_nat k)
      by (exists (Z.to_nat (index e)); lia).
    destruct Hk as (k & Hk & Ek). rewrite Ek, Nat2Z.id.
    do 10 (destruct k as [|k];
           [eexists; split; [reflexivity|];
            cbn [reduced_fps negb]; split; [reflexivity|];
            split; [split; [discriminate || reflexivity
                           |intros H; (discriminate H || reflexivity)]|];
            intros _; apply land_not32_disjoint|]).
    lia.
Qed.

(** X9.  Whatever enumerate-timings hands out, set-timings accepts,
    provided the comparison of descriptors finds every catalogue
    descriptor equal to itself and does not look at the can-reduce-fps
    bits: the call returns 0, selects a row of the catalogue whose
    descriptor matches and marks the configuration dirty. *)
Theorem hdmi_enum_then_s_dv_timings (e e' : v4l2_enum_dv_timings)
    (s s' : state) :
  (forall row, In row hdmi_timings_tab ->
     v4l2_match_dv_timings (dv_timings row) (dv_timings row) 0 = true) ->
  (forall a b,
     v4l2_match_dv_timings a (clear_can_reduce_fps b) 0 =
     v4l2_match_dv_timings a b 0) ->
  hdmi_enum_dv_timings e s = Some ((0, e'), s') ->
  exists row s'',
    In row hdmi_timings_tab /\
    v4l2_match_dv_timings (dv_timings row) (timings e') 0 = true /\
    hdmi_s_dv_timings (timings e') s' = Some (0, s'') /\
    cur_conf (device s'') = Some (hdmi_timings_ptr row) /\
    cur_conf_dirty (device s'') = 1.
Proof.
  intros Hrefl Hflag He.
  assert (Hm : exists row0,
            In row0 hdmi_timings_tab /\
            v4l2_match_dv_timings (dv_timings row0) (timings e') 0 = true).
  { revert He. unfold hdmi_enum_dv_timings.
    destruct (negb (pad e =? 0)).
    { unfold ret, EINVAL. intros H. injection H as H _ _. lia. }
    destruct (Z.of_nat (ARRAY_SIZE hdmi_timings_tab) <=? index e).
    { unfold ret, EINVAL. intros H. injection H as H _ _. lia. }
    destruct (nth_error hdmi_timings_tab (Z.to_nat (index e)))
      as [row0|] eqn:En; [|discriminate].
    unfold ret. intros H. injection H as <- _.
    exists row0. split; [eapply nth_error_In; exact En|].
    cbn [timings].
    destruct (reduced_fps row0); cbn [negb].
    - apply Hrefl. eapply nth_error_In; exact En.
    - rewrite Hflag. apply Hrefl. eapply nth_error_In; exact En. }
  destruct Hm as (row0 & Hin0 & Hm0).
  destruct (hdmi_s_dv_timings_run (timings e') s')
    as [(Hno & _)|(row & Hin & Hm & Er)].
  - rewrite (Hno row0 Hin0) in Hm0. discriminate.
  - exists row. eexists. split; [exact Hin|]. split; [exact Hm|].
    split; [exact Er|]. split; reflexivity.
Qed.

(** ** Timings capabilities *)

(** X10.  Timings-capabilities refuses a pad other than 0 with -EINVAL,
    asking no one and leaving the structure as it was.  For pad 0 it asks
    the PHY once and returns 0 whatever the PHY answered: the answer is
    dropped.  The structure returned carries the fixed geometry 720..1920
    by 480..1080, the CEA-861 standard and both scan types; the pixel
    clock range and the pad are what the PHY left in the structure (the
    caller's, without a PHY).  The device is not changed. *)
Theorem hdmi_dv_timings_cap_result (cap : v4l2_dv_timings_cap) (s : state) :
  (cap_pad cap <> 0 ->
   hdmi_dv_timings_cap cap s = Some ((- EINVAL, cap), s)) /\
  (cap_pad cap = 0 ->
   exists filled rp cap',
     hdmi_dv_timings_cap cap s =
       Some ((0, cap'),
             after s (call_events (phy_sd (device s)) pad_dv_timings_cap rp)) /\
     filled =
       match phy_sd (device s) with
       | Some _ => env_dv_timings_cap (trace s) cap
       | None => cap
       end /\
     cap_type cap' = V4L2_DV_BT_656_1120 /\
     cap_pad cap' = cap_pad filled /\
     cap_bt cap' =
       {| min_width := 720; max_width := 1920;
          min_height := 480; max_height := 1080;
          min_pixelclock := min_pixelclock (cap_bt filled);
          max_pixelclock := max_pixelclock (cap_bt filled);
          standards := V4L2_DV_BT_STD_CEA861;
          capabilities :=
            V4L2_DV_BT_CAP_INTERLACED .| V4L2_DV_BT_CAP_PROGRESSIVE |}).
Proof.
  split.
  - intros Hp. unfold hdmi_dv_timings_cap.
    unfold bind at 1, get_hdev. cbv beta iota.
    apply Z.eqb_neq in Hp. now rewrite Hp.
  - intros Hp. unfold hdmi_dv_timings_cap.
    unfold bind at 1, get_hdev. cbv beta iota.
    rewrite Hp. cbv [negb Z.eqb]; cbv iota.
    destruct (phy_sd (device s)) as [phy|]; cbn [phy_dv_timings_cap].
    + eexists (env_dv_timings_cap (trace s) cap),
        (env (trace s) (QSubdevCall phy pad_dv_timings_cap)), _.
      split; [reflexivity|]. split; [reflexivity|].
      repeat split.
    + exists cap, 0. eexists.
      split; [unfold bind, ret; cbn [call_events]; now rewrite after_nil|].
      repeat split.
Qed.

(** ** Set-power *)

(** X11.  Set-power makes one runtime-PM request (get for a non-zero
    argument, put for zero) and does nothing else.  It returns the answer
    when that is an errno, -4095..-1, and 0 otherwise: a positive answer
    (the device was active already) is a success, and so is an answer
    below -4095. *)
Theorem hdmi_s_power_result (on : Z) (s : state) :
  exists r,
    hdmi_s_power on s =
      Some (if IS_ERR_VALUE r then r else 0,
            after s [EvPmRuntime (negb (on =? 0)) r]) /\
    - MAX_ERRNO <= (if IS_ERR_VALUE r then r else 0) <= 0 /\
    (IS_ERR_VALUE r = true <-> - MAX_ERRNO <= r < 0).
Proof.
  unfold hdmi_s_power.
  destruct (on =? 0); cbn [negb];
    [exists (env (trace s) (QPmRuntime false))
    |exists (env (trace s) (QPmRuntime true))];
    (split; [reflexivity|]);
    unfold IS_ERR_VALUE, MAX_ERRNO;
    match goal with
    | |- context [?a <=? ?b] =>
        destruct (Z.leb_spec a b); destruct (Z.ltb_spec b 0); cbn [andb];
        (split; [lia|split; [try discriminate; try reflexivity; intros; lia
                            |intros; try reflexivity; lia]])
    end.
Qed.

(** ** Power sequencing *)

Lemma hdmi_resource_poweron_run s :
  exists rr,
    (rr < 0 /\
     hdmi_resource_poweron s =
       Some (rr, after s [EvRegulatorBulkEnable rr])) \/
    (0 <= rr /\
     hdmi_resource_poweron s =
       Some (0, after s [EvRegulatorBulkEnable rr; EvClkEnable hdmiphy;
                         EvClkSetParent sclk_hdmi sclk_pixel;
                         EvClkEnable sclk_hdmi])).
Proof.
  exists (env (trace s) QRegulatorBulkEnable).
  unfold hdmi_resource_poweron.
  assert (Er : regulator_bulk_enable s =
               Some (env (trace s) QRegulatorBulkEnable,
                     after s [EvRegulatorBulkEnable
                                (env (trace s) QRegulatorBulkEnable)]))
    by reflexivity.
  rewrite (bind_Some _ Er). cbv beta.
  destruct (Z.ltb_spec (env (trace s) QRegulatorBulkEnable) 0) as [Hr|Hr].
  - left. split; [exact Hr|]. reflexivity.
  - right. split; [exact Hr|].
    do 2 run_head. rewrite (bind_Some _ (clk_enable_run _ _)).
    unfold ret. flatten. reflexivity.
Qed.

(** The three ways through hdmi_runtime_resume. *)
Lemma hdmi_runtime_resume_run s :
  exists rr rm,
    let on := [EvRegulatorBulkEnable rr; EvClkEnable hdmiphy;
               EvClkSetParent sclk_hdmi sclk_pixel; EvClkEnable sclk_hdmi] in
    let call := call_events (mhl_sd (device s)) (core_s_power 1) rm in
    (rr < 0 /\
     hdmi_runtime_resume s = Some (rr, after s [EvRegulatorBulkEnable rr])) \/
    (0 <= rr /\ (mhl_sd (device s) = None \/ rm = 0) /\
     hdmi_runtime_resume s = Some (0, after s (on ++ call))) \/
    (0 <= rr /\ mhl_sd (device s) <> None /\ rm <> 0 /\
     hdmi_runtime_resume s =
       Some (rm, after s (on ++ call ++
                          [EvClkDisable sclk_hdmi; EvClkDisable hdmiphy;
                           EvRegulatorBulkDisable]))).
Proof.
  remember (hdmi_runtime_resume s) as res eqn:Eres. symmetry in Eres.
  revert Eres.
  unfold hdmi_runtime_resume. unfold bind at 1, get_hdev. cbv beta iota.
  destruct (hdmi_resource_poweron_run s) as (rr & [(Hr & Ep)|(Hr & Ep)]);
    rewrite (bind_Some _ Ep); cbv beta.
  - rewrite (proj2 (Z.ltb_lt _ _) Hr). intros <-.
    exists rr, 0. cbv zeta. left. split; [exact Hr|reflexivity].
  - cbv [Z.ltb Z.compare]. run_head.
    destruct (mhl_sd (device s)) as [mhl|] eqn:Em; cbn [is_null negb andb].
    + destruct (Z.eqb_spec r 0) as [->|Hn]; cbn [negb].
      * intros <-. exists rr, 0. cbv zeta. right. left.
        split; [exact Hr|]. split; [now right|].
        unfold ret. flatten. reflexivity.
      * rewrite (bind_Some _ (hdmi_resource_poweroff_run _)).
        intros <-. exists rr, r. cbv zeta. right. right.
        split; [exact Hr|]. split; [discriminate|]. split; [exact Hn|].
        unfold ret. flatten. reflexivity.
    + intros <-. exists rr, r. cbv zeta. right. left.
      split; [exact Hr|]. split; [now left|].
      unfold ret. flatten. reflexivity.
Qed.

Ltac count_power :=
  unfold clocks_follow_power, enables, disables, power_ups, power_downs;
  rewrite ?count_events_app, ?count_events_cons, ?count_events_nil;
  cbn [clk_eqb Nat.add].

(** X12.  Runtime resume returns 0 exactly when it leaves the power on:
    the regulators switched on, the PHY clock enabled, the shared clock
    parented to the pixel clock and enabled, and the repeater, when there
    is one, powered on with answer 0.  When the regulators refuse, their
    answer is returned and nothing else is done; when the repeater
    refuses, its answer is returned after the two clocks and the
    regulators have been switched off again, in the reverse order.  In
    both failures every enable is matched by a disable.  The device
    structure is never changed. *)
Theorem hdmi_runtime_resume_outcome (s : state) (r : Z) (s' : state) :
  hdmi_runtime_resume s = Some (r, s') ->
  exists d rr rm,
    s' = after s d /\
    let on := [EvRegulatorBulkEnable rr; EvClkEnable hdmiphy;
               EvClkSetParent sclk_hdmi sclk_pixel; EvClkEnable sclk_hdmi] in
    let call := call_events (mhl_sd (device s)) (core_s_power 1) rm in
    (r = 0 <->
     0 <= rr /\ (mhl_sd (device s) = None \/ rm = 0) /\ d = on ++ call) /\
    (r <> 0 ->
     (rr < 0 /\ r = rr /\ d = [EvRegulatorBulkEnable rr] \/
      0 <= rr /\ mhl_sd (device s) <> None /\ r = rm /\
      d = on ++ call ++ [EvClkDisable sclk_hdmi; EvClkDisable hdmiphy;
                         EvRegulatorBulkDisable]) /\
     power_ups d = power_downs d /\
     forall c, enables c d = disables c d).
Proof.
  intros Hrun.
  destruct (hdmi_runtime_resume_run s) as (rr & rm & Hcase). cbv zeta in Hcase.
  destruct Hcase as [(Hr & Ec)|[(Hr & Hm & Ec)|(Hr & Hm & Hn & Ec)]];
    rewrite Ec in Hrun; injection Hrun as <- <-;
    eexists _, rr, rm; (split; [reflexivity|]); cbv zeta.
  - split.
    + split; [lia|]. intros (H0 & _). lia.
    + intros _. split; [left; auto|].
      count_power. rewrite (proj2 (Z.leb_gt _ _) Hr).
      split; [reflexivity|]. intros c. reflexivity.
  - split.
    + split; [auto|reflexivity].
    + intros H. contradiction.
  - split.
    + split; [intros H; contradiction|].
      intros (_ & [Hc|Hc] & _); [contradiction|contradiction].
    + intros _. split; [right; auto|].
      destruct (mhl_sd (device s)) as [mhl|]; [|contradiction].
      cbn [call_events app].
      count_power. rewrite (proj2 (Z.leb_le _ _) Hr).
      split; [reflexivity|]. intros c. destruct c; reflexivity.
Qed.

(** ** Any sequence of operations *)

Lemma emits_ret P A (a : A) : emits_only P (ret a).
Proof.
  intros s a' s' H. injection H as _ <-. exists [].
  now rewrite app_nil_r.
Qed.

Lemma emits_emit (P : event -> Prop) e : P e -> emits_only P (emit e).
Proof.
  intros He s a s' H. injection H as _ <-. exists [e].
  split; [reflexivity|]. now constructor.
Qed.

Lemma emits_ask P q : emits_only P (ask q).
Proof.
  intros s a s' H. injection H as _ <-. exists [].
  now rewrite app_nil_r.
Qed.

Lemma emits_get_hdev P : emits_only P get_hdev.
Proof.
  intros s a s' H. injection H as _ <-. exists [].
  now rewrite app_nil_r.
Qed.

Lemma emits_put_hdev P d : emits_only P (put_hdev d).
Proof.
  intros s a s' H. injection H as _ <-. exists [].
  cbn [trace]. now rewrite app_nil_r.
Qed.

Lemma emits_fault P A : emits_only P (@fault V A).
Proof. intros s a s' H. discriminate. Qed.

Lemma emits_bind P A B (m : M A) (k : A -> M B) :
  emits_only P m -> (forall a, emits_only P (k a)) -> emits_only P (bind m k).
Proof.
  intros Hm Hk s b s' H. unfold bind in H.
  destruct (m s) as [[a s1]|] eqn:E1; [|discriminate].
  destruct (Hm s a s1 E1) as (d1 & T1 & F1).
  destruct (Hk a s1 b s' H) as (d2 & T2 & F2).
  exists (d1 ++ d2). split; [now rewrite T2, T1, app_assoc|].
  apply Forall_app. now split.
Qed.

Ltac emits :=
  repeat first
    [ apply emits_ret | apply emits_ask | apply emits_get_hdev
    | apply emits_put_hdev | apply emits_fault
    | apply emits_emit; reflexivity
    | apply emits_bind; [|intros ?]
    | match goal with
      | |- emits_only _ (if ?b then _ else _) => destruct b
      | |- emits_only _ (match ?x with Some _ => _ | None => _ end) =>
          destruct x
      end ].

Lemma quiet_hdmi_write_mask reg value mask :
  emits_only quiet (hdmi_write_mask reg value mask).
Proof. unfold hdmi_write_mask, readl, writel. emits. Qed.

Lemma quiet_hdmi_writebn reg n value :
  emits_only quiet (hdmi_writebn reg n value).
Proof. unfold hdmi_writebn, writeb. emits. Qed.

Lemma quiet_v4l2_subdev_call sd op : emits_only quiet (v4l2_subdev_call sd op).
Proof. unfold v4l2_subdev_call. emits. Qed.

Lemma quiet_hdmi_reg_init : emits_only quiet hdmi_reg_init.
Proof.
  unfold hdmi_reg_init, hdmi_writeb, writeb.
  emits; apply quiet_hdmi_write_mask.
Qed.

Lemma quiet_hdmi_timing_apply t : emits_only quiet (hdmi_timing_apply t).
Proof.
  unfold hdmi_timing_apply, hdmi_writeb, writeb.
  emits; first [apply quiet_hdmi_writebn | apply quiet_hdmi_write_mask].
Qed.

Lemma quiet_hdmi_conf_apply : emits_only quiet hdmi_conf_apply.
Proof.
  unfold hdmi_conf_apply, mdelay, set_cur_conf_dirty.
  emits;
    first [ apply quiet_hdmi_write_mask | apply quiet_v4l2_subdev_call
          | apply quiet_hdmi_reg_init | apply quiet_hdmi_timing_apply ].
Qed.

Lemma quiet_hdmi_irq_handler : emits_only quiet hdmi_irq_handler.
Proof.
  unfold hdmi_irq_handler, hdmi_read, readl.
  emits; apply quiet_hdmi_write_mask.
Qed.

Lemma quiet_hdmi_s_power on : emits_only quiet (hdmi_s_power on).
Proof. unfold hdmi_s_power, pm_runtime_get_sync, pm_runtime_put_sync. emits. Qed.

Lemma quiet_hdmi_s_dv_timings t : emits_only quiet (hdmi_s_dv_timings t).
Proof. unfold hdmi_s_dv_timings. emits. Qed.

Lemma quiet_hdmi_g_dv_timings : emits_only quiet hdmi_g_dv_timings.
Proof. unfold hdmi_g_dv_timings. emits. Qed.

Lemma quiet_hdmi_g_mbus_fmt fmt : emits_only quiet (hdmi_g_mbus_fmt fmt).
Proof. unfold hdmi_g_mbus_fmt. emits. Qed.

Lemma quiet_hdmi_enum_dv_timings t : emits_only quiet (hdmi_enum_dv_timings t).
Proof. unfold hdmi_enum_dv_timings. emits. Qed.

Lemma quiet_hdmi_dv_timings_cap cap :
  emits_only quiet (hdmi_dv_timings_cap cap).
Proof.
  unfold hdmi_dv_timings_cap, phy_dv_timings_cap. emits.
  intros s0 x s0' H. injection H as _ <-. exists [].
  now rewrite app_nil_r.
Qed.

Lemma quiet_follow d : Forall quiet d -> clocks_follow_power d.
Proof.
  intros Hq.
  assert (Hz : forall p : event -> bool,
            (forall e, is_power_event e = false -> p e = false) ->
            count_events p d = O).
  { intros p Hp. apply count_events_none.
    eapply Forall_impl; [|exact Hq]. intros e He. now apply Hp. }
  unfold clocks_follow_power, enables, disables, power_ups, power_downs.
  rewrite !Hz by (intros [] He; (discriminate He || reflexivity)).
  split; [reflexivity|]. split; [reflexivity|].
  intros c _.
  rewrite !Hz by (intros [] He; (discriminate He || reflexivity)).
  split; reflexivity.
Qed.

Lemma clocks_follow_power_app d1 d2 :
  clocks_follow_power d1 -> clocks_follow_power d2 ->
  clocks_follow_power (d1 ++ d2).
Proof.
  unfold clocks_follow_power, enables, disables, power_ups, power_downs.
  intros (A1 & B1 & C1) (A2 & B2 & C2).
  rewrite !count_events_app.
  split; [lia|]. split; [lia|].
  intros c Hc. destruct (C1 c Hc) as (E1 & D1).
  destruct (C2 c Hc) as (E2 & D2).
  rewrite !count_events_app. unfold enables, disables in *. lia.
Qed.

Lemma clocks_follow_power_nil : clocks_follow_power [].
Proof. apply quiet_follow. constructor. Qed.

Lemma clocks_follow_clk_switch parent :
  clocks_follow_power (clk_switch_events parent).
Proof.
  unfold clk_switch_events. count_power.
  split; [reflexivity|]. split; [reflexivity|].
  intros c [->|[->| ->]]; split; reflexivity.
Qed.

Lemma quiet_call sd op r : Forall quiet (call_events sd op r).
Proof. destruct sd; simpl; repeat constructor. Qed.

Lemma quiet_poll vals : Forall quiet (poll_events vals).
Proof.
  induction vals as [|v vals IH]; simpl; [constructor|].
  repeat constructor. exact IH.
Qed.

Lemma quiet_write_mask reg value mask old :
  Forall quiet (write_mask_events reg value mask old).
Proof. repeat constructor. Qed.

Lemma clocks_follow_power_quiet_cons e d :
  quiet e -> clocks_follow_power d -> clocks_follow_power (e :: d).
Proof.
  intros He Hd. change (e :: d) with ([e] ++ d).
  apply clocks_follow_power_app; [|exact Hd].
  apply quiet_follow. now constructor.
Qed.

Lemma clocks_follow_power_switch_cons parent d :
  clocks_follow_power d ->
  clocks_follow_power
    (EvClkDisable sclk_hdmi :: EvClkSetParent sclk_hdmi parent
     :: EvClkEnable sclk_hdmi :: d).
Proof.
  intros Hd.
  change (clocks_follow_power (clk_switch_events parent ++ d)).
  apply clocks_follow_power_app; [apply clocks_follow_clk_switch|exact Hd].
Qed.

Ltac follow :=
  repeat first
    [ apply clocks_follow_power_nil
    | apply clocks_follow_clk_switch
    | match goal with
      | |- clocks_follow_power (_ ++ _) => apply clocks_follow_power_app
      | |- clocks_follow_power (EvClkDisable _ :: _) =>
          apply clocks_follow_power_switch_cons
      | |- clocks_follow_power (_ :: _) =>
          apply clocks_follow_power_quiet_cons; [reflexivity|]
      end
    | apply quiet_follow;
      first [ apply quiet_call | apply quiet_poll | apply quiet_write_mask
            | assumption | solve [repeat constructor] ] ].

Lemma hdmi_streamoff_run s :
  exists o1 o2 rm rp,
    hdmi_streamoff s =
      Some (0,
            after s
              (write_mask_events HDMI_CON_0 0 HDMI_EN o1 ++
               write_mask_events HDMI_TG_CMD 0 HDMI_TG_EN o2 ++
               clk_switch_events sclk_pixel ++
               call_events (mhl_sd (device s)) (video_s_stream 0) rm ++
               call_events (phy_sd (device s)) (video_s_stream 0) rp ++
               [EvDumpregs "streamoff"])).
Proof.
  remember (hdmi_streamoff s) as res eqn:Eres. symmetry in Eres.
  revert Eres. unfold hdmi_streamoff.
  unfold bind at 1, get_hdev. cbv beta iota.
  do 8 run_head.
  intros <-. exists o, o0, r, r0.
  unfold ret. flatten. reflexivity.
Qed.

Lemma hdmi_streamon_power s r s' :
  hdmi_streamon s = Some (r, s') ->
  exists d, trace s' = trace s ++ d /\ clocks_follow_power d.
Proof.
  intros Hs.
  destruct (hdmi_streamon_needs_apply s r s' Hs) as (ra & sa & Ea).
  destruct (quiet_hdmi_conf_apply s ra sa Ea) as (da & Ta & Qa).
  destruct (hdmi_streamon_run s ra sa Ea)
    as [(_ & Es)|(_ & r1 & _ & _ & [(_ & Es)|(_ & vals & _ & Hw)])];
    cbv zeta in *.
  - rewrite Es in Hs. injection Hs as _ <-.
    exists da. split; [exact Ta|]. follow.
  - rewrite Es in Hs. injection Hs as _ <-.
    cbn [after trace]. rewrite Ta, <- ?app_assoc.
    eexists. split; [reflexivity|]. follow.
  - destruct Hw as [(_ & rp & Es)|(v & h & rm & _ & _ & _ & _ & Hm)].
    + rewrite Es in Hs. injection Hs as _ <-.
      cbn [after trace]. rewrite Ta, <- ?app_assoc.
      eexists. split; [reflexivity|]. follow.
    + destruct Hm as [(_ & _ & rp & Es)|(_ & o1 & o2 & _ & _ & Es)];
        rewrite Es in Hs; injection Hs as _ <-;
        cbn [after trace]; rewrite Ta, <- ?app_assoc;
        (eexists; split; [reflexivity|]); follow.
Qed.

Lemma clocks_follow_power_on rr :
  0 <= rr ->
  clocks_follow_power
    [EvRegulatorBulkEnable rr; EvClkEnable hdmiphy;
     EvClkSetParent sclk_hdmi sclk_pixel; EvClkEnable sclk_hdmi].
Proof.
  intros Hr. count_power. rewrite (proj2 (Z.leb_le _ _) Hr).
  split; [reflexivity|]. split; [reflexivity|].
  intros c [->|[->| ->]]; split; reflexivity.
Qed.

Lemma clocks_follow_power_on_cons rr d :
  0 <= rr -> clocks_follow_power d ->
  clocks_follow_power
    (EvRegulatorBulkEnable rr :: EvClkEnable hdmiphy
     :: EvClkSetParent sclk_hdmi sclk_pixel :: EvClkEnable sclk_hdmi :: d).
Proof.
  intros Hr Hd.
  change (clocks_follow_power
            ([EvRegulatorBulkEnable rr; EvClkEnable hdmiphy;
              EvClkSetParent sclk_hdmi sclk_pixel; EvClkEnable sclk_hdmi]
             ++ d)).
  apply clocks_follow_power_app; [now apply clocks_follow_power_on|exact Hd].
Qed.

Lemma clocks_follow_power_off :
  clocks_follow_power
    [EvClkDisable sclk_hdmi; EvClkDisable hdmiphy; EvRegulatorBulkDisable].
Proof.
  count_power.
  split; [reflexivity|]. split; [reflexivity|].
  intros c [->|[->| ->]]; split; reflexivity.
Qed.

Lemma clocks_follow_power_refused rr :
  rr < 0 -> clocks_follow_power [EvRegulatorBulkEnable rr].
Proof.
  intros Hr. count_power. rewrite (proj2 (Z.leb_gt _ _) Hr).
  split; [reflexivity|]. split; [reflexivity|].
  intros c [->|[->| ->]]; split; reflexivity.
Qed.

Lemma run_operation_power op s r s' :
  run_operation op s = Some (r, s') ->
  exists d, trace s' = trace s ++ d /\ clocks_follow_power d.
Proof.
  assert (Hq : forall (m : M Z),
            emits_only quiet m -> m s = Some (r, s') ->
            exists d, trace s' = trace s ++ d /\ clocks_follow_power d).
  { intros m Hm H. destruct (Hm s r s' H) as (d & T & Q).
    exists d. split; [exact T|]. now apply quiet_follow. }
  assert (Hfst : forall B (m : M (Z * B)),
            emits_only quiet m ->
            emits_only quiet (bind m (fun x => ret (fst x)))).
  { intros B m Hm. apply emits_bind; [exact Hm|]. intros x. apply emits_ret. }
  destruct op as [on|timings| |fmt|enable|timings|cap| | |];
    cbn [run_operation]; intros H.
  - apply (Hq _ (quiet_hdmi_s_power on) H).
  - apply (Hq _ (quiet_hdmi_s_dv_timings timings) H).
  - apply (Hq _ (Hfst _ _ quiet_hdmi_g_dv_timings) H).
  - apply (Hq _ (Hfst _ _ (quiet_hdmi_g_mbus_fmt fmt)) H).
  - unfold hdmi_s_stream in H.
    destruct (negb (enable =? 0)).
    + apply (hdmi_streamon_power s r s' H).
    + destruct (hdmi_streamoff_run s) as (o1 & o2 & rm & rp & Es).
      rewrite Es in H. injection H as _ <-.
      eexists. split; [reflexivity|]. follow.
  - apply (Hq _ (Hfst _ _ (quiet_hdmi_enum_dv_timings timings)) H).
  - apply (Hq _ (Hfst _ _ (quiet_hdmi_dv_timings_cap cap)) H).
  - destruct (hdmi_runtime_suspend_run s) as (rs & Esus).
    rewrite Esus in H. injection H as _ <-.
    eexists. split; [reflexivity|].
    apply clocks_follow_power_app; [follow|apply clocks_follow_power_off].
  - destruct (hdmi_runtime_resume_run s) as (rr & rm & Hcase).
    cbv zeta in Hcase.
    destruct Hcase as [(Hr & Ec)|[(Hr & Hm & Ec)|(Hr & Hm & Hn & Ec)]];
      rewrite Ec in H; injection H as _ <-;
      (eexists; split; [reflexivity|]).
    + now apply clocks_follow_power_refused.
    + apply clocks_follow_power_on_cons; [exact Hr|]. follow.
    + apply clocks_follow_power_on_cons; [exact Hr|].
      apply clocks_follow_power_app; [follow|apply clocks_follow_power_off].
  - apply (Hq _ quiet_hdmi_irq_handler H).
Qed.

(** X13.  In any sequence of operations the clocks follow the power: over
    the events the sequence adds, the shared clock and the PHY clock are
    each enabled once more than disabled for every time the regulators
    were switched on and not off again, and the three other clocks of the
    device are never enabled or disabled.  In particular start-stream and
    stop-stream, which switch the parent of the shared clock, leave its
    enable count as it was. *)
Theorem run_operations_clocks_follow_power (ops : list hdmi_operation)
    (s : state) (rs : list Z) (s' : state) :
  run_operations ops s = Some (rs, s') ->
  exists d, trace s' = trace s ++ d /\ clocks_follow_power d.
Proof.
  revert s rs s'. induction ops as [|op ops IH]; intros s rs s'.
  - cbn [run_operations]. unfold ret. intros H. injection H as _ <-.
    exists []. split; [now rewrite app_nil_r|]. follow.
  - cbn [run_operations]. unfold bind at 1.
    destruct (run_operation op s) as [[r s1]|] eqn:E1; [|discriminate].
    unfold bind at 1.
    destruct (run_operations ops s1) as [[rs1 s2]|] eqn:E2; [|discriminate].
    unfold ret. intros H. injection H as _ <-.
    destruct (run_operation_power op s r s1 E1) as (d1 & T1 & F1).
    destruct (IH s1 rs1 s2 E2) as (d2 & T2 & F2).
    exists (d1 ++ d2). split; [now rewrite T2, T1, app_assoc|].
    now apply clocks_follow_power_app.
Qed.

Lemma returns_get_hdev : always_returns get_hdev.
Proof. intros s. unfold get_hdev. eauto. Qed.

Ltac returns :=
  repeat first
    [ apply returns_ret | apply returns_emit | apply returns_ask
    | apply returns_get_hdev | apply returns_v4l2_subdev_call
    | apply returns_bind; [|intros ?]
    | match goal with
      | |- always_returns (if ?b then _ else _) => destruct b
      end ].

Lemma returns_hdmi_write_mask reg value mask :
  always_returns (hdmi_write_mask reg value mask).
Proof. unfold hdmi_write_mask, readl, writel. returns. Qed.

Lemma returns_hdmi_s_power on : always_returns (hdmi_s_power on).
Proof.
  unfold hdmi_s_power, pm_runtime_get_sync, pm_runtime_put_sync. returns.
Qed.

Lemma returns_hdmi_irq_handler : always_returns hdmi_irq_handler.
Proof.
  unfold hdmi_irq_handler, hdmi_read, readl.
  returns; apply returns_hdmi_write_mask.
Qed.

Lemma returns_hdmi_g_dv_timings : always_returns hdmi_g_dv_timings.
Proof. unfold hdmi_g_dv_timings. returns. Qed.

Lemma returns_hdmi_g_mbus_fmt fmt : always_returns (hdmi_g_mbus_fmt fmt).
Proof.
  unfold hdmi_g_mbus_fmt. returns.
  destruct (cur_conf a); returns.
Qed.

Lemma returns_hdmi_enum_dv_timings e : always_returns (hdmi_enum_dv_timings e).
Proof.
  unfold hdmi_enum_dv_timings.
  destruct (negb (pad e =? 0)); [apply returns_ret|].
  destruct (Z.leb_spec (Z.of_nat (ARRAY_SIZE hdmi_timings_tab)) (index e))
    as [Hi|Hi]; [apply returns_ret|].
  destruct (nth_error hdmi_timings_tab (Z.to_nat (index e))) as [row|] eqn:En;
    [apply returns_ret|].
  apply nth_error_None in En. unfold ARRAY_SIZE in Hi.
  change (List.length hdmi_timings_tab) with 10%nat in *. lia.
Qed.

Lemma returns_hdmi_dv_timings_cap cap :
  always_returns (hdmi_dv_timings_cap cap).
Proof.
  unfold hdmi_dv_timings_cap, phy_dv_timings_cap. returns.
  destruct (phy_sd a); returns.
  intros s. unfold ask_dv_timings_cap. eauto.
Qed.

Lemma attached_with_dirty phy mhl d v :
  attached phy mhl d -> v = 0 \/ v = 1 -> attached phy mhl (with_dirty d v).
Proof.
  intros (Hp & Hm & _ & Hc) Hv. unfold attached, with_dirty.
  cbn [phy_sd mhl_sd cur_conf cur_conf_dirty]. auto.
Qed.

Lemma run_operation_attached phy mhl op s :
  attached phy mhl (device s) ->
  exists r s',
    run_operation op s = Some (r, s') /\ attached phy mhl (device s').
Proof.
  intros Hat.
  assert (Hk : forall (m : M Z),
            always_returns m -> keeps_device m ->
            exists r s', m s = Some (r, s') /\ attached phy mhl (device s')).
  { intros m Hr Hkeep. destruct (Hr s) as (r & s' & Em).
    exists r, s'. split; [exact Em|]. now rewrite (Hkeep s r s' Em). }
  assert (Hfr : forall B (m : M (Z * B)),
            always_returns m ->
            always_returns (bind m (fun x => ret (fst x)))).
  { intros B m Hm. apply returns_bind; [exact Hm|]. intros x.
    apply returns_ret. }
  assert (Hfk : forall B (m : M (Z * B)),
            keeps_device m -> keeps_device (bind m (fun x => ret (fst x)))).
  { intros B m Hm. apply keeps_bind; [exact Hm|]. intros x. apply keeps_ret. }
  destruct op as [on|timings| |fmt|enable|timings|cap| | |];
    cbn [run_operation].
  - apply Hk; [apply returns_hdmi_s_power|apply keeps_hdmi_s_power].
  - destruct Hat as (Hp & Hm & Hd & Hc).
    destruct (hdmi_s_dv_timings_run timings s)
      as [(_ & Er)|(row & Hin & _ & Er)]; rewrite Er.
    + eexists _, s. split; [reflexivity|]. unfold attached. auto.
    + eexists _, _. split; [reflexivity|].
      unfold attached. cbn [device phy_sd mhl_sd cur_conf cur_conf_dirty].
      split; [exact Hp|]. split; [exact Hm|]. split; [now right|].
      exists row. auto.
  - apply Hk; [apply Hfr, returns_hdmi_g_dv_timings
              |apply Hfk, keeps_hdmi_g_dv_timings].
  - apply Hk; [apply Hfr, returns_hdmi_g_mbus_fmt
              |apply Hfk, keeps_hdmi_g_mbus_fmt].
  - unfold hdmi_s_stream. destruct (negb (enable =? 0)).
    + assert (Hc : cur_conf (device s) <> None).
      { destruct Hat as (_ & _ & _ & row & _ & Hc). rewrite Hc. discriminate. }
      destruct (hdmi_streamon_returns s Hc) as (r & s' & Es).
      exists r, s'. split; [exact Es|].
      destruct (hdmi_streamon_needs_apply s r s' Es) as (ra & sa & Ea).
      destruct (hdmi_streamon_extends s ra sa r s' Ea Es) as (Ed & _).
      destruct (hdmi_conf_apply_frame s ra sa Ea)
        as (_ & Fp & Fm & Fc & _ & Fd).
      destruct Hat as (Hp & Hm & Hd & Hrow).
      unfold attached. rewrite Ed, Fp, Fm, Fc.
      split; [exact Hp|]. split; [exact Hm|]. split; [|exact Hrow].
      destruct Fd as [Fd|(Fd & _)]; rewrite Fd; auto.
    + destruct (hdmi_streamoff_run s) as (o1 & o2 & rm & rp & Es).
      rewrite Es. eexists _, _. split; [reflexivity|]. exact Hat.
  - apply Hk; [apply Hfr, returns_hdmi_enum_dv_timings
              |apply Hfk, keeps_hdmi_enum_dv_timings].
  - apply Hk; [apply Hfr, returns_hdmi_dv_timings_cap
              |apply Hfk, keeps_hdmi_dv_timings_cap].
  - destruct (hdmi_runtime_suspend_run s) as (rs & Esus).
    rewrite Esus. eexists _, _. split; [reflexivity|].
    cbn [device]. apply attached_with_dirty; auto.
  - apply Hk; [apply hdmi_runtime_resume_returns
              |apply keeps_hdmi_runtime_resume].
  - apply Hk; [apply returns_hdmi_irq_handler|apply keeps_hdmi_irq_handler].
Qed.

Lemma hdmi_probe_device_attached phy mhl d :
  hdmi_probe_device phy mhl = Some d -> attached phy mhl d.
Proof.
  unfold hdmi_probe_device.
  destruct (nth_error hdmi_timings_tab HDMI_DEFAULT_TIMINGS_IDX) as [row|] eqn:En;
    [|discriminate].
  intros H. injection H as <-. unfold attached.
  cbn [phy_sd mhl_sd cur_conf cur_conf_dirty].
  split; [reflexivity|]. split; [reflexivity|]. split; [now right|].
  exists row. split; [eapply nth_error_In; exact En|reflexivity].
Qed.

Lemma run_operations_attached_run phy mhl ops s :
  attached phy mhl (device s) ->
  exists rs s',
    run_operations ops s = Some (rs, s') /\
    List.length rs = List.length ops /\
    attached phy mhl (device s').
Proof.
  revert s. induction ops as [|op ops IH]; intros s Hat.
  - exists [], s. cbn [run_operations]. auto.
  - destruct (run_operation_attached phy mhl op s Hat) as (r & s1 & E1 & A1).
    destruct (IH s1 A1) as (rs & s2 & E2 & L2 & A2).
    exists (r :: rs), s2. cbn [run_operations].
    rewrite (bind_Some _ E1). cbv beta. rewrite (bind_Some _ E2).
    split; [reflexivity|]. split; [simpl; now rewrite L2|exact A2].
Qed.

(** X14.  From the device structure that attach leaves behind, every
    sequence of operations runs to its end, one result per operation: no
    operation dereferences a NULL [cur_conf] or reads past the end of the
    catalogue.  Afterwards the two sub-device pointers are still the ones
    set at attach, the dirty flag is 0 or 1, [cur_conf] points at the
    parameter set of a catalogue row, and get-format succeeds. *)
Theorem run_operations_attached (phy : v4l2_subdev)
    (mhl : option v4l2_subdev) (d : hdmi_device) (ops : list hdmi_operation)
    (tr : list event) (fmt : v4l2_mbus_framefmt) :
  hdmi_probe_device phy mhl = Some d ->
  exists rs s',
    run_operations ops {| device := d; trace := tr |} = Some (rs, s') /\
    List.length rs = List.length ops /\
    attached phy mhl (device s') /\
    exists fmt', hdmi_g_mbus_fmt fmt s' = Some ((0, fmt'), s').
Proof.
  intros Hp. apply hdmi_probe_device_attached in Hp.
  destruct (run_operations_attached_run phy mhl ops
              {| device := d; trace := tr |} Hp)
    as (rs & s' & Er & Hl & Hat).
  exists rs, s'. split; [exact Er|]. split; [exact Hl|]. split; [exact Hat|].
  destruct Hat as (_ & _ & _ & row & Hin & Hc).
  destruct (hdmi_g_mbus_fmt_catalogue row fmt s' Hin Hc) as (fmt' & Eg & _).
  eauto.
Qed.

(** ** Stream start: where an error comes from *)

(** X15.  A failed start-stream returns one of three things.  Without a
    PHY sub-device it is -ENODEV.  When the PHY refuses the timings or
    the start request, it is the PHY's answer, unchanged, and that call
    is the last thing done: nothing is stopped and no register dump is
    taken.  Otherwise it is -EIO (the lock wait ran out or the repeater
    refused to start, whose own answer is dropped), and the run ends
    with the stop request to the PHY and a register dump. *)
Theorem hdmi_streamon_error_codes (s : state) (r : Z) (s' : state) :
  hdmi_streamon s = Some (r, s') ->
  r <> 0 ->
  (phy_sd (device s) = None /\ r = - ENODEV) \/
  (exists phy d op,
     phy_sd (device s) = Some phy /\
     trace s' = trace s ++ d ++ [EvSubdevCall phy op r] /\
     (op = video_s_dv_timings (cur_timings (device s)) \/
      op = video_s_stream 1)) \/
  (r = - EIO /\
   exists phy d rp tag,
     phy_sd (device s) = Some phy /\
     trace s' =
       trace s ++ d ++ [EvSubdevCall phy (video_s_stream 0) rp;
                        EvDumpregs tag]).
Proof.
  intros Hs Hr.
  destruct (hdmi_streamon_needs_apply s r s' Hs) as (ra & sa & Ea).
  destruct (hdmi_conf_apply_frame s ra sa Ea)
    as ((da & Ta & _) & Fp & _ & _ & _ & _).
  destruct (hdmi_streamon_run s ra sa Ea)
    as [(Hra & Es)|(Hra & r1 & N1 & _ & [(Hr1 & Es)|(-> & vals & _ & Hw)])];
    cbv zeta in *.
  - (* the PHY refuses the timings *)
    rewrite Es in Hs. injection Hs as <- <-.
    destruct (Z.eq_dec (cur_conf_dirty (device s)) 0) as [Hd|Hd].
    { rewrite (hdmi_conf_apply_clean s Hd) in Ea. injection Ea as <- _.
      contradiction. }
    destruct (hdmi_conf_apply_dirty s Hd)
      as (o1 & o2 & r0 & _ & _ & N0 & [(_ & Ee)|(_ & Hok)]).
    + cbv zeta in Ee. rewrite Ee in Ea. injection Ea as -> <-.
      destruct (phy_sd (device s)) as [phy|] eqn:Ephy.
      * right. left. eexists phy, (phy_reset_events o1 o2), _.
        split; [reflexivity|]. split; [|left; reflexivity].
        cbn [after trace call_events]. reflexivity.
      * left. auto.
    + destruct Hok as (o3 & o4 & di & _ & _ & _ & _ & _ & Hm).
      destruct (cur_conf (device s)) as [t|].
      * destruct Hm as (dt & _ & _ & _ & _ & Ee).
        rewrite Ee in Ea. injection Ea as <- _. contradiction.
      * rewrite Hm in Ea. discriminate.
  - (* the PHY refuses the start request *)
    rewrite Es in Hs. injection Hs as <- <-.
    rewrite Fp in *.
    destruct (phy_sd (device s)) as [phy|] eqn:Ephy.
    + right. left. exists phy, da, (video_s_stream 1).
      split; [reflexivity|]. split; [|right; reflexivity].
      cbn [after trace call_events]. now rewrite Ta, <- app_assoc.
    + left. auto.
  - (* -EIO *)
    rewrite Fp in *.
    destruct (phy_sd (device s)) as [phy|] eqn:Ephy;
      [|specialize (N1 eq_refl); unfold ENODEV in N1; lia].
    right. right.
    destruct Hw as [(_ & rp & Es)|(v & h & rm & _ & _ & _ & _ & Hm)].
    + rewrite Es in Hs. injection Hs as <- <-.
      split; [reflexivity|].
      exists phy,
        (da ++ [EvSubdevCall phy (video_s_stream 1) 0] ++ poll_events vals),
        rp, "hdmiphy - s_stream"%string.
      split; [reflexivity|].
      cbn [after trace call_events]. rewrite Ta, <- !app_assoc.
      reflexivity.
    + destruct Hm as [(_ & _ & rp & Es)|(_ & o1 & o2 & _ & _ & Es)];
        rewrite Es in Hs; injection Hs as <- <-; [|contradiction].
      split; [reflexivity|].
      exists phy,
        (da ++ [EvSubdevCall phy (video_s_stream 1) 0] ++ poll_events vals ++
         [EvReadl (HDMI_PHY_STATUS, 0) v] ++
         call_events (mhl_sd (device sa)) (video_s_stream 1) rm),
        rp, "mhl - s_stream"%string.
      split; [reflexivity|].
      cbn [after trace call_events]. rewrite Ta, <- !app_assoc.
      reflexivity.
Qed.

(** X16.  Stop-stream leaves the configuration clean: after a start-stream
    that succeeded and the stop-stream that follows it, mode-apply has
    nothing to do, so that a restart neither resets the PHY and the core
    nor programs a timing register again. *)
Theorem hdmi_restart_skips_conf_apply (s s1 s2 : state) (r2 : Z) :
  hdmi_streamon s = Some (0, s1) ->
  hdmi_streamoff s1 = Some (r2, s2) ->
  r2 = 0 /\
  device s2 = device s1 /\
  cur_conf_dirty (device s2) = 0 /\
  hdmi_conf_apply s2 = Some (0, s2).
Proof.
  intros Hon Hoff.
  destruct (hdmi_streamoff_run s1) as (o1 & o2 & rm & rp & Es).
  rewrite Es in Hoff. injection Hoff as <- <-.
  split; [reflexivity|]. split; [reflexivity|].
  assert (Hd : cur_conf_dirty (device s1) = 0).
  { destruct (hdmi_streamon_needs_apply s 0 s1 Hon) as (ra & sa & Ea).
    destruct (hdmi_streamon_extends s ra sa 0 s1 Ea Hon) as (Ed & _).
    rewrite Ed.
    destruct (hdmi_streamon_run s ra sa Ea) as [(Hra & Es')|(-> & _)].
    - rewrite Es' in Hon. injection Hon as -> _. contradiction.
    - destruct (Z.eq_dec (cur_conf_dirty (device s)) 0) as [Hc|Hc].
      + rewrite (hdmi_conf_apply_clean s Hc) in Ea. injection Ea as <-.
        exact Hc.
      + now apply (dirty_cleared_iff_success s Hc 0 sa Ea). }
  split; [exact Hd|].
  apply hdmi_conf_apply_clean. exact Hd.
Qed.

(** ** Stream start programs the current mode *)

Lemma last_writeb_no_writeb a d :
  Forall (fun e => no_writeb e = true) d -> last_writeb a d = None.
Proof.
  induction 1 as [|e d He _ IH]; simpl; [reflexivity|].
  rewrite IH. destruct e; try reflexivity. discriminate He.
Qed.

Lemma written_bytes_no_writeb reg n tr d :
  Forall (fun e => no_writeb e = true) d ->
  written_bytes reg n (tr ++ d) = written_bytes reg n tr.
Proof.
  intros Hd. induction n as [|k IH]; [reflexivity|].
  rewrite !written_bytes_S, last_writeb_app, IH.
  now rewrite (last_writeb_no_writeb _ d Hd).
Qed.

Lemma no_writeb_call sd op r :
  Forall (fun e => no_writeb e = true) (call_events sd op r).
Proof. destruct sd; simpl; repeat constructor. Qed.

Lemma no_writeb_poll vals :
  Forall (fun e => no_writeb e = true) (poll_events vals).
Proof.
  induction vals as [|v vals IH]; simpl; [constructor|].
  repeat constructor. exact IH.
Qed.

(** Get-format on a catalogue row, exactly. *)
Lemma hdmi_g_mbus_fmt_exact row fmt s :
  In row hdmi_timings_tab ->
  cur_conf (device s) = Some (hdmi_timings_ptr row) ->
  let t := hdmi_timings_ptr row in
  exists fmt',
    hdmi_g_mbus_fmt fmt s = Some ((0, fmt'), s) /\
    width fmt' = end_ (hact t) - beg (hact t) /\
    height fmt' =
      (if interlaced t =? 0
       then end_ (fst (vact t)) - beg (fst (vact t))
       else 2 * (end_ (fst (vact t)) - beg (fst (vact t)))).
Proof.
  intros Hin Hc. unfold hdmi_g_mbus_fmt.
  unfold bind at 1, get_hdev. cbv beta iota. rewrite Hc.
  simpl in Hin.
  repeat (destruct Hin as [<-|Hin]; [|]); try contradiction;
    cbn [hdmi_timings_ptr]; cbn; unfold ret;
    (eexists; split; [reflexivity|]);
    cbn [width height]; split; vm_compute; reflexivity.
Qed.

(** X23.  A start-stream that succeeds on a dirty device whose [cur_conf]
    is a row of the catalogue leaves the hardware programmed with that
    row: every timing register holds the row's value, nothing that
    start-stream does after the register programmer stores a byte again,
    and the dirty flag is clear.  What get-format then reports is what
    the timing generator was given: the width is the horizontal active
    size register, the height the vertical one, doubled for an interlaced
    row. *)
Theorem hdmi_streamon_programs_cur_conf (row : hdmi_timings_row)
    (s s' : state) (fmt : v4l2_mbus_framefmt) :
  In row hdmi_timings_tab ->
  cur_conf (device s) = Some (hdmi_timings_ptr row) ->
  cur_conf_dirty (device s) <> 0 ->
  hdmi_streamon s = Some (0, s') ->
  Forall (lanes_hold (trace s')) (timing_registers (hdmi_timings_ptr row)) /\
  cur_conf_dirty (device s') = 0 /\
  exists fmt' lines,
    hdmi_g_mbus_fmt fmt s' = Some ((0, fmt'), s') /\
    written_bytes HDMI_TG_HACT_SZ_L 2 (trace s') = Some (width fmt') /\
    written_bytes HDMI_TG_VACT_SZ_L 2 (trace s') = Some lines /\
    height fmt' =
      (if interlaced (hdmi_timings_ptr row) =? 0 then lines else 2 * lines).
Proof.
  intros Hin Hc Hd Hs.
  set (t := hdmi_timings_ptr row) in *.
  (* mode-apply ran the register programmer last *)
  destruct (hdmi_streamon_needs_apply s 0 s' Hs) as (ra & sa & Ea).
  assert (Hsa : exists pre d,
            trace sa = pre ++ d /\
            Forall (lanes_hold d) (timing_registers t) /\
            device sa = with_dirty (device s) 0 /\ ra = 0).
  { destruct (hdmi_streamon_run s ra sa Ea) as [(Hra & Es)|(-> & _)].
    { rewrite Es in Hs. injection Hs as -> _. contradiction. }
    destruct (hdmi_conf_apply_dirty s Hd)
      as (o1 & o2 & r0 & _ & _ & _ & [(Hr0 & Ee)|(_ & Hok)]).
    { cbv zeta in Ee. rewrite Ee in Ea. injection Ea as -> _.
      contradiction. }
    destruct Hok as (o3 & o4 & di & _ & _ & _ & _ & _ & Hm).
    cbv zeta in Hm. rewrite Hc in Hm.
    destruct Hm as (dt & Et & _ & _ & _ & Ee).
    rewrite Ee in Ea. injection Ea as <-.
    match type of Et with
    | hdmi_timing_apply _ ?s0 = _ =>
        destruct (hdmi_timing_apply_catalogue row s0 Hin) as (d & Ed & Hl);
        exists (trace s0), d
    end.
    fold t in Ed. rewrite Ed in Et. injection Et as Et.
    apply app_inv_head in Et. subst dt.
    split; [reflexivity|]. split; [exact Hl|]. split; reflexivity. }
  destruct Hsa as (pre & d & Tsa & Hl & Dsa & ->).
  (* the rest of start-stream stores no byte *)
  assert (Hrest : exists rest,
            trace s' = trace sa ++ rest /\
            Forall (fun e => no_writeb e = true) rest /\
            device s' = device sa).
  { destruct (hdmi_streamon_extends s 0 sa 0 s' Ea Hs) as (Ed & _).
    destruct (hdmi_streamon_run s 0 sa Ea)
      as [(Hra & _)|(_ & r1 & _ & _ & [(Hr1 & Es)|(_ & vals & _ & Hw)])];
      [contradiction| |]; cbv zeta in *.
    { rewrite Es in Hs. injection Hs as -> _. contradiction. }
    destruct Hw as [(_ & rp & Es)|(v & h & rm & _ & _ & _ & _ & Hm)].
    { rewrite Es in Hs. injection Hs as Hs _. unfold EIO in Hs. lia. }
    destruct Hm as [(_ & _ & rp & Es)|(_ & o1 & o2 & _ & _ & Es)].
    { rewrite Es in Hs. injection Hs as Hs _. unfold EIO in Hs. lia. }
    rewrite Es in Hs. injection Hs as <-.
    eexists. split; [cbn [after trace]; rewrite <- !app_assoc; reflexivity|].
    split; [|reflexivity].
    repeat first
      [ apply no_writeb_call | apply no_writeb_poll | apply Forall_nil
      | apply Forall_cons; [reflexivity|] | apply Forall_app; split ]. }
  destruct Hrest as (rest & Ts & Hq & Ds).
  assert (Hall : Forall (lanes_hold (trace s')) (timing_registers t)).
  { eapply Forall_impl; [|exact Hl].
    intros [[reg n] v] Hx. unfold lanes_hold in *.
    rewrite Ts, Tsa, written_bytes_no_writeb by exact Hq.
    now apply written_bytes_app. }
  split; [exact Hall|].
  split; [rewrite Ds, Dsa; reflexivity|].
  assert (Hc' : cur_conf (device s') = Some (hdmi_timings_ptr row))
    by (rewrite Ds, Dsa; exact Hc).
  destruct (hdmi_g_mbus_fmt_exact row fmt s' Hin Hc') as (fmt' & Eg & Hw & Hh).
  cbv zeta in Hw, Hh. fold t in Hw, Hh.
  exists fmt', (end_ (fst (vact t)) - beg (fst (vact t))).
  split; [exact Eg|].
  rewrite Forall_forall in Hall.
  split.
  - rewrite Hw.
    apply (Hall (HDMI_TG_HACT_SZ_L, 2%nat, end_ (hact t) - beg (hact t))).
    unfold timing_registers. apply in_or_app. left.
    do 6 right. left. reflexivity.
  - split; [|exact Hh].
    apply (Hall (HDMI_TG_VACT_SZ_L, 2%nat,
                 end_ (fst (vact t)) - beg (fst (vact t)))).
    unfold timing_registers. apply in_or_app. left.
    do 9 right. left. reflexivity.
Qed.

(** ** Register initialisation *)

Lemma mask_merge_selects v m o :
  0 <= m < 2 ^ 32 -> mask_merge v m o .& m = v .& m.
Proof.
  intros Hm. unfold mask_merge.
  apply Z.bits_inj'. intros n Hn.
  rewrite !Z.land_spec, u32_bits by lia.
  rewrite Z.lor_spec, !Z.land_spec, not32_bits by lia.
  destruct (Z.ltb_spec n 32).
  - destruct (Z.testbit m n), (Z.testbit v n), (Z.testbit o n); reflexivity.
  - rewrite (testbit_above m 32 n) by lia. now rewrite !andb_false_r.
Qed.

Lemma mask_merge_outside v m o :
  mask_merge v m o .& .~ m = o .& .~ m.
Proof.
  unfold mask_merge.
  apply Z.bits_inj'. intros n Hn.
  rewrite !Z.land_spec, u32_bits by lia.
  rewrite Z.lor_spec, !Z.land_spec, !not32_bits by lia.
  destruct (Z.ltb_spec n 32).
  - destruct (Z.testbit m n), (Z.testbit v n), (Z.testbit o n); reflexivity.
  - now rewrite !andb_false_r.
Qed.

(** X24.  hdmi_reg_init is four read-modify-writes followed by three byte
    stores, in this order and with nothing else.  Given that the masks of
    the register map are 32-bit words: the interrupt control word comes
    back with the global, plug and unplug enables or-ed in; the mode
    select word has the DVI mode inside the mode mask and its old bits
    outside; the DVI preamble and guard band enables are or-ed into
    control word 2; control word 0 loses exactly the blue screen enable;
    and the blue screen colour bytes are 0x12, 0x34, 0x56. *)
Theorem hdmi_reg_init_registers (s : state) :
  0 <= HDMI_INTC_EN_GLOBAL .| HDMI_INTC_EN_HPD_PLUG
         .| HDMI_INTC_EN_HPD_UNPLUG < 2 ^ 32 ->
  0 <= HDMI_MODE_MASK < 2 ^ 32 ->
  0 <= HDMI_DVI_PERAMBLE_EN .| HDMI_DVI_BAND_EN < 2 ^ 32 ->
  exists o1 o2 o3 o4 v2,
    hdmi_reg_init s =
      Some (tt, after s
        [EvReadl (HDMI_INTC_CON, 0) o1;
         EvWritel (HDMI_INTC_CON, 0)
           (o1 .| (HDMI_INTC_EN_GLOBAL .| HDMI_INTC_EN_HPD_PLUG
                     .| HDMI_INTC_EN_HPD_UNPLUG));
         EvReadl (HDMI_MODE_SEL, 0) o2;
         EvWritel (HDMI_MODE_SEL, 0) v2;
         EvReadl (HDMI_CON_2, 0) o3;
         EvWritel (HDMI_CON_2, 0)
           (o3 .| (HDMI_DVI_PERAMBLE_EN .| HDMI_DVI_BAND_EN));
         EvReadl (HDMI_CON_0, 0) o4;
         EvWritel (HDMI_CON_0, 0) (o4 .& .~ HDMI_BLUE_SCR_EN);
         EvWriteb (HDMI_BLUE_SCREEN_0, 0) 0x12;
         EvWriteb (HDMI_BLUE_SCREEN_1, 0) 0x34;
         EvWriteb (HDMI_BLUE_SCREEN_2, 0) 0x56]) /\
    v2 .& HDMI_MODE_MASK = HDMI_MODE_DVI_EN .& HDMI_MODE_MASK /\
    v2 .& .~ HDMI_MODE_MASK = o2 .& .~ HDMI_MODE_MASK.
Proof.
  intros H1 H2 H3. unfold hdmi_reg_init.
  destruct (hdmi_write_mask_run HDMI_INTC_CON all_ones
              (HDMI_INTC_EN_GLOBAL .| HDMI_INTC_EN_HPD_PLUG
                 .| HDMI_INTC_EN_HPD_UNPLUG) s) as (o1 & Ho1 & E1).
  rewrite (bind_Some _ E1).
  match goal with |- context [after s ?d] => set (s1 := after s d) end.
  destruct (hdmi_write_mask_run HDMI_MODE_SEL HDMI_MODE_DVI_EN
              HDMI_MODE_MASK s1) as (o2 & Ho2 & E2).
  rewrite (bind_Some _ E2).
  match goal with |- context [after s1 ?d] => set (s2 := after s1 d) end.
  destruct (hdmi_write_mask_run HDMI_CON_2 all_ones
              (HDMI_DVI_PERAMBLE_EN .| HDMI_DVI_BAND_EN) s2)
    as (o3 & Ho3 & E3).
  rewrite (bind_Some _ E3).
  match goal with |- context [after s2 ?d] => set (s3 := after s2 d) end.
  destruct (hdmi_write_mask_run HDMI_CON_0 0 HDMI_BLUE_SCR_EN s3)
    as (o4 & Ho4 & E4).
  rewrite (bind_Some _ E4).
  exists o1, o2, o3, o4, (mask_merge HDMI_MODE_DVI_EN HDMI_MODE_MASK o2).
  split; [|split; [apply mask_merge_selects; exact H2
                  |apply mask_merge_outside]].
  subst s3 s2 s1. unfold write_mask_events.
  rewrite (mask_merge_all_ones _ o1 H1 Ho1),
    (mask_merge_all_ones _ o3 H3 Ho3), (mask_merge_zero _ o4 Ho4).
  unfold bind, hdmi_writeb, writeb, emit, after. cbn [trace device].
  rewrite <- !app_assoc. reflexivity.
Qed.

End Properties.

(** * Properties of attach and detach *)

Section AttachProperties.

Context {V : V4l2Hdr} {L : V4l2DvTimings} {LE : LinuxErr} {P : Platform}.

Lemma kbind_kret {A B} (a : A) (k : A -> K B) tr : kbind (kret a) k tr = k a tr.
Proof. reflexivity. Qed.

Lemma kbind_kemit {B} e (k : unit -> K B) tr :
  kbind (kemit e) k tr = k tt (tr ++ [e]).
Proof. reflexivity. Qed.

Lemma kbind_kcall {A B} (answer : list kevent -> A) ev (k : A -> K B) tr :
  exists a, kbind (kcall answer ev) k tr = k a (tr ++ [ev a]).
Proof. exists (answer tr). reflexivity. Qed.

Lemma kbind_Some {A B} (m : K A) (k : A -> K B) tr a tr' :
  m tr = Some (a, tr') -> kbind m k tr = k a tr'.
Proof. intros H. unfold kbind. now rewrite H. Qed.

Lemma held_after_app h d1 d2 :
  held_after h (d1 ++ d2) =
  match held_after h d1 with
  | Some h1 => held_after h1 d2
  | None => None
  end.
Proof.
  revert h. induction d1 as [|e d1 IH]; intros h; simpl; [reflexivity|].
  destruct (hold h e); [apply IH|reflexivity].
Qed.

(** One step of symbolic execution in the monad of attach. *)
Ltac kstep :=
  match goal with
  | |- context [kbind (kret ?a) ?k ?tr] => rewrite (kbind_kret a k tr)
  | |- context [kbind (kemit ?e) ?k ?tr] => rewrite (kbind_kemit e k tr)
  | |- context [kbind (kcall ?f ?ev) ?k ?tr] =>
      let a := fresh "a" in
      let Ea := fresh "Ea" in
      destruct (kbind_kcall f ev k tr) as (a & Ea); rewrite Ea; clear Ea
  end;
  cbv beta.

Ltac kunfold :=
  unfold devm_kzalloc, clk_get, clk_put, kcalloc, kfree, regulator_bulk_get,
    regulator_bulk_free, platform_get_resource, devm_ioremap,
    devm_request_irq, v4l2_device_register, v4l2_device_unregister,
    i2c_get_adapter, i2c_put_adapter, v4l2_i2c_new_subdev_board,
    pm_runtime_enable, pm_runtime_disable, v4l2_subdev_init,
    dev_set_drvdata, disable_irq.

Ltac use_facts :=
  repeat match goal with
         | H : IS_ERR _ = _ |- _ => rewrite H
         | H : (_ =? _) = _ |- _ => rewrite H
         | H : regul_count _ = _ |- _ => rewrite H
         end.

Lemma held_after_cons h e d h' :
  hold h e = Some h' -> held_after h (e :: d) = held_after h' d.
Proof. intros H. simpl. now rewrite H. Qed.

(** The holdings are computed event by event, with the facts at hand;
    the record is brought to normal form after every event. *)
Ltac held_fields :=
  cbn [hold take_out negb adapter_eqb
       held_clocks enabled_clocks held_blocks held_regulators
       held_adapters registered pm_enabled].

Ltac held1 :=
  match goal with
  | |- held_after ?h (?e :: ?d) = _ =>
      let H := fresh "H" in
      eassert (H : hold h e = Some _);
      [ held_fields;
        rewrite ?Z.eqb_refl; use_facts; held_fields;
        reflexivity
      | rewrite (held_after_cons _ _ _ _ H); clear H ]
  end.

Ltac held :=
  cbn [res_hdmi res_sclk_hdmi res_sclk_pixel res_sclk_hdmiphy
       res_hdmiphy regul_bulk regul_count];
  rewrite ?IS_ERR_ERR_PTR; use_facts; cbn [app Z.eqb negb];
  repeat held1; cbn [held_after].

Lemma hdmi_resources_cleanup_run res tr :
  hdmi_resources_cleanup res tr =
  Some (resources_cleared, tr ++ cleanup_events res).
Proof.
  unfold hdmi_resources_cleanup, cleanup_events. kunfold.
  destruct (regul_count res =? 0), (IS_ERR (res_hdmiphy res)),
    (IS_ERR (res_sclk_hdmiphy res)), (IS_ERR (res_sclk_pixel res)),
    (IS_ERR (res_sclk_hdmi res)), (IS_ERR (res_hdmi res));
    cbn [negb]; repeat kstep; unfold kret, resources_cleared;
    rewrite <- ?app_assoc; reflexivity.
Qed.

Lemma cleanup_cleared_events :
  cleanup_events resources_cleared = [KKfree 0].
Proof.
  unfold cleanup_events, resources_cleared, hdmi_resource_clear_clocks,
    hdmi_resources_zero.
  cbn [res_hdmi res_sclk_hdmi res_sclk_pixel res_sclk_hdmiphy res_hdmiphy
       regul_bulk regul_count].
  rewrite IS_ERR_ERR_PTR. reflexivity.
Qed.

Lemma held_cleanup_complete res h :
  resources_complete res ->
  held_after (with_resources res h) (cleanup_events res) = Some h.
Proof.
  intros (E1 & E2 & E3 & E4 & E5 & Hb & Hc).
  apply Z.eqb_neq in Hb.
  unfold cleanup_events, with_resources. rewrite Hc, E1, E2, E3, E4, E5.
  destruct h. cbn [Z.eqb app]. held. reflexivity.
Qed.

(** The outcomes of hdmi_resources_init. *)
Lemma hdmi_resources_init_run tr :
  exists r res d,
    hdmi_resources_init tr = Some ((r, res), tr ++ d) /\
    ((r = - ENODEV /\ res = resources_cleared /\
      forall h, held_after h d = Some h) \/
     (r = 0 /\ resources_complete res /\
      forall h, held_after h d = Some (with_resources res h))).
Proof.
  remember (hdmi_resources_init tr) as out eqn:Eout. symmetry in Eout.
  revert Eout.
  unfold hdmi_resources_init, hdmi_resources_init_fail. kunfold.
  assert (Hfail : forall res0 d0 out0,
            (forall h, held_after h (d0 ++ cleanup_events res0) = Some h) ->
            kbind (hdmi_resources_cleanup res0)
              (fun res1 => kret (- ENODEV, res1)) (tr ++ d0) = out0 ->
            exists r res d,
              out0 = Some ((r, res), tr ++ d) /\
              ((r = - ENODEV /\ res = resources_cleared /\
                forall h, held_after h d = Some h) \/
               (r = 0 /\ resources_complete res /\
                forall h, held_after h d = Some (with_resources res h)))).
  { intros res0 d0 out0 Hh.
    rewrite (kbind_Some _ _ _ _ _ (hdmi_resources_cleanup_run res0 _)).
    unfold kret. intros <-.
    exists (- ENODEV), resources_cleared, (d0 ++ cleanup_events res0).
    split; [now rewrite app_assoc|]. left. auto. }
  cbn [hdmi_resource_clear_clocks hdmi_resources_zero
       res_hdmi res_sclk_hdmi res_sclk_pixel res_sclk_hdmiphy res_hdmiphy
       regul_bulk regul_count].
  kstep. destruct (IS_ERR a) eqn:E1.
  { apply Hfail. intros h. unfold cleanup_events. destruct h. held.
    reflexivity. }
  kstep. rewrite <- app_assoc. cbn [app]. destruct (IS_ERR a0) eqn:E2.
  { apply Hfail. intros h. unfold cleanup_events. destruct h. held.
    reflexivity. }
  kstep. rewrite <- app_assoc. cbn [app]. destruct (IS_ERR a1) eqn:E3.
  { apply Hfail. intros h. unfold cleanup_events. destruct h. held.
    reflexivity. }
  kstep. rewrite <- app_assoc. cbn [app]. destruct (IS_ERR a2) eqn:E4.
  { apply Hfail. intros h. unfold cleanup_events. destruct h. held.
    reflexivity. }
  kstep. rewrite <- app_assoc. cbn [app]. destruct (IS_ERR a3) eqn:E5.
  { apply Hfail. intros h. unfold cleanup_events. destruct h. held.
    reflexivity. }
  kstep. rewrite <- app_assoc. cbn [app]. destruct (a4 =? 0) eqn:E6.
  { apply Hfail. intros h. unfold cleanup_events. destruct h. held.
    reflexivity. }
  kstep. rewrite <- app_assoc. cbn [app]. destruct (a5 =? 0) eqn:E7;
    cbn [negb].
  2: { apply Hfail. intros h. unfold cleanup_events. destruct h. held.
       reflexivity. }
  unfold kret. intros <-.
  eexists 0, _, _. split; [reflexivity|]. right.
  split; [reflexivity|]. split.
  - unfold resources_complete.
    cbn [res_hdmi res_sclk_hdmi res_sclk_pixel res_sclk_hdmiphy res_hdmiphy
         regul_bulk regul_count].
    apply Z.eqb_neq in E6. repeat split; assumption || reflexivity.
  - intros h. unfold with_resources. destruct h. held. reflexivity.
Qed.

Ltac flat :=
  repeat (progress (rewrite <- ?app_assoc; cbn [app])).

Ltac held_init :=
  match goal with
  | H : forall h, held_after h ?d = _ |- held_after _ (?d ++ _) = _ =>
      rewrite held_after_app, H; unfold with_resources;
      cbn [held_clocks enabled_clocks held_blocks held_regulators
           held_adapters registered pm_enabled]
  | H : forall h, held_after h ?d = _ |- held_after _ ?d = _ =>
      rewrite H; unfold with_resources;
      cbn [held_clocks enabled_clocks held_blocks held_regulators
           held_adapters registered pm_enabled]
  end.

Ltac held_all :=
  unfold cleanup_events;
  cbn [res_hdmi res_sclk_hdmi res_sclk_pixel res_sclk_hdmiphy
       res_hdmiphy regul_bulk regul_count];
  rewrite ?IS_ERR_ERR_PTR; use_facts; cbn [app Z.eqb negb];
  repeat first [held1 | held_init]; cbn [held_after].

Ltac find_in :=
  repeat first
    [ left; reflexivity
    | match goal with
      | |- In _ (_ ++ _) => apply in_or_app; right
      | |- In _ (_ :: _) => right
      end ].

Ltac probe_error :=
  unfold probe_error;
  first
    [ left; reflexivity
    | right; left; reflexivity
    | right; right; left; reflexivity
    | solve [right; right; right; left; eexists _, _; find_in]
    | solve [right; right; right; right; find_in] ].

Lemma default_row :
  exists row,
    nth_error hdmi_timings_tab HDMI_DEFAULT_TIMINGS_IDX = Some row.
Proof. eexists. reflexivity. Qed.

(** The outcomes of hdmi_probe. *)
Lemma hdmi_probe_run pdata tr :
  exists r dev d,
    hdmi_probe pdata tr = Some ((r, dev), tr ++ d) /\
    ((r <> 0 /\ dev = None /\ probe_error r d /\
      held_after nothing_held d = Some nothing_held) \/
     (r = 0 /\
      exists pd hdev phy,
        pdata = Some pd /\ dev = Some hdev /\
        hdmi_probe_device phy (mhl_sd (core hdev)) = Some (core hdev) /\
        (mhl_sd (core hdev) = None <-> mhl_info pd = None) /\
        resources_complete (res hdev) /\
        regs hdev <> 0 /\
        held_after nothing_held d = Some (probed_holdings (res hdev)))).
Proof.
  remember (hdmi_probe pdata tr) as out eqn:Eout. symmetry in Eout.
  revert Eout.
  assert (Hleaf : forall r d out0,
            r <> 0 -> probe_error r d ->
            held_after nothing_held d = Some nothing_held ->
            Some ((r, @None hdmi_device_mem), tr ++ d) = out0 ->
            exists r dev d,
              out0 = Some ((r, dev), tr ++ d) /\
              ((r <> 0 /\ dev = None /\ probe_error r d /\
                held_after nothing_held d = Some nothing_held) \/
               (r = 0 /\
                exists pd hdev phy,
                  pdata = Some pd /\ dev = Some hdev /\
                  hdmi_probe_device phy (mhl_sd (core hdev)) =
                    Some (core hdev) /\
                  (mhl_sd (core hdev) = None <-> mhl_info pd = None) /\
                  resources_complete (res hdev) /\
                  regs hdev <> 0 /\
                  held_after nothing_held d =
                    Some (probed_holdings (res hdev))))).
  { intros r d out0 Hr He Hh <-. exists r, None, d.
    split; [reflexivity|]. left. auto. }
  unfold hdmi_probe, hdmi_probe_fail_vdev, hdmi_probe_fail_init,
    hdmi_probe_fail.
  destruct pdata as [pd|].
  2: { unfold kret. intros <-. exists (- ENODEV), None, [].
       split; [now rewrite app_nil_r|]. left.
       split; [unfold ENODEV; lia|]. split; [reflexivity|].
       split; [probe_error|reflexivity]. }
  kunfold. kstep. destruct a; cbn [negb].
  2: { unfold kret. apply Hleaf; [unfold ENOMEM; lia|probe_error|].
       unfold nothing_held. held_all. reflexivity. }
  destruct (hdmi_resources_init_run (tr ++ [KDevmKzalloc true]))
    as (ri & res0 & di & Ei & Hi).
  rewrite (kbind_Some _ _ _ _ _ Ei). cbv beta. cbn [fst snd].
  destruct Hi as [(-> & -> & Hi)|(-> & Hc & Hi)].
  { cbn [negb Z.eqb Z.opp ENODEV]. unfold kret. flat.
    apply Hleaf; [lia|probe_error|].
    unfold nothing_held. held_all. reflexivity. }
  cbn [negb Z.eqb].
  destruct Hc as (C1 & C2 & C3 & C4 & C5 & Cb & Cc).
  apply Z.eqb_neq in Cb.
  kstep. destruct a as [mem|].
  2: { rewrite (kbind_Some _ _ _ _ _ (hdmi_resources_cleanup_run _ _)).
       unfold kret. flat.
       apply Hleaf; [unfold ENXIO; lia|probe_error|].
       unfold nothing_held. held_all. reflexivity. }
  kstep. destruct (a =? 0) eqn:Eregs.
  { rewrite (kbind_Some _ _ _ _ _ (hdmi_resources_cleanup_run _ _)).
    unfold kret. flat.
    apply Hleaf; [unfold ENXIO; lia|probe_error|].
    unfold nothing_held. held_all. reflexivity. }
  kstep. destruct a0 as [irq_res|].
  2: { rewrite (kbind_Some _ _ _ _ _ (hdmi_resources_cleanup_run _ _)).
       unfold kret. flat.
       apply Hleaf; [unfold ENXIO; lia|probe_error|].
       unfold nothing_held. held_all. reflexivity. }
  kstep. destruct (Z.eqb_spec a0 0) as [->|Hirq]; cbn [negb].
  2: { rewrite (kbind_Some _ _ _ _ _ (hdmi_resources_cleanup_run _ _)).
       unfold kret. flat.
       apply Hleaf; [exact Hirq|probe_error|].
       unfold nothing_held. held_all. reflexivity. }
  kstep. destruct (Z.eqb_spec a0 0) as [->|Hreg]; cbn [negb].
  2: { rewrite (kbind_Some _ _ _ _ _ (hdmi_resources_cleanup_run _ _)).
       unfold kret. flat.
       assert (Er : (a0 =? 0) = false) by now apply Z.eqb_neq.
       apply Hleaf; [exact Hreg|probe_error|].
       unfold nothing_held. held_all. reflexivity. }
  destruct (hdmiphy_info pd) as [phy_info|].
  2: { kstep.
       rewrite (kbind_Some _ _ _ _ _ (hdmi_resources_cleanup_run _ _)).
       unfold kret. flat.
       apply Hleaf; [unfold ENXIO; lia|probe_error|].
       unfold nothing_held. held_all. reflexivity. }
  kstep. destruct a0 as [adapter|].
  2: { kstep.
       rewrite (kbind_Some _ _ _ _ _ (hdmi_resources_cleanup_run _ _)).
       unfold kret. flat.
       apply Hleaf; [unfold ENXIO; lia|probe_error|].
       unfold nothing_held. held_all. reflexivity. }
  kstep. kstep. destruct a0 as [phy|].
  2: { kstep.
       rewrite (kbind_Some _ _ _ _ _ (hdmi_resources_cleanup_run _ _)).
       unfold kret. flat.
       destruct adapter as [ad].
       apply Hleaf; [unfold ENODEV; lia|probe_error|].
       unfold nothing_held. held_all. reflexivity. }
  destruct default_row as (row & Erow).
  assert (Hfin : forall mhl d0 out0,
            (mhl = None <-> mhl_info pd = None) ->
            held_after nothing_held d0 =
              Some {| held_clocks :=
                        [res_hdmiphy res0; res_sclk_hdmiphy res0;
                         res_sclk_pixel res0; res_sclk_hdmi res0;
                         res_hdmi res0];
                      enabled_clocks := [];
                      held_blocks := [regul_bulk res0];
                      held_regulators := 1;
                      held_adapters := [];
                      registered := 1;
                      pm_enabled := 0 |} ->
            hdmi_probe_finish a (start irq_res) res0 phy mhl (tr ++ d0) =
              out0 ->
            exists r dev d,
              out0 = Some ((r, dev), tr ++ d) /\
              ((r <> 0 /\ dev = None /\ probe_error r d /\
                held_after nothing_held d = Some nothing_held) \/
               (r = 0 /\
                exists pd0 hdev phy0,
                  Some pd = Some pd0 /\ dev = Some hdev /\
                  hdmi_probe_device phy0 (mhl_sd (core hdev)) =
                    Some (core hdev) /\
                  (mhl_sd (core hdev) = None <-> mhl_info pd0 = None) /\
                  resources_complete (res hdev) /\
                  regs hdev <> 0 /\
                  held_after nothing_held d =
                    Some (probed_holdings (res hdev))))).
  { intros mhl d0 out0 Hm Hh.
    unfold hdmi_probe_finish. kunfold. rewrite Erow.
    do 4 kstep. unfold kret. intros <-.
    eexists 0, _, _. split; [flat; reflexivity|]. right.
    split; [reflexivity|].
    eexists pd, _, phy. split; [reflexivity|]. split; [reflexivity|].
    cbn [core res regs mhl_sd].
    split; [unfold hdmi_probe_device; now rewrite Erow|].
    split; [exact Hm|].
    split; [unfold resources_complete; rewrite Cc;
            apply Z.eqb_neq in Cb; auto 10|].
    split; [now apply Z.eqb_neq|].
    rewrite !held_after_app, Hh. unfold probed_holdings.
    held_all. reflexivity. }
  destruct (mhl_info pd) as [minfo|] eqn:Eminfo.
  2: { flat. apply Hfin; [tauto|].
       destruct adapter as [ad].
       unfold nothing_held. held_all. reflexivity. }
  kstep. destruct a0 as [adapter2|].
  2: { kstep.
       rewrite (kbind_Some _ _ _ _ _ (hdmi_resources_cleanup_run _ _)).
       unfold kret. flat.
       destruct adapter as [ad].
       apply Hleaf; [unfold ENXIO; lia|probe_error|].
       unfold nothing_held. held_all. reflexivity. }
  kstep. kstep. destruct a0 as [mhl|].
  2: { kstep.
       rewrite (kbind_Some _ _ _ _ _ (hdmi_resources_cleanup_run _ _)).
       unfold kret. flat.
       destruct adapter as [ad], adapter2 as [ad2].
       apply Hleaf; [unfold ENODEV; lia|probe_error|].
       unfold nothing_held. held_all. reflexivity. }
  flat. apply Hfin; [split; discriminate|].
  destruct adapter as [ad], adapter2 as [ad2].
  unfold nothing_held. held_all. reflexivity.
Qed.

(** ** Resources *)

(** X17.  hdmi_resources_init is all or nothing.  It returns 0 or -ENODEV.
    With 0 the structure holds five clocks, none of them an error
    pointer, the array and a regulator count of 4, and exactly these are
    held.  With -ENODEV everything got on the way has been released
    again, no call released what was not held, and the structure is back
    to the cleared state: error pointers for the clocks, no array,
    count 0. *)
Theorem hdmi_resources_init_all_or_nothing (tr : list kevent) :
  exists r res d,
    hdmi_resources_init tr = Some ((r, res), tr ++ d) /\
    (r = 0 \/ r = - ENODEV) /\
    (r = - ENODEV ->
     res = resources_cleared /\
     held_after nothing_held d = Some nothing_held) /\
    (r = 0 ->
     resources_complete res /\
     held_after nothing_held d = Some (with_resources res nothing_held)).
Proof.
  destruct (hdmi_resources_init_run tr) as (r & res0 & d & Ei & Hi).
  exists r, res0, d. split; [exact Ei|].
  destruct Hi as [(-> & -> & Hh)|(-> & Hc & Hh)].
  - split; [now right|]. split; [auto|].
    unfold ENODEV. intros H. lia.
  - split; [now left|]. split; [|auto].
    unfold ENODEV. intros H. lia.
Qed.

(** X18.  hdmi_resources_cleanup leaves the structure cleared, whatever it
    was, and a second cleanup right after the first only hands NULL to
    kfree: no clock is put twice and the regulators are not freed twice.
    On a structure whose resources are all there, the first cleanup
    releases every one of them. *)
Theorem hdmi_resources_cleanup_twice (res0 : hdmi_resources)
    (tr : list kevent) :
  exists d,
    hdmi_resources_cleanup res0 tr = Some (resources_cleared, tr ++ d) /\
    hdmi_resources_cleanup resources_cleared (tr ++ d) =
      Some (resources_cleared, (tr ++ d) ++ [KKfree 0]) /\
    (resources_complete res0 ->
     forall h, held_after (with_resources res0 h) d = Some h).
Proof.
  exists (cleanup_events res0).
  split; [apply hdmi_resources_cleanup_run|].
  split.
  - rewrite hdmi_resources_cleanup_run. now rewrite cleanup_cleared_events.
  - intros Hc h. now apply held_cleanup_complete.
Qed.

(** ** Probe and remove *)

(** X19.  When hdmi_probe fails it leaves nothing behind: no device
    structure, and over the calls it made every clock got was put, the
    array freed, the regulators freed if they had been got, every I2C
    adapter put, the V4L2 device unregistered if it had been registered;
    no clock was enabled and runtime PM was not enabled; no call released
    what was not held.  The error is -ENODEV, -ENOMEM or -ENXIO, or the
    answer of the interrupt request or of the V4L2 registration.  Without
    platform data the result is -ENODEV and no call is made. *)
Theorem hdmi_probe_failure_releases
    (pdata : option s5p_hdmi_platform_data) (tr : list kevent) (r : Z)
    (dev : option hdmi_device_mem) (tr' : list kevent) :
  hdmi_probe pdata tr = Some ((r, dev), tr') ->
  r <> 0 ->
  dev = None /\
  exists d,
    tr' = tr ++ d /\
    probe_error r d /\
    held_after nothing_held d = Some nothing_held /\
    (pdata = None -> r = - ENODEV /\ d = []).
Proof.
  intros Hp Hr.
  destruct (hdmi_probe_run pdata tr) as (r0 & dev0 & d & Ep & Hcase).
  rewrite Ep in Hp. injection Hp as <- <- <-.
  destruct Hcase as [(_ & Hd & He & Hh)|(H0 & _)]; [|contradiction].
  split; [exact Hd|]. exists d. split; [reflexivity|].
  split; [exact He|]. split; [exact Hh|].
  intros ->. revert Ep. unfold hdmi_probe, hdmi_probe_fail, kret.
  intros H. injection H as H1 _ H2. split; [auto|].
  apply (app_inv_head tr). now rewrite app_nil_r.
Qed.

(** X20.  hdmi_probe always returns, and when it returns 0 there was
    platform data and the device structure is this: the members that the
    operations use are what the attach model of the operations assumes
    (the PHY sub-device present, the repeater present exactly when the
    platform data describes one, [cur_conf] and [cur_timings] those of
    the default row, the dirty flag 1); the register window is mapped;
    the resources are all there; and what is held is the resources, the
    bus clock enabled once, one registered V4L2 device and runtime PM:
    every I2C adapter has been put again. *)
Theorem hdmi_probe_success_state (pdata : option s5p_hdmi_platform_data)
    (tr : list kevent) :
  exists r dev d,
    hdmi_probe pdata tr = Some ((r, dev), tr ++ d) /\
    (r = 0 ->
     exists pd hdev phy,
       pdata = Some pd /\ dev = Some hdev /\
       hdmi_probe_device phy (mhl_sd (core hdev)) = Some (core hdev) /\
       (mhl_sd (core hdev) = None <-> mhl_info pd = None) /\
       resources_complete (res hdev) /\
       regs hdev <> 0 /\
       held_after nothing_held d = Some (probed_holdings (res hdev))).
Proof.
  destruct (hdmi_probe_run pdata tr) as (r & dev & d & Ep & Hcase).
  exists r, dev, d. split; [exact Ep|]. intros ->.
  destruct Hcase as [(Hn & _)|(_ & H)]; [contradiction|exact H].
Qed.

Lemma hdmi_remove_run hdev tr :
  hdmi_remove hdev tr =
  Some ((0, {| regs := regs hdev; irq := irq hdev;
               res := resources_cleared; core := core hdev |}),
        tr ++ [KPmRuntimeDisable; KClkDisable (res_hdmi (res hdev));
               KV4l2DeviceUnregister; KDisableIrq (irq hdev)] ++
              cleanup_events (res hdev)).
Proof.
  unfold hdmi_remove. kunfold. do 4 kstep.
  rewrite (kbind_Some _ _ _ _ _ (hdmi_resources_cleanup_run _ _)).
  unfold kret. flat. reflexivity.
Qed.

(** X21.  hdmi_remove undoes a successful hdmi_probe: it returns 0, and
    over the calls of the two together nothing stays held - runtime PM is
    disabled, the bus clock disabled, the V4L2 device unregistered, the
    regulators and the array freed, the five clocks put - and no call
    releases what is not held.  The resources in the structure are left
    cleared, the other members as they were. *)
Theorem hdmi_probe_remove_releases (pdata : option s5p_hdmi_platform_data)
    (tr : list kevent) (hdev : hdmi_device_mem) (tr1 : list kevent) :
  hdmi_probe pdata tr = Some ((0, Some hdev), tr1) ->
  exists hdev' d1 d2,
    tr1 = tr ++ d1 /\
    hdmi_remove hdev tr1 = Some ((0, hdev'), tr1 ++ d2) /\
    res hdev' = resources_cleared /\
    core hdev' = core hdev /\ regs hdev' = regs hdev /\ irq hdev' = irq hdev /\
    held_after nothing_held (d1 ++ d2) = Some nothing_held.
Proof.
  intros Hp.
  destruct (hdmi_probe_run pdata tr) as (r & dev & d & Ep & Hcase).
  rewrite Ep in Hp. injection Hp as -> -> <-.
  destruct Hcase as [(Hn & _)|(_ & pd & hdev0 & phy & _ & Ed & _ & _ & Hc & _ & Hh)];
    [contradiction|].
  injection Ed as <-.
  eexists _, d, _. split; [reflexivity|].
  split; [apply hdmi_remove_run|].
  cbn [res core regs irq]. repeat (split; [reflexivity|]).
  rewrite held_after_app, Hh.
  destruct Hc as (C1 & C2 & C3 & C4 & C5 & Cb & Cc).
  apply Z.eqb_neq in Cb.
  unfold probed_holdings. cbn [app]. held_all. reflexivity.
Qed.

End AttachProperties.

(** * From attach to the operations *)

Section AttachedOperations.

Context {R : RegsHdmi} {V : V4l2Hdr} {L : V4l2DvTimings} {E : Environment}
        {LE : LinuxErr} {P : Platform}.

(** X22.  On the device structure of a successful hdmi_probe the
    operations never fault: the configuration starts dirty, so that the
    first start-stream programs the hardware, and whatever sequence of
    operations follows, each of them returns, the sub-device pointers
    stay those that probe set and [cur_conf] stays inside the
    catalogue. *)
Theorem hdmi_probe_then_operations (pdata : option s5p_hdmi_platform_data)
    (ktr : list kevent) (hdev : hdmi_device_mem) (ktr' : list kevent)
    (ops : list hdmi_operation) (tr : list event) :
  hdmi_probe pdata ktr = Some ((0, Some hdev), ktr') ->
  cur_conf_dirty (core hdev) = 1 /\
  exists phy rs s',
    phy_sd (core hdev) = Some phy /\
    run_operations ops {| device := core hdev; trace := tr |} =
      Some (rs, s') /\
    List.length rs = List.length ops /\
    attached phy (mhl_sd (core hdev)) (device s').
Proof.
  intros Hp.
  destruct (hdmi_probe_run pdata ktr) as (r & dev & d & Ep & Hcase).
  rewrite Ep in Hp. injection Hp as -> -> <-.
  destruct Hcase
    as [(Hn & _)|(_ & pd & hdev0 & phy & _ & Ed & Hd & _)];
    [contradiction|].
  injection Ed as <-.
  destruct (hdmi_probe_device_cur_conf phy _ _ Hd) as (_ & Hdirty & Hphy).
  split; [exact Hdirty|].
  pose proof (hdmi_probe_device_attached phy _ _ Hd) as Hat.
  destruct (run_operations_attached_run phy _ ops
              {| device := core hdev; trace := tr |} Hat)
    as (rs & s' & Er & Hl & Hat').
  exists phy, rs, s'. auto.
Qed.

End AttachedOperations.

(** * Examples on the demo instance *)

#[local] Existing Instance demo_regs.
#[local] Existing Instance demo_v4l2.
#[local] Existing Instance demo_dv_timings.

(** The synthetic interlaced mode of the register-programmer test: sizes
    800 and 500, both halves of the transition register 16 + 1100. *)
Lemma hdmi_timing_apply_tg_window_sizes_witness :
  exists s',
    hdmi_timing_apply (E := demo_env 0 0 0) (synthetic_timings 1 1100)
      demo_state = Some (tt, s') /\
    written_bytes HDMI_TG_HACT_SZ_L 2 (trace s') = Some 800 /\
    written_bytes HDMI_TG_VACT_SZ_L 2 (trace s') = Some 500 /\
    exists x,
      written_bytes HDMI_V_SYNC_GEN_3_0 3 (trace s') = Some x /\
      x mod 2 ^ 12 = 1116 /\ x / 2 ^ 12 = 1116.
Proof.
  destruct (hdmi_timing_apply_tg_window_sizes (E := demo_env 0 0 0)
              (synthetic_timings 1 1100) demo_state)
    as (s' & Es & Hh & Hv & Ht).
  - simpl. lia.
  - simpl. lia.
  - exists s'. split; [exact Es|]. split; [exact Hh|]. split; [exact Hv|].
    destruct Ht as (x & Hx & Hlo & Hhi).
    + intros H. discriminate H.
    + change (0 <= 16 + 1100 < 2 ^ 12). lia.
    + exists x. split; [exact Hx|]. split; [exact Hlo|exact Hhi].
Defined.

(** C1, as stated, fails on [wide_timings] in both of its parts: the size
    register receives 70000 mod 2^16 = 4464, and the two halves of the
    transition register receive 904 and 905 for the transition point
    5000. *)
Lemma hdmi_timing_apply_tg_window_sizes_counterexample :
  ~ (forall (t : hdmi_timings) (s s' : state),
       0 <= beg (hact t) < end_ (hact t) ->
       end_ (hact t) < 2 ^ 32 ->
       hdmi_timing_apply (E := demo_env 0 0 0) t s = Some (tt, s') ->
       written_bytes HDMI_TG_HACT_SZ_L 2 (trace s') =
         Some (end_ (hact t) - beg (hact t))) /\
  ~ (forall (t : hdmi_timings) (s s' : state),
       0 <= beg (hsyn t) ->
       0 <= vsyn_off t ->
       beg (hsyn t) + vsyn_off t < 2 ^ 32 ->
       interlaced t <> 0 ->
       hdmi_timing_apply (E := demo_env 0 0 0) t s = Some (tt, s') ->
       exists x,
         written_bytes HDMI_V_SYNC_GEN_3_0 3 (trace s') = Some x /\
         x mod 2 ^ 12 = beg (hsyn t) + vsyn_off t /\
         x / 2 ^ 12 = beg (hsyn t) + vsyn_off t).
Proof.
  assert (Es : exists s',
            hdmi_timing_apply (E := demo_env 0 0 0) wide_timings demo_state =
              Some (tt, s') /\
            written_bytes HDMI_TG_HACT_SZ_L 2 (trace s') = Some 4464 /\
            written_bytes HDMI_V_SYNC_GEN_3_0 3 (trace s') =
              Some (904 + 905 * 2 ^ 12)).
  { eexists. split; [|split]; vm_compute; reflexivity. }
  destruct Es as (s' & Es & Hw & Ht).
  split; intros H.
  - pose proof (H wide_timings demo_state s') as Hsz.
    rewrite Hw in Hsz.
    assert (Hc : Some 4464 = Some 70000).
    { apply Hsz; [simpl; lia|simpl; lia|exact Es]. }
    discriminate Hc.
  - destruct (H wide_timings demo_state s') as (x & Hx & Hlo & _);
      [simpl; lia|simpl; lia|simpl; lia|intros Hi; discriminate Hi|exact Es|].
    rewrite Ht in Hx. injection Hx as <-.
    vm_compute in Hlo. discriminate Hlo.
Qed.

(** A PHY that never locks: 100 samples, the stop request, -EIO. *)
Lemma hdmi_streamon_phy_lock_timeout_witness :
  exists r s' d0 vals phy rp,
    hdmi_streamon (E := demo_env 0 0 0) demo_state = Some (r, s') /\
    r = - EIO /\
    List.length vals = 100%nat /\
    trace s' = d0 ++ poll_events vals ++
               [EvSubdevCall phy (video_s_stream 0) rp;
                EvDumpregs "hdmiphy - s_stream"].
Proof.
  assert (Es : exists s',
            hdmi_streamon (E := demo_env 0 0 0) demo_state =
              Some (- EIO, s') /\
            count_events is_phy_sample (trace s') = 100%nat /\
            ready_seen (trace s') = false).
  { eexists. split; [|split]; vm_compute; reflexivity. }
  destruct Es as (s' & Es & Hcnt & Hns).
  assert (Hpos : (0 < count_events is_phy_sample (trace s'))%nat)
    by (rewrite Hcnt; lia).
  destruct (proj2 (hdmi_streamon_phy_lock_timeout (E := demo_env 0 0 0)
                     demo_state) (- EIO) s' Es)
    as (d & Ed & _ & _ & Hto).
  change (trace demo_state ++ d) with d in Ed. rewrite <- Ed in Hto.
  destruct (Hto Hpos Hns)
    as (_ & _ & _ & d0 & vals & phy & rp & _ & Hl & _ & Hd).
  exists (- EIO), s', d0, vals, phy, rp.
  split; [exact Es|]. split; [reflexivity|]. split; [exact Hl|exact Hd].
Defined.

(** Two runs with the repeater configured.  In the first it starts and
    the run reaches streaming.  In the second it answers -22 to its start:
    the result is -EIO, and after that answer come the stop request to the
    PHY and the dump, nothing else. *)
Lemma hdmi_streamon_switch_order_witness :
  (exists s' da rest post o1 o2,
     hdmi_streamon (E := demo_env 1 0 0) demo_state = Some (0, s') /\
     trace s' = trace demo_state ++ da ++ rest ++ post /\
     Forall passive_event rest /\
     (exists rest',
        rest = rest' ++ [EvSubdevCall demo_mhl (video_s_stream 1) 0]) /\
     post =
       clk_switch_events sclk_hdmiphy ++
       write_mask_events HDMI_CON_0 all_ones HDMI_EN o1 ++
       write_mask_events HDMI_TG_CMD all_ones HDMI_TG_EN o2 ++
       [EvDumpregs "streamon"]) /\
  (exists s' da rest' rp,
     hdmi_streamon (E := demo_env 1 0 (-22)) demo_state =
       Some (- EIO, s') /\
     trace s' =
       trace demo_state ++ da ++
       (rest' ++ [EvSubdevCall demo_mhl (video_s_stream 1) (-22)]) ++
       [EvSubdevCall demo_phy (video_s_stream 0) rp;
        EvDumpregs "mhl - s_stream"]).
Proof.
  split.
  - assert (Es : exists s',
              hdmi_streamon (E := demo_env 1 0 0) demo_state = Some (0, s')).
    { eexists. vm_compute. reflexivity. }
    destruct Es as (s' & Es).
    destruct (hdmi_streamon_switch_order (E := demo_env 1 0 0)
                demo_state 0 s' Es)
      as (ra & sa & da & rest & post & _ & _ & Et & _ & _ & Fr & Hok & _).
    destruct (Hok eq_refl) as (_ & Hmhl & o1 & o2 & Hpost & _).
    exists s', da, rest, post, o1, o2.
    split; [exact Es|]. split; [exact Et|]. split; [exact Fr|].
    split; [exact (Hmhl demo_mhl eq_refl)|exact Hpost].
  - assert (Es : exists r sa0 s',
              hdmi_conf_apply (E := demo_env 1 0 (-22)) demo_state =
                Some (0, sa0) /\
              hdmi_streamon (E := demo_env 1 0 (-22)) demo_state =
                Some (r, s') /\
              trace s' =
                trace sa0 ++
                [EvSubdevCall demo_phy (video_s_stream 1) 0;
                 EvReadl (HDMI_PHY_STATUS, 0) 1;
                 EvSubdevCall demo_mhl (video_s_stream 1) (-22);
                 EvSubdevCall demo_phy (video_s_stream 0) 0;
                 EvDumpregs "mhl - s_stream"]).
    { eexists. eexists. eexists.
      split; [vm_compute; reflexivity|].
      split; vm_compute; reflexivity. }
    destruct Es as (r & sa0 & s' & Ea0 & Es & Etl).
    destruct (hdmi_streamon_switch_order (E := demo_env 1 0 (-22))
                demo_state r s' Es)
      as (ra & sa & da & rest & post & Ea & Eda & Et & _ & _ & _ & _ & _
          & Hfail).
    rewrite Ea0 in Ea. injection Ea as _ Esa. subst sa.
    rewrite Etl, Eda, <- app_assoc in Et.
    apply app_inv_head in Et. apply app_inv_head in Et.
    assert (Hp : phy_sd (device demo_state) <> Some demo_mhl)
      by (intros H; vm_compute in H; discriminate H).
    assert (Hin : In (EvSubdevCall demo_mhl (video_s_stream 1) (-22))
                     (rest ++ post)).
    { rewrite <- Et. right. right. left. reflexivity. }
    assert (Hrm : -22 <> 0) by (intros H; discriminate H).
    destruct (Hfail demo_mhl (-22) eq_refl Hp Hin Hrm)
      as (Er & phy & rp & rest' & Ephy & Erest & Epost).
    injection Ephy as <-.
    exists s', da, rest', rp.
    split; [rewrite <- Er; exact Es|].
    rewrite Etl, Eda, <- app_assoc, Et, Erest, Epost. reflexivity.
Defined.


(** Apply on a clean device is a no-op; apply twice on a dirty one ends
    where the first call ended. *)
Lemma hdmi_conf_apply_idempotent_witness :
  hdmi_conf_apply (E := demo_env 1 0 0) clean_state = Some (0, clean_state) /\
  exists s1,
    hdmi_conf_apply (E := demo_env 1 0 0) demo_state = Some (0, s1) /\
    bind (hdmi_conf_apply (E := demo_env 1 0 0))
      (fun _ => hdmi_conf_apply (E := demo_env 1 0 0)) demo_state =
      Some (0, s1).
Proof.
  split.
  - exact (proj1 (hdmi_conf_apply_idempotent (E := demo_env 1 0 0)
                    clean_state) eq_refl).
  - assert (Es : exists s1,
              hdmi_conf_apply (E := demo_env 1 0 0) demo_state =
                Some (0, s1)).
    { eexists. vm_compute. reflexivity. }
    destruct Es as (s1 & Es).
    destruct (proj2 (hdmi_conf_apply_idempotent (E := demo_env 1 0 0)
                       demo_state) s1 Es) as (_ & Hb & _).
    exists s1. split; [exact Es|exact Hb].
Defined.

(** 640x480 is not in the catalogue. *)
Lemma hdmi_s_dv_timings_unsupported_witness :
  hdmi_s_dv_timings vga_dv demo_state = Some (- EINVAL, demo_state).
Proof.
  destruct (hdmi_s_dv_timings_unsupported demo_state vga_dv)
    as (s' & Es & Hs & _).
  - intros row Hin. unfold hdmi_timings_tab in Hin.
    repeat (destruct Hin as [Hin|Hin];
            [rewrite <- Hin; vm_compute; reflexivity|]).
    destruct Hin.
  - rewrite Hs in Es. exact Es.
Defined.

(** 1920x1080p24 arrives with the can-reduce-fps flag; its row does not
    allow reduced fps, and the flag is gone from what get-timings
    returns. *)
Lemma hdmi_s_dv_timings_roundtrip_witness :
  exists s' got,
    hdmi_s_dv_timings V4L2_DV_BT_CEA_1920X1080P24 demo_state =
      Some (0, s') /\
    hdmi_g_dv_timings s' = Some ((0, got), s') /\
    bt_members (bt got) = bt_members (bt V4L2_DV_BT_CEA_1920X1080P24) /\
    flags (bt V4L2_DV_BT_CEA_1920X1080P24) = 1 /\
    flags (bt got) = 0.
Proof.
  assert (Es : exists s',
            hdmi_s_dv_timings V4L2_DV_BT_CEA_1920X1080P24 demo_state =
              Some (0, s')).
  { eexists. vm_compute. reflexivity. }
  destruct Es as (s' & Es).
  destruct (hdmi_s_dv_timings_roundtrip demo_state
              V4L2_DV_BT_CEA_1920X1080P24 s' Es)
    as (i & row & got & Hi & Hn & _ & _ & Hg & _ & Hm & Hf & _).
  vm_compute in Hi. rewrite <- Hi in Hn.
  vm_compute in Hn. injection Hn as Hrow. rewrite <- Hrow in Hf.
  exists s', got.
  split; [exact Es|]. split; [exact Hg|]. split; [exact Hm|].
  split; [reflexivity|].
  rewrite Hf. vm_compute. reflexivity.
Defined.

(** Suspend and resume on a clean device, then start-stream: the run
    begins with the PHY reset. *)
Lemma hdmi_suspend_resume_reapplies_witness :
  exists s1 r2 s2 r3 s3 o1 o2 d,
    hdmi_runtime_suspend (E := demo_env 1 0 0) clean_state = Some (0, s1) /\
    hdmi_runtime_resume (E := demo_env 1 0 0) s1 = Some (r2, s2) /\
    cur_conf_dirty (device clean_state) = 0 /\
    cur_conf_dirty (device s2) = 1 /\
    hdmi_streamon (E := demo_env 1 0 0) s2 = Some (r3, s3) /\
    trace s3 = trace s2 ++ phy_reset_events o1 o2 ++ d.
Proof.
  destruct (proj2 (hdmi_suspend_resume_reapplies (E := demo_env 1 0 0)
                     clean_state))
    as (s1 & Esus & _ & r2 & s2 & Eres & Hd2 & Hnext).
  destruct (Hnext hdmi_timings_480p eq_refl)
    as (r3 & s3 & ra & sa & o1 & o2 & rt & Es3 & _ & (d & Hext) & Hcases).
  exists s1, r2, s2, r3, s3, o1, o2.
  destruct Hcases as [(_ & _ & Hsa)|(_ & _ & o3 & o4 & di & dt & _ & _ & _ & Hsa & _)];
    rewrite Hsa in Hext; rewrite <- !app_assoc in Hext;
    eexists; (split; [exact Esus|]); (split; [exact Eres|]);
    (split; [reflexivity|]); (split; [exact Hd2|]);
    (split; [exact Es3|exact Hext]).
Defined.

(** Runtime suspend on a clean device changes the dirty flag. *)
Lemma mode_config_writers_witness :
  exists r s',
    run_operation (E := demo_env 1 0 0) op_runtime_suspend clean_state =
      Some (r, s') /\
    cur_conf (device s') = cur_conf (device clean_state) /\
    cur_conf_dirty (device clean_state) = 0 /\
    cur_conf_dirty (device s') = 1.
Proof.
  assert (Es : exists s',
            run_operation (E := demo_env 1 0 0) op_runtime_suspend
              clean_state = Some (0, s') /\
            cur_conf_dirty (device s') = 1).
  { eexists. split; vm_compute; reflexivity. }
  destruct Es as (s' & Es & Hd).
  exists 0, s'. split; [exact Es|].
  destruct (mode_config_writers (E := demo_env 1 0 0)
              op_runtime_suspend clean_state 0 s' Es)
    as [(Hc & _)|[(t & Ht & _)|[(e & sa & He & _)|(_ & Hc & _)]]].
  - split; [exact Hc|]. split; [reflexivity|exact Hd].
  - discriminate Ht.
  - discriminate He.
  - split; [exact Hc|]. split; [reflexivity|exact Hd].
Defined.

(** C10, as stated, fails: the runtime-suspend handler is neither
    set-timings nor start-stream (the only caller of mode-apply), and on a
    clean device it changes the dirty flag from 0 to 1. *)
Lemma mode_config_writers_counterexample :
  ~ (forall (op : hdmi_operation) (s : state) (r : Z) (s' : state),
       run_operation (E := demo_env 1 0 0) op s = Some (r, s') ->
       cur_conf (device s') <> cur_conf (device s) \/
       cur_conf_dirty (device s') <> cur_conf_dirty (device s) ->
       (exists timings, op = op_s_dv_timings timings) \/
       (exists enable, op = op_s_stream enable)).
Proof.
  intros H.
  assert (Es : exists s',
            run_operation (E := demo_env 1 0 0) op_runtime_suspend
              clean_state = Some (0, s') /\
            cur_conf_dirty (device s') = 1).
  { eexists. split; vm_compute; reflexivity. }
  destruct Es as (s' & Es & Hd).
  destruct (H op_runtime_suspend clean_state 0 s' Es) as [(t & Ht)|(e & He)].
  - right. rewrite Hd. intros Hx. discriminate Hx.
  - discriminate Ht.
  - discriminate He.
Qed.

(** ** Examples for the further properties *)

(** A value wider than its two lanes, 70000 = 65536 + 4464, and a lane
    count of 0, which stores all four lanes. *)
Lemma hdmi_writebn_lanes_witness :
  written_bytes HDMI_TG_H_FSZ_L 2
    (trace demo_state ++ lane_events HDMI_TG_H_FSZ_L 2 70000) = Some 4464 /\
  hdmi_writebn HDMI_TG_H_FSZ_L 0 70000 demo_state =
    Some (tt, after demo_state (lane_events HDMI_TG_H_FSZ_L 4 70000)).
Proof.
  assert (H0 : 0 <= 70000) by lia.
  destruct (hdmi_writebn_lanes HDMI_TG_H_FSZ_L 2 70000 demo_state H0)
    as (_ & E2).
  destruct (hdmi_writebn_lanes HDMI_TG_H_FSZ_L 0 70000 demo_state H0)
    as (E0 & _).
  split; [exact E2|exact E0].
Defined.

(** Both hot-plug flags pending (the flag register reads 12 = 8 + 4): the
    handler reads 12 and runs two acknowledge cycles on the flag
    register. *)
Lemma hdmi_irq_handler_acknowledge_witness :
  exists o1 o2,
    hdmi_irq_handler (E := demo_env 12 0 0) demo_state =
      Some (IRQ_HANDLED,
            after demo_state
              [EvReadl (HDMI_INTC_FLAG, 0) 12;
               EvReadl (HDMI_INTC_FLAG, 0) o1;
               EvWritel (HDMI_INTC_FLAG, 0) (o1 .| 8);
               EvReadl (HDMI_INTC_FLAG, 0) o2;
               EvWritel (HDMI_INTC_FLAG, 0) (o2 .| 4)]).
Proof.
  assert (Hu : 0 <= HDMI_INTC_FLAG_HPD_UNPLUG < 2 ^ 32) by (simpl; lia).
  assert (Hp : 0 <= HDMI_INTC_FLAG_HPD_PLUG < 2 ^ 32) by (simpl; lia).
  destruct (hdmi_irq_handler_acknowledge (E := demo_env 12 0 0)
              demo_state Hu Hp)
    as (flag & o1 & o2 & _ & Ee).
  assert (Ec : exists tr,
            hdmi_irq_handler (E := demo_env 12 0 0) demo_state =
              Some (IRQ_HANDLED,
                    {| device := demo_device;
                       trace := EvReadl (HDMI_INTC_FLAG, 0) 12 :: tr |})).
  { eexists. vm_compute. reflexivity. }
  destruct Ec as (tr & Ec).
  assert (Ef : flag = 12).
  { rewrite Ee in Ec. injection Ec as Ef _. exact Ef. }
  subst flag. exists o1, o2. exact Ee.
Defined.

(** The 1080-line interlaced row at 60 Hz: the transition register holds
    88 + 1100 = 1188 in both halves and the frame height register the end
    of the second field. *)
Lemma hdmi_timings_tab_fits_registers_witness :
  exists s',
    hdmi_timing_apply (E := demo_env 0 0 0) hdmi_timings_1080i60 demo_state =
      Some (tt, s') /\
    written_bytes HDMI_V_SYNC_GEN_3_0 3 (trace s') =
      Some (1188 * 2 ^ 12 + 1188) /\
    written_bytes HDMI_TG_V_FSZ_L 2 (trace s') = Some 1125.
Proof.
  assert (Hin : In {| reduced_fps := false;
                      dv_timings := V4L2_DV_BT_CEA_1920X1080I60;
                      hdmi_timings_ptr := hdmi_timings_1080i60 |}
                   hdmi_timings_tab).
  { do 8 right. left. reflexivity. }
  destruct (hdmi_timings_tab_fits_registers (E := demo_env 0 0 0) _
              demo_state Hin)
    as (s' & Es & _ & _ & Hi).
  exists s'. split; [exact Es|].
  assert (Hil : interlaced hdmi_timings_1080i60 <> 0)
    by (intros H; discriminate H).
  specialize (Hi Hil). rewrite Forall_forall in Hi.
  split.
  - apply (Hi (HDMI_V_SYNC_GEN_3_0, 3%nat, 1188 * 2 ^ 12 + 1188)).
    do 3 right. left. reflexivity.
  - apply (Hi (HDMI_TG_V_FSZ_L, 2%nat, 1125)).
    do 4 right. left. reflexivity.
Defined.

(** Set-timings to 1080 lines interlaced at 50 Hz, then get-format into a
    structure with stale contents. *)
Lemma hdmi_g_mbus_fmt_after_s_dv_timings_witness :
  exists s1 fmt',
    hdmi_s_dv_timings V4L2_DV_BT_CEA_1920X1080I50 demo_state =
      Some (0, s1) /\
    hdmi_g_mbus_fmt stale_fmt s1 = Some ((0, fmt'), s1) /\
    In (width fmt', height fmt')
       [(720, 480); (720, 576); (1280, 720); (1920, 1080)] /\
    code fmt' = V4L2_MBUS_FMT_FIXED.
Proof.
  assert (Es : exists s1,
            hdmi_s_dv_timings V4L2_DV_BT_CEA_1920X1080I50 demo_state =
              Some (0, s1)).
  { eexists. vm_compute. reflexivity. }
  destruct Es as (s1 & Es).
  destruct (hdmi_g_mbus_fmt_after_s_dv_timings _ stale_fmt demo_state s1 Es)
    as (fmt' & Eg & Hin & Hc & _).
  exists s1, fmt'. split; [exact Es|]. split; [exact Eg|].
  split; [exact Hin|exact Hc].
Defined.

(** Set-timings to 720 lines at 60 Hz on the device as probe left it: no
    event, and the next mode-apply starts with the PHY reset and the
    stored descriptor. *)
Lemma hdmi_s_dv_timings_deferred_witness :
  exists s1 got ra s2 o1 o2 rp rest,
    hdmi_s_dv_timings V4L2_DV_BT_CEA_1280X720P60 demo_state = Some (0, s1) /\
    trace s1 = trace demo_state /\
    hdmi_g_dv_timings s1 = Some ((0, got), s1) /\
    hdmi_conf_apply (E := demo_env 1 0 0) s1 = Some (ra, s2) /\
    trace s2 =
      trace demo_state ++ phy_reset_events o1 o2 ++
      [EvSubdevCall demo_phy (video_s_dv_timings got) rp] ++ rest.
Proof.
  assert (Es : exists s1,
            hdmi_s_dv_timings V4L2_DV_BT_CEA_1280X720P60 demo_state =
              Some (0, s1)).
  { eexists. vm_compute. reflexivity. }
  destruct Es as (s1 & Es).
  destruct (hdmi_s_dv_timings_deferred (E := demo_env 1 0 0) _ demo_state
              0 s1 Es)
    as (Ht & _ & _ & _ & Hok).
  destruct (Hok eq_refl demo_phy eq_refl)
    as (got & ra & s2 & o1 & o2 & rp & rest & Eg & Ea & Et & _).
  exists s1, got, ra, s2, o1, o2, rp, rest.
  split; [exact Es|]. split; [exact Ht|]. split; [exact Eg|].
  split; [exact Ea|exact Et].
Defined.

(** Index 3 is the row that allows reduced fps; index 10 is past the end
    of the catalogue. *)
Lemma hdmi_enum_dv_timings_bounds_witness :
  (exists row,
     nth_error hdmi_timings_tab 3 = Some row /\
     reduced_fps row = true /\
     hdmi_enum_dv_timings {| index := 3; pad := 0; timings := vga_dv |}
       demo_state =
       Some ((0, {| index := 3; pad := 0; timings := dv_timings row |}),
             demo_state)) /\
  hdmi_enum_dv_timings {| index := 10; pad := 0; timings := vga_dv |}
    demo_state =
    Some ((- EINVAL, {| index := 10; pad := 0; timings := vga_dv |}),
          demo_state).
Proof.
  assert (H3 : 0 <= 3) by lia.
  assert (H10 : 0 <= 10) by lia.
  destruct (hdmi_enum_dv_timings_bounds
              {| index := 3; pad := 0; timings := vga_dv |} demo_state H3)
    as (_ & Hok).
  destruct (hdmi_enum_dv_timings_bounds
              {| index := 10; pad := 0; timings := vga_dv |} demo_state H10)
    as (Hbad & _).
  split.
  - destruct (Hok eq_refl) as (row & Hn & He & Hr & _); [simpl; lia|].
    exists row. split; [exact Hn|].
    assert (Ht : reduced_fps row = true) by (apply Hr; reflexivity).
    split; [exact Ht|]. rewrite Ht in He. exact He.
  - apply Hbad. right. simpl. lia.
Defined.

(** The comparison of the demo instance looks at the type and the payload
    only; the descriptor enumerated at index 7 is accepted. *)
Lemma hdmi_enum_then_s_dv_timings_witness :
  exists e' row s'',
    hdmi_enum_dv_timings {| index := 7; pad := 0; timings := vga_dv |}
      demo_state = Some ((0, e'), demo_state) /\
    In row hdmi_timings_tab /\
    hdmi_s_dv_timings (timings e') demo_state = Some (0, s'') /\
    cur_conf (device s'') = Some (hdmi_timings_ptr row) /\
    cur_conf_dirty (device s'') = 1.
Proof.
  assert (Hrefl : forall row, In row hdmi_timings_tab ->
            v4l2_match_dv_timings (dv_timings row) (dv_timings row) 0 = true).
  { intros row Hin. simpl in Hin.
    repeat (destruct Hin as [<-|Hin]; [reflexivity|]). contradiction. }
  assert (Hflag : forall a b,
            v4l2_match_dv_timings a (clear_can_reduce_fps b) 0 =
            v4l2_match_dv_timings a b 0).
  { intros a b. reflexivity. }
  assert (Ee : exists e',
            hdmi_enum_dv_timings {| index := 7; pad := 0; timings := vga_dv |}
              demo_state = Some ((0, e'), demo_state)).
  { eexists. vm_compute. reflexivity. }
  destruct Ee as (e' & Ee).
  destruct (hdmi_enum_then_s_dv_timings _ e' demo_state demo_state
              Hrefl Hflag Ee)
    as (row & s'' & Hin & _ & Es & Hc & Hd).
  exists e', row, s''. split; [exact Ee|]. split; [exact Hin|].
  split; [exact Es|]. split; [exact Hc|exact Hd].
Defined.

(** Power-on with the repeater answering 0: the result is 0 and the power
    stays on. *)
Lemma hdmi_runtime_resume_outcome_witness :
  exists s' rr rm,
    hdmi_runtime_resume (E := demo_env 0 0 0) demo_state = Some (0, s') /\
    0 <= rr /\
    s' = after demo_state
           ([EvRegulatorBulkEnable rr; EvClkEnable hdmiphy;
             EvClkSetParent sclk_hdmi sclk_pixel; EvClkEnable sclk_hdmi] ++
            [EvSubdevCall demo_mhl (core_s_power 1) rm]).
Proof.
  assert (Es : exists s',
            hdmi_runtime_resume (E := demo_env 0 0 0) demo_state =
              Some (0, s')).
  { eexists. vm_compute. reflexivity. }
  destruct Es as (s' & Es).
  destruct (hdmi_runtime_resume_outcome (E := demo_env 0 0 0)
              demo_state 0 s' Es)
    as (d & rr & rm & Hs & Hok & _).
  destruct (proj1 Hok eq_refl) as (Hr & _ & Hd).
  exists s', rr, rm. split; [exact Es|]. split; [exact Hr|].
  rewrite Hs, Hd. reflexivity.
Defined.

(** Power on, start, stop, power off: over the whole sequence the clocks
    follow the power. *)
Lemma run_operations_clocks_follow_power_witness :
  exists rs s' d,
    run_operations (E := demo_env 1 0 0)
      [op_runtime_resume; op_s_stream 1; op_s_stream 0; op_runtime_suspend]
      demo_state = Some (rs, s') /\
    rs = [0; 0; 0; 0] /\
    trace s' = trace demo_state ++ d /\
    clocks_follow_power d.
Proof.
  assert (Es : exists s',
            run_operations (E := demo_env 1 0 0)
              [op_runtime_resume; op_s_stream 1; op_s_stream 0;
               op_runtime_suspend]
              demo_state = Some ([0; 0; 0; 0], s')).
  { eexists. vm_compute. reflexivity. }
  destruct Es as (s' & Es).
  destruct (run_operations_clocks_follow_power (E := demo_env 1 0 0)
              _ demo_state _ s' Es)
    as (d & Ht & Hf).
  exists [0; 0; 0; 0], s', d. split; [exact Es|]. split; [reflexivity|].
  split; [exact Ht|exact Hf].
Defined.

(** The demo device is the one that attach leaves behind; a sequence with
    a refused set-timings, a failing start and an enumeration past the
    end runs to its end. *)
Lemma run_operations_attached_witness :
  exists rs s' fmt',
    run_operations (E := demo_env 0 0 0)
      [op_s_dv_timings vga_dv; op_s_stream 1;
       op_enum_dv_timings {| index := 10; pad := 0; timings := vga_dv |};
       op_runtime_suspend]
      demo_state = Some (rs, s') /\
    List.length rs = 4%nat /\
    attached demo_phy (Some demo_mhl) (device s') /\
    hdmi_g_mbus_fmt stale_fmt s' = Some ((0, fmt'), s').
Proof.
  assert (Hp : hdmi_probe_device demo_phy (Some demo_mhl) = Some demo_device)
    by reflexivity.
  destruct (run_operations_attached (E := demo_env 0 0 0)
              demo_phy (Some demo_mhl) demo_device
              [op_s_dv_timings vga_dv; op_s_stream 1;
               op_enum_dv_timings
                 {| index := 10; pad := 0; timings := vga_dv |};
               op_runtime_suspend]
              [] stale_fmt Hp)
    as (rs & s' & Er & Hl & Hat & fmt' & Eg).
  exists rs, s', fmt'. split; [exact Er|]. split; [exact Hl|].
  split; [exact Hat|exact Eg].
Defined.

(** The PHY rejects the timings with -22: start-stream hands that back and
    the rejected call is the last event. *)
Lemma hdmi_streamon_error_codes_witness :
  exists s' d op,
    hdmi_streamon (E := demo_env 1 (-22) 0) demo_state = Some (-22, s') /\
    trace s' = trace demo_state ++ d ++ [EvSubdevCall demo_phy op (-22)] /\
    (op = video_s_dv_timings (cur_timings demo_device) \/
     op = video_s_stream 1).
Proof.
  assert (Es : exists s',
            hdmi_streamon (E := demo_env 1 (-22) 0) demo_state =
              Some (-22, s')).
  { eexists. vm_compute. reflexivity. }
  destruct Es as (s' & Es).
  assert (Hr : -22 <> 0) by lia.
  destruct (hdmi_streamon_error_codes (E := demo_env 1 (-22) 0)
              demo_state (-22) s' Es Hr)
    as [(Hn & _)|[(phy & d & op & Hphy & Ht & Hop)|(He & _)]].
  - discriminate Hn.
  - injection Hphy as <-. exists s', d, op.
    split; [exact Es|]. split; [exact Ht|exact Hop].
  - vm_compute in He. discriminate He.
Defined.

(** Start, stop, and mode-apply again: nothing left to do. *)
Lemma hdmi_restart_skips_conf_apply_witness :
  exists s1 s2,
    hdmi_streamon (E := demo_env 1 0 0) demo_state = Some (0, s1) /\
    hdmi_streamoff (E := demo_env 1 0 0) s1 = Some (0, s2) /\
    cur_conf_dirty (device s2) = 0 /\
    hdmi_conf_apply (E := demo_env 1 0 0) s2 = Some (0, s2).
Proof.
  assert (Es : exists s1 s2,
            hdmi_streamon (E := demo_env 1 0 0) demo_state = Some (0, s1) /\
            hdmi_streamoff (E := demo_env 1 0 0) s1 = Some (0, s2)).
  { eexists. eexists. split; vm_compute; reflexivity. }
  destruct Es as (s1 & s2 & E1 & E2).
  destruct (hdmi_restart_skips_conf_apply (E := demo_env 1 0 0)
              demo_state s1 s2 0 E1 E2)
    as (_ & _ & Hd & Ea).
  exists s1, s2. split; [exact E1|]. split; [exact E2|].
  split; [exact Hd|exact Ea].
Defined.

#[local] Existing Instance demo_linux_err.

(** The interrupt line is busy (-16): probe fails with that code and
    holds nothing afterwards. *)
Lemma hdmi_probe_failure_releases_witness :
  exists d,
    hdmi_probe (P := demo_platform "" (-16)) (Some demo_pdata) [] =
      Some ((-16, None), d) /\
    probe_error (-16) d /\
    held_after nothing_held d = Some nothing_held.
Proof.
  assert (Ep : exists dev d,
            hdmi_probe (P := demo_platform "" (-16)) (Some demo_pdata) [] =
              Some ((-16, dev), d)).
  { eexists. eexists. vm_compute. reflexivity. }
  destruct Ep as (dev & d & Ep).
  assert (Hr : -16 <> 0) by lia.
  destruct (hdmi_probe_failure_releases (P := demo_platform "" (-16))
              (Some demo_pdata) [] (-16) dev d Ep Hr)
    as (Hdev & d0 & Hd & He & Hh & _).
  subst dev. change ([] ++ d0) with d0 in Hd. subst d0.
  exists d. split; [exact Ep|]. split; [exact He|exact Hh].
Defined.

(** Probe on a complete platform, then remove: nothing is held. *)
Lemma hdmi_probe_remove_releases_witness :
  exists hdev hdev' d1 d2,
    hdmi_probe (P := demo_platform "" 0) (Some demo_pdata) [] =
      Some ((0, Some hdev), d1) /\
    core hdev = demo_device /\
    hdmi_remove hdev d1 = Some ((0, hdev'), d1 ++ d2) /\
    res hdev' = resources_cleared /\
    held_after nothing_held (d1 ++ d2) = Some nothing_held.
Proof.
  assert (Ep : exists hdev d1,
            hdmi_probe (P := demo_platform "" 0) (Some demo_pdata) [] =
              Some ((0, Some hdev), d1) /\
            core hdev = demo_device).
  { eexists. eexists. split; vm_compute; reflexivity. }
  destruct Ep as (hdev & d1 & Ep & Hc).
  destruct (hdmi_probe_remove_releases (P := demo_platform "" 0)
              (Some demo_pdata) [] hdev d1 Ep)
    as (hdev' & d1' & d2 & Hd & Er & Hres & _ & _ & _ & Hh).
  change ([] ++ d1') with d1' in Hd. subst d1'.
  exists hdev, hdev', d1, d2. split; [exact Ep|]. split; [exact Hc|].
  split; [exact Er|]. split; [exact Hres|exact Hh].
Defined.

(** Probe on a complete platform, then power on and start the stream. *)
Lemma hdmi_probe_then_operations_witness :
  exists hdev d1 rs s',
    hdmi_probe (P := demo_platform "" 0) (Some demo_pdata) [] =
      Some ((0, Some hdev), d1) /\
    run_operations (E := demo_env 1 0 0)
      [op_runtime_resume; op_s_stream 1]
      {| device := core hdev; trace := [] |} = Some (rs, s') /\
    List.length rs = 2%nat /\
    attached demo_phy (Some demo_mhl) (device s').
Proof.
  assert (Ep : exists hdev d1,
            hdmi_probe (P := demo_platform "" 0) (Some demo_pdata) [] =
              Some ((0, Some hdev), d1) /\
            phy_sd (core hdev) = Some demo_phy /\
            mhl_sd (core hdev) = Some demo_mhl).
  { eexists. eexists. split; [|split]; vm_compute; reflexivity. }
  destruct Ep as (hdev & d1 & Ep & Hphy & Hmhl).
  destruct (hdmi_probe_then_operations (E := demo_env 1 0 0)
              (P := demo_platform "" 0)
              (Some demo_pdata) [] hdev d1
              [op_runtime_resume; op_s_stream 1] [] Ep)
    as (_ & phy & rs & s' & Hp & Er & Hl & Hat).
  rewrite Hphy in Hp. injection Hp as <-. rewrite Hmhl in Hat.
  exists hdev, d1, rs, s'. split; [exact Ep|]. split; [exact Er|].
  split; [exact Hl|exact Hat].
Defined.

(** Start-stream on a dirty device set to the 1080-line interlaced mode at
    60 Hz: the timing generator is given 1920 by 540, get-format reports
    1920 by 1080. *)
Lemma hdmi_streamon_programs_cur_conf_witness :
  exists s' fmt',
    hdmi_streamon (E := demo_env 1 0 0)
      {| device :=
           {| phy_sd := Some demo_phy; mhl_sd := Some demo_mhl;
              cur_conf := Some hdmi_timings_1080i60; cur_conf_dirty := 1;
              cur_timings := cur_timings demo_device |};
         trace := [] |} = Some (0, s') /\
    hdmi_g_mbus_fmt stale_fmt s' =
      Some ((0, fmt'), s') /\
    written_bytes HDMI_TG_HACT_SZ_L 2 (trace s') = Some 1920 /\
    written_bytes HDMI_TG_VACT_SZ_L 2 (trace s') = Some 540 /\
    width fmt' = 1920 /\ height fmt' = 1080.
Proof.
  set (s := {| device :=
           {| phy_sd := Some demo_phy; mhl_sd := Some demo_mhl;
              cur_conf := Some hdmi_timings_1080i60; cur_conf_dirty := 1;
              cur_timings := cur_timings demo_device |};
         trace := [] |}).
  assert (Es : exists s', hdmi_streamon (E := demo_env 1 0 0) s = Some (0, s')).
  { eexists. vm_compute. reflexivity. }
  destruct Es as (s' & Es).
  assert (Hin : In {| reduced_fps := false;
                      dv_timings := V4L2_DV_BT_CEA_1920X1080I60;
                      hdmi_timings_ptr := hdmi_timings_1080i60 |}
                   hdmi_timings_tab).
  { do 8 right. left. reflexivity. }
  assert (Hd : cur_conf_dirty (device s) <> 0)
    by (intros H; vm_compute in H; discriminate H).
  destruct (hdmi_streamon_programs_cur_conf (E := demo_env 1 0 0) _
              s s' stale_fmt Hin eq_refl Hd Es)
    as (Hall & _ & fmt' & lines & Eg & Hw & Hl & Hh).
  rewrite Forall_forall in Hall.
  assert (Hw' : written_bytes HDMI_TG_HACT_SZ_L 2 (trace s') = Some 1920).
  { apply (Hall (HDMI_TG_HACT_SZ_L, 2%nat, 1920)).
    do 6 right. left. reflexivity. }
  assert (Hl' : written_bytes HDMI_TG_VACT_SZ_L 2 (trace s') = Some 540).
  { apply (Hall (HDMI_TG_VACT_SZ_L, 2%nat, 540)).
    do 9 right. left. reflexivity. }
  exists s', fmt'. split; [exact Es|]. split; [exact Eg|].
  split; [exact Hw'|]. split; [exact Hl'|].
  rewrite Hw' in Hw. rewrite Hl' in Hl.
  injection Hw as Hw. injection Hl as Hl.
  split; [symmetry; exact Hw|].
  rewrite Hh, <- Hl. reflexivity.
Defined.

(** On the register map of the header the masks are 32-bit words. *)
Lemma hdmi_reg_init_registers_witness :
  exists o1 o2 o3 o4 v2 tr,
    hdmi_reg_init (E := demo_env 0 0 0) demo_state =
      Some (tt, after demo_state tr) /\
    tr = [EvReadl (HDMI_INTC_CON, 0) o1;
          EvWritel (HDMI_INTC_CON, 0)
            (o1 .| (HDMI_INTC_EN_GLOBAL .| HDMI_INTC_EN_HPD_PLUG
                      .| HDMI_INTC_EN_HPD_UNPLUG));
          EvReadl (HDMI_MODE_SEL, 0) o2;
          EvWritel (HDMI_MODE_SEL, 0) v2;
          EvReadl (HDMI_CON_2, 0) o3;
          EvWritel (HDMI_CON_2, 0)
            (o3 .| (HDMI_DVI_PERAMBLE_EN .| HDMI_DVI_BAND_EN));
          EvReadl (HDMI_CON_0, 0) o4;
          EvWritel (HDMI_CON_0, 0) (o4 .& .~ HDMI_BLUE_SCR_EN);
          EvWriteb (HDMI_BLUE_SCREEN_0, 0) 18;
          EvWriteb (HDMI_BLUE_SCREEN_1, 0) 52;
          EvWriteb (HDMI_BLUE_SCREEN_2, 0) 86] /\
    v2 .& HDMI_MODE_MASK = HDMI_MODE_DVI_EN .& HDMI_MODE_MASK.
Proof.
  assert (H1 : 0 <= HDMI_INTC_EN_GLOBAL .| HDMI_INTC_EN_HPD_PLUG
                      .| HDMI_INTC_EN_HPD_UNPLUG < 2 ^ 32)
    by (vm_compute; split; [intros H; discriminate H|reflexivity]).
  assert (H2 : 0 <= HDMI_MODE_MASK < 2 ^ 32)
    by (vm_compute; split; [intros H; discriminate H|reflexivity]).
  assert (H3 : 0 <= HDMI_DVI_PERAMBLE_EN .| HDMI_DVI_BAND_EN < 2 ^ 32)
    by (vm_compute; split; [intros H; discriminate H|reflexivity]).
  destruct (hdmi_reg_init_registers (E := demo_env 0 0 0) demo_state H1 H2 H3)
    as (o1 & o2 & o3 & o4 & v2 & Er & Hv & _).
  exists o1, o2, o3, o4, v2. eexists.
  split; [exact Er|]. split; [reflexivity|exact Hv].
Defined.
